(** * mmctools.coupling.sowfa: SOWFA input writers

    A shallow embedding of [mmctools/coupling/sowfa.py]: the two writer
    classes [InternalCoupling] (pandas data frames) and [BoundaryCoupling]
    (xarray datasets), the numpy/pandas/xarray operations they call, and the
    files, directories and diagnostics they produce.

    Conventions of the embedding.
    - A numpy scalar is an element of an abstract type [A] that comes with the
      operations of [DType]; timestamps and durations are [Z] nanoseconds, a
      [t_index] is a rational number of seconds.
    - Python exceptions are values of [exn]; every method is a computation of
      the monad [M S]: it threads the state [S] (the object and the outside
      world) and the state reached when an exception is raised is kept.
    - File contents are byte lists; text is written as its ASCII bytes. *)

From Stdlib Require Import ZArith QArith Lia Ascii String.
From Stdlib.Strings Require Import Byte.
From stdpp Require Import base list gmap strings pretty.

Set Default Proof Using "Type".
Local Open Scope string_scope.
Local Open Scope nat_scope.

(* ================================================================== *)
(** * Part I: definitions *)
(* ================================================================== *)

(** ** Scalars *)

(** What the code uses of the element type of its arrays (float64 in
    practice). [fmt_g p v] is Python's ['%.{p}g' % v]; ['%g'] is [fmt_g 6]. *)
Class DType (A : Type) := {
  dt_eq_dec :: EqDecision A;
  dt_zero : A;                      (* 0.0 *)
  dt_nan : A;                       (* the missing value *)
  dt_isna : A -> bool;              (* pd.isna *)
  dt_leb : A -> A -> bool;          (* the order labels are sorted by *)
  dt_mul : A -> A -> A;
  dt_of_seconds : Q -> A;           (* a duration over one second, as a float *)
  dt_of_stamp : Z -> A;             (* a datetime64 cell *)
  dt_of_nat : nat -> A;             (* an integer label *)
  fmt_g : nat -> A -> string;
  dt_tobytes : A -> list byte;      (* the item's bytes in native order *)
  dt_zero_not_na : dt_isna dt_zero = false
}.

(** ** Exceptions and the state-exception monad *)

Inductive assertion : Type :=
  | A_multiindex_datetime          (* first multiindex level is not "datetime" *)
  | A_multiindex_height            (* second multiindex level is not "height" *)
  | A_no_data                      (* No data for requested period of time *)
  | A_field_in_df (f : string)     (* Field f not in df *)
  | A_field_complete (f : string)  (* Field f is not complete *)
  | A_ics_complete (f : string)
  | A_all_momentum                 (* Need to specify all momentum components *)
  | A_pivot_complete (f : string)
  | A_dim_expected (d : string)
  | A_coord_1d (d : string)
  | A_one_constdim
  | A_two_bndry_dims
  | A_all_components (dvars : list string)
  | A_three_components
  | A_scalar_var (dvar : string).

Inductive exn : Type :=
  | AssertionError (a : assertion)
  | KeyError (k : string)
  | AttributeError (attr : string)
  | ValueError (what : string)
  | IndexError
  | TypeError (what : string)
  | Unmodelled (what : string).   (* behaviour of a library outside this model *)

Inductive result (X : Type) : Type :=
  | Ok (x : X)
  | Raise (e : exn).
Arguments Ok {X} x.
Arguments Raise {X} e.

(** Pure code that can raise: [x ← m; k] stops at the first exception. *)
#[export] Instance result_ret : MRet result := fun _ x => Ok x.
#[export] Instance result_bind : MBind result :=
  fun _ _ f m => match m with Ok x => f x | Raise e => Raise e end.

Fixpoint fold_result {X Acc} (f : Acc -> X -> result Acc) (acc : Acc)
    (l : list X) : result Acc :=
  match l with
  | [] => Ok acc
  | x :: l' => acc' ← f acc x; fold_result f acc' l'
  end.

(** Code with effects: a computation on a state [S] that returns or raises;
    the state reached when it raises is kept. *)
Definition M (S X : Type) : Type := S -> S * result X.

Definition ret {S X} (x : X) : M S X := fun s => (s, Ok x).
Definition raise {S X} (e : exn) : M S X := fun s => (s, Raise e).
Definition bind {S X Y} (m : M S X) (k : X -> M S Y) : M S Y :=
  fun s => match m s with
           | (s', Ok x) => k x s'
           | (s', Raise e) => (s', Raise e)
           end.
Definition get {S} : M S S := fun s => (s, Ok s).
Definition modify {S} (f : S -> S) : M S unit := fun s => (f s, Ok tt).
Definition lift {S X} (r : result X) : M S X := fun s => (s, r).
Definition assert {S} (b : bool) (a : assertion) : M S unit :=
  if b then ret tt else raise (AssertionError a).

Declare Scope monad_scope.
Delimit Scope monad_scope with monad.
Notation "x <- m ;; k" := (bind m (fun x => k))
  (at level 100, m at next level, right associativity) : monad_scope.
Notation "m ;; k" := (bind m (fun _ => k))
  (at level 100, right associativity) : monad_scope.
Local Open Scope monad_scope.

(** [for x in l: body x], stopping at the first exception. *)
Fixpoint for_each {S X} (l : list X) (body : X -> M S unit) : M S unit :=
  match l with
  | [] => ret tt
  | x :: l' => body x ;; for_each l' body
  end.

(** The same loop over a pure result. *)
Fixpoint for_result {X} (l : list X) (body : X -> result unit) : result unit :=
  match l with
  | [] => Ok tt
  | x :: l' => match body x with Ok _ => for_result l' body | Raise e => Raise e end
  end.

(** ** The outside world: files, directories, standard output *)

(** A file opened through [gzip.open] holds a gzip stream; the model keeps
    the bytes that were written into the stream. *)
Inductive content : Type :=
  | Plain (b : list byte)
  | Gzipped (b : list byte).

Definition content_bytes (c : content) : list byte :=
  match c with Plain b | Gzipped b => b end.

Definition content_append (c : content) (b : list byte) : content :=
  match c with
  | Plain b0 => Plain (b0 ++ b)
  | Gzipped b0 => Gzipped (b0 ++ b)
  end.

(** The lines the code prints. *)
Inductive message (A : Type) : Type :=
  | MsgBoundary (constdim : string) (value : A + Z)
      (* Input is an {:s}-boundary at {:g} *)
  | MsgCompressedBinary                (* the six lines of the note *)
  | MsgWrotePoints (N : nat) (fpath : string)
  | MsgSkipping (ti : Q)               (* Skipping t= ti *)
  | MsgWroteVectors (N : nat) (fpath : string) (tstamp : Z)
  | MsgWroteScalars (N : nat) (fpath : string) (tstamp : Z).
Arguments MsgBoundary {A}.
Arguments MsgCompressedBinary {A}.
Arguments MsgWrotePoints {A}.
Arguments MsgSkipping {A}.
Arguments MsgWroteVectors {A}.
Arguments MsgWroteScalars {A}.

Record World (A : Type) : Type := mkWorld {
  w_files : gmap string content;
  w_dirs : gset string;
  w_stdout : list (message A)
}.
Arguments mkWorld {A}.
Arguments w_files {A}.
Arguments w_dirs {A}.
Arguments w_stdout {A}.

Definition empty_world {A} : World A := mkWorld ∅ ∅ [].

(** The state of a method call: the object ([self]) and the world. *)
Record State (A Self : Type) : Type := mkState {
  st_self : Self;
  st_world : World A
}.
Arguments mkState {A Self}.
Arguments st_self {A Self}.
Arguments st_world {A Self}.

Section WorldOps.
Context {A Self : Type}.
Local Abbreviation St := (State A Self).

Definition get_self : M St Self := fun s => (s, Ok (st_self s)).
Definition set_self (x : Self) : M St unit :=
  modify (fun s => mkState x (st_world s)).
Definition modify_world (f : World A -> World A) : M St unit :=
  modify (fun s => mkState (st_self s) (f (st_world s))).

Definition print (m : message A) : M St unit :=
  modify_world (fun w => mkWorld (w_files w) (w_dirs w) (w_stdout w ++ [m])).

(** [os.path.isdir] *)
Definition isdir (p : string) : M St bool :=
  fun s => (s, Ok (bool_decide (p ∈ w_dirs (st_world s)))).

(** [os.mkdir], [os.makedirs]: the directory exists afterwards. The file
    system is taken to accept every creation: the parents of a new entry
    exist and no entry of the other kind has its name, so that neither these
    calls nor [open] raise; the parents [os.makedirs] creates on the way are
    not recorded. *)
Definition makedirs (p : string) : M St unit :=
  modify_world (fun w => mkWorld (w_files w) ({[p]} ∪ w_dirs w) (w_stdout w)).

(** [open(p, 'w')] / [open(p, 'wb')] / [gzip.open(p, ...)]: the file is
    created or truncated, on a file system that accepts the creation. *)
Definition fopen (p : string) (gz : bool) : M St unit :=
  modify_world (fun w =>
    mkWorld (<[p := if gz then Gzipped [] else Plain []]> (w_files w))
            (w_dirs w) (w_stdout w)).

(** [f.write(b)] on the file opened at [p]. *)
Definition fwrite (p : string) (b : list byte) : M St unit :=
  modify_world (fun w =>
    mkWorld (alter (fun c => content_append c b) p (w_files w))
            (w_dirs w) (w_stdout w)).

(** A computation that leaves the object untouched. *)
Definition keeps_self {X} (m : M St X) : Prop :=
  forall s, st_self (fst (m s)) = st_self s.

(** A computation that removes no file. *)
Definition keeps_files {X} (m : M St X) : Prop :=
  forall s p, is_Some (w_files (st_world s) !! p) ->
              is_Some (w_files (st_world (fst (m s))) !! p).

(** A computation that fails no assertion. *)
Definition never_asserts {X} (m : M St X) : Prop :=
  forall s s' a, m s <> (s', Raise (AssertionError a)).

Definition fwrite_str (p : string) (s : string) : M St unit :=
  fwrite p (list_byte_of_string s).

(** A call of [np.savetxt] on the file opened at [p]. *)
Definition fsavetxt (p : string) (out : string * result unit) : M St unit :=
  fwrite_str p (fst out) ;; lift (snd out).
End WorldOps.

(** ** Strings, paths and Python formatting *)

Definition nl : string := String (ascii_of_nat 10) EmptyString.

(** A str written to a file, or [bytes(s, 'utf-8')]: every literal of the
    code is ASCII. *)
Definition str_bytes (s : string) : list byte := list_byte_of_string s.

Fixpoint endswith (s suffix : string) : bool :=
  if String.eqb s suffix then true
  else match s with
       | EmptyString => false
       | String _ s' => endswith s' suffix
       end.

(** [os.path.join(a, b)] on a POSIX system. *)
Definition path_join (a b : string) : string :=
  if String.prefix "/" b then b
  else if String.eqb a EmptyString || endswith a "/" then a +:+ b
  else a +:+ "/" +:+ b.

(** [s.replace('\n', '\n' + comments)] *)
Fixpoint replace_nl (s comments : string) : string :=
  match s with
  | EmptyString => EmptyString
  | String c s' =>
      if Ascii.eqb c (ascii_of_nat 10)
      then String c (comments +:+ replace_nl s' comments)
      else String c (replace_nl s' comments)
  end.

(** [s.count('%')] *)
Fixpoint count_percent (s : string) : nat :=
  match s with
  | EmptyString => 0
  | String c s' => ((if Ascii.eqb c "%" then 1 else 0) + count_percent s')%nat
  end.

Definition digit_of (c : ascii) : option nat :=
  let n := nat_of_ascii c in
  if ((48 <=? n) && (n <=? 57))%nat then Some (n - 48) else None.

(** The scanner state of the [%] operator. *)
Inductive fmt_state : Type :=
  | FLit                 (* literal text *)
  | FPct                 (* after a percent sign *)
  | FDot                 (* after the dot of a precision *)
  | FPrec (p : nat).     (* inside the digits of a precision *)

Section Formatting.
Context {A : Type} `{!DType A}.

(** [fmt % tuple(args)]: the conversions the code uses are [%g] and
    [%.<p>g]; [%%] is a literal percent sign. Too few or too many
    arguments, or any other conversion, is a TypeError. *)
Fixpoint pyformat_go (st : fmt_state) (fmt : string) (args : list A)
  : option string :=
  match fmt with
  | EmptyString =>
      match st, args with
      | FLit, [] => Some EmptyString
      | _, _ => None
      end
  | String c rest =>
      let conv (p : nat) :=
        match args with
        | [] => None
        | a :: args' =>
            match pyformat_go FLit rest args' with
            | Some s => Some (fmt_g p a +:+ s)
            | None => None
            end
        end in
      match st with
      | FLit =>
          if Ascii.eqb c "%" then pyformat_go FPct rest args
          else match pyformat_go FLit rest args with
               | Some s => Some (String c s)
               | None => None
               end
      | FPct =>
          if Ascii.eqb c "g" then conv 6
          else if Ascii.eqb c "." then pyformat_go FDot rest args
          else if Ascii.eqb c "%" then
            match pyformat_go FLit rest args with
            | Some s => Some (String c s)
            | None => None
            end
          else None
      | FDot =>
          if Ascii.eqb c "g" then conv 0
          else match digit_of c with
               | Some d => pyformat_go (FPrec d) rest args
               | None => None
               end
      | FPrec p =>
          if Ascii.eqb c "g" then conv p
          else match digit_of c with
               | Some d => pyformat_go (FPrec (10 * p + d)) rest args
               | None => None
               end
      end
  end.

Definition pyformat (fmt : string) (args : list A) : result string :=
  match pyformat_go FLit fmt args with
  | Some s => Ok s
  | None => Raise (TypeError "format")
  end.

(** The [fmt] argument of [np.savetxt]: one string, or a list with one
    entry per column. *)
Inductive fmt_arg : Type :=
  | FmtStr (s : string)
  | FmtList (l : list string).

(** The row format [np.savetxt] builds (the delimiter is one space). *)
Definition savetxt_format (fmt : fmt_arg) (ncol : nat) : result string :=
  match fmt with
  | FmtList l =>
      if length l =? ncol then Ok (String.concat " " l)
      else Raise (AttributeError "fmt has wrong shape")
  | FmtStr s =>
      let n := count_percent s in
      if n =? 1 then Ok (String.concat " " (replicate ncol s))
      else if n =? ncol then Ok s
      else Raise (ValueError "fmt has wrong number of % formats")
  end.

(** The rows are written one by one: when a row cannot be formatted, the
    text of the rows before it has been written already. *)
Fixpoint savetxt_rows (format : string) (rows : list (list A))
  : string * result unit :=
  match rows with
  | [] => (EmptyString, Ok tt)
  | r :: rows' =>
      match pyformat format r with
      | Raise e => (EmptyString, Raise e)
      | Ok line =>
          let '(s, r') := savetxt_rows format rows' in
          (line +:+ nl +:+ s, r')
      end
  end.

(** [np.savetxt(fid, X, fmt, header, footer, comments)] for a 2-D [X] with
    [ncol] columns: the text written to [fid], and whether the call
    returned. The row format is built before anything is written. *)
Definition savetxt (ncol : nat) (rows : list (list A)) (fmt : fmt_arg)
    (header footer comments : string) : string * result unit :=
  match savetxt_format fmt ncol with
  | Raise e => (EmptyString, Raise e)
  | Ok format =>
      let head := if String.eqb header EmptyString then EmptyString
                  else comments +:+ replace_nl header comments +:+ nl in
      let foot := if String.eqb footer EmptyString then EmptyString
                  else comments +:+ replace_nl footer comments +:+ nl in
      match savetxt_rows format rows with
      | (body, Raise e) => (head +:+ body, Raise e)
      | (body, Ok _) => (head +:+ body +:+ foot, Ok tt)
      end
  end.

(** A tuple laid out as [(v1 v2 ... vn)] after [indent]: the first column
    by ['%.{p1}g'], every other column by ['%.{p}g'] after one space. *)
Definition render_tuple (indent : string) (p1 p : nat) (row : list A)
  : string :=
  indent +:+ "(" +:+
  match row with
  | [] => ")"
  | v :: vs => fmt_g p1 v +:+ foldr (fun v s => " " +:+ fmt_g p v +:+ s) ")" vs
  end.

(** A bare value by ['%.{p}g'], after [indent]. *)
Definition render_scalar (indent : string) (p : nat) (row : list A) : string :=
  indent +:+ match row with
             | [] => EmptyString
             | v :: _ => fmt_g p v
             end.

(** One rendered row per line. *)
Definition render_lines (render : list A -> string) (rows : list (list A))
  : string :=
  foldr (fun r s => render r +:+ nl +:+ s) EmptyString rows.

(** A 1-D array is written as one column. *)
Definition savetxt_1d (xs : list A) (fmt : fmt_arg)
    (header footer comments : string) : string * result unit :=
  savetxt 1 (map (fun v => [v]) xs) fmt header footer comments.
End Formatting.

(** ** pandas: data frames *)

Inductive index_kind : Type := DatetimeIndex | TimedeltaIndex | OtherIndex.

(** A frame with a single index level: one label per row and, per column,
    one cell per row. Labels are nanoseconds (timestamps or durations). *)
Record DataFrame (A : Type) : Type := mkDF {
  df_index_name : option string;
  df_index_kind : index_kind;
  df_index : list Z;
  df_columns : list (string * list A)
}.
Arguments mkDF {A}.
Arguments df_index_name {A}.
Arguments df_index_kind {A}.
Arguments df_index {A}.
Arguments df_columns {A}.

(** The frame a caller passes: single-indexed, or with a two-level
    MultiIndex whose second level holds heights. *)
Inductive frame (A : Type) : Type :=
  | Frame (df : DataFrame A)
  | MultiFrame (name0 name1 : option string) (kind0 : index_kind)
      (level0 : list Z) (level1 : list A) (cols : list (string * list A)).
Arguments Frame {A}.
Arguments MultiFrame {A}.

(** [df.loc[label]]: one matching row comes back as a Series (the row, keyed
    by column name), several as a frame. *)
Inductive loc_result (A : Type) : Type :=
  | LocSeries (row : list (string * A))
  | LocFrame (df : DataFrame A).
Arguments LocSeries {A}.
Arguments LocFrame {A}.

(** [s.unique()]: the distinct values in order of first appearance. *)
Fixpoint unique_from {T} `{EqDecision T} (seen l : list T) : list T :=
  match l with
  | [] => []
  | x :: l' => if decide (x ∈ seen) then unique_from seen l'
               else x :: unique_from (x :: seen) l'
  end.
Definition unique {T} `{EqDecision T} (l : list T) : list T := unique_from [] l.

(** Sorted distinct labels, as the axes of a pivot table are. *)
Fixpoint insert_label {T} `{EqDecision T} (leb : T -> T -> bool) (x : T)
    (l : list T) : list T :=
  match l with
  | [] => [x]
  | y :: l' => if decide (x = y) then l
               else if leb x y then x :: l
               else y :: insert_label leb x l'
  end.
Definition sorted_labels {T} `{EqDecision T} (leb : T -> T -> bool)
    (l : list T) : list T :=
  foldr (insert_label leb) [] l.

Section Frames.
Context {A : Type} `{!DType A}.

Definition columns (df : DataFrame A) : list string := map fst (df_columns df).

(** [name in df.columns] *)
Definition has_column (name : string) (df : DataFrame A) : bool :=
  bool_decide (name ∈ columns df).

Fixpoint assoc {V} (name : string) (l : list (string * V)) : option V :=
  match l with
  | [] => None
  | (k, v) :: l' => if String.eqb k name then Some v else assoc name l'
  end.

(** [df[name]] *)
Definition getitem (df : DataFrame A) (name : string) : result (list A) :=
  match assoc name (df_columns df) with
  | Some v => Ok v
  | None => Raise (KeyError name)
  end.

(** [df.name] (attribute access to a column) *)
Definition getattr (df : DataFrame A) (name : string) : result (list A) :=
  match assoc name (df_columns df) with
  | Some v => Ok v
  | None => Raise (AttributeError name)
  end.

Fixpoint set_assoc {V} (name : string) (v : V) (l : list (string * V))
  : list (string * V) :=
  match l with
  | [] => [(name, v)]
  | (k, v0) :: l' => if String.eqb k name then (k, v) :: l'
                     else (k, v0) :: set_assoc name v l'
  end.

(** [df[name] = values] and [df.loc[:, name] = values]: an existing column
    is overwritten in place, a new one is appended. *)
Definition setitem (df : DataFrame A) (name : string) (v : list A)
  : DataFrame A :=
  mkDF (df_index_name df) (df_index_kind df) (df_index df)
       (set_assoc name v (df_columns df)).

(** [df.loc[:, name] = 0.0] *)
Definition setitem_zero (df : DataFrame A) (name : string) : DataFrame A :=
  setitem df name (replicate (length (df_index df)) dt_zero).

(** The rows selected by a boolean mask. *)
Fixpoint mask_rows {T} (mask : list bool) (l : list T) : list T :=
  match mask, l with
  | b :: mask', x :: l' => if b then x :: mask_rows mask' l' else mask_rows mask' l'
  | _, _ => []
  end.

Definition loc_mask (df : DataFrame A) (mask : list bool) : DataFrame A :=
  mkDF (df_index_name df) (df_index_kind df) (mask_rows mask (df_index df))
       (map (fun c => (fst c, mask_rows mask (snd c))) (df_columns df)).

(** [df.loc[label]] for a scalar label of the kind of the index, such as
    the Timestamp the constructor takes from the index when it is given no
    start date: the rows whose label equals it. A start date given as a
    string is a partial date for pandas, which selects every row of the
    period it names; that selection is not modelled. *)
Definition loc_label (df : DataFrame A) (label : Z) : result (loc_result A) :=
  let mask := map (fun t => bool_decide (t = label)) (df_index df) in
  let sel := loc_mask df mask in
  match df_index sel with
  | [] => Raise (KeyError "label")
  | [_] => Ok (LocSeries (map (fun c => (fst c, hd dt_nan (snd c)))
                             (df_columns sel)))
  | _ => Ok (LocFrame sel)
  end.

(** [pd.isna(col).any()] *)
Definition any_isna (col : list A) : bool := existsb dt_isna col.

(** [df.reset_index(level=1)] on a two-level MultiIndex with level names
    [name0], [name1]: the second level becomes the first column. *)
Definition reset_level1 (name0 : option string) (name1 : string)
    (kind0 : index_kind) (level0 : list Z) (level1 : list A)
    (cols : list (string * list A)) : result (DataFrame A) :=
  if bool_decide (name1 ∈ map fst cols)
  then Raise (ValueError "cannot insert, already exists")
  else Ok (mkDF name0 kind0 level0 ((name1, level1) :: cols)).

(** The cell of column [col] in the row labelled [(t, h)], NaN when there
    is no such row. *)
Fixpoint pivot_cell (t : Z) (h : A) (index : list Z) (heights col : list A)
  : A :=
  match index, heights, col with
  | t' :: index', h' :: heights', v :: col' =>
      if bool_decide (t' = t) && bool_decide (h' = h) then v
      else pivot_cell t h index' heights' col'
  | _, _, _ => dt_nan
  end.

(** A pivot table: its row labels, its column labels and, per field, the
    (row x column) block of cells. *)
Record PivotTable : Type := mkPivot {
  pv_index : list Z;
  pv_heights : list A;
  pv_blocks : list (string * list (list A))
}.

(** [df.pivot(columns='height', values=fieldNames)]: rows are the sorted
    distinct index labels, columns the sorted distinct heights; a repeated
    (label, height) pair cannot be reshaped. pandas is not modelled for an
    empty or repeating list of value columns. *)
Definition pivot (df : DataFrame A) (fieldNames : list string)
  : result PivotTable :=
  match assoc "height" (df_columns df) with
  | None => Raise (KeyError "height")
  | Some heights =>
      if bool_decide (fieldNames = []) then Raise (Unmodelled "pivot without values")
      else if negb (bool_decide (NoDup fieldNames))
      then Raise (Unmodelled "pivot with repeated values")
      else
        match for_result fieldNames
                (fun f => if has_column f df then Ok tt else Raise (KeyError f)) with
        | Raise e => Raise e
        | Ok _ =>
            if negb (bool_decide (NoDup (zip (df_index df) heights)))
            then Raise (ValueError "Index contains duplicate entries, cannot reshape")
            else
              let rows := sorted_labels Z.leb (df_index df) in
              let cols := sorted_labels dt_leb heights in
              Ok (mkPivot rows cols
                    (map (fun f =>
                            let col := default [] (assoc f (df_columns df)) in
                            (f, map (fun t =>
                                       map (fun h => pivot_cell t h (df_index df) heights col)
                                           cols) rows))
                         fieldNames))
        end
  end.

(** [np.concatenate((ts.reshape((nt,1)), block), axis=1)] *)
Definition concat_time (ts : list A) (block : list (list A))
  : result (list (list A)) :=
  if length ts =? length block
  then Ok (zip_with (fun t row => t :: row) ts block)
  else Raise (ValueError "all the input array dimensions must match").
End Frames.

(** ** class InternalCoupling *)

Module InternalCoupling.

(** The attributes of an instance. *)
Record t (A : Type) : Type := mk {
  dpath : string;
  df : DataFrame A;
  datefrom : Z
}.
Arguments mk {A}.
Arguments dpath {A}.
Arguments df {A}.
Arguments datefrom {A}.

Section Methods.
Context {A : Type} `{!DType A}.

Definition set_df (self : t A) (d : DataFrame A) : t A :=
  mk (dpath self) d (datefrom self).

(** One second, in nanoseconds. *)
Definition tdelta : positive := 1000000000.

(** The [t_index] column the constructor adds. Without a reference date, on
    an index that holds no durations, the column holds the labels of the
    index themselves, kept here by their numeric value; on a datetime index
    they are timestamps, which the writers that format the column
    ([write_BCs], [write_timeheight]) cannot write as numbers. *)
Definition add_t_index (d : DataFrame A) (dateref : option Z)
  : result (DataFrame A) :=
  match dateref with
  | Some ref =>
      (* reset_index; df['t_index'] = (df['datetime'] - dateref) / tdelta;
         set_index('datetime') *)
      if has_column "datetime" d then
        if bool_decide (df_index_name d = Some "datetime")
        then Raise (ValueError "cannot insert datetime, already exists")
        else Raise (Unmodelled "datetime is a data column")
      else if negb (bool_decide (df_index_name d = Some "datetime"))
      then Raise (KeyError "datetime")
      else
        match df_index_kind d with
        | DatetimeIndex =>
            Ok (setitem d "t_index"
                  (map (fun ts => dt_of_seconds ((ts - ref) # tdelta))
                       (df_index d)))
        | _ => Raise (TypeError "unsupported operand type(s) for -")
        end
  | None =>
      match df_index_kind d with
      | TimedeltaIndex =>
          Ok (setitem d "t_index"
                (map (fun ts => dt_of_seconds (ts # tdelta)) (df_index d)))
      | _ => Ok (setitem d "t_index" (map dt_of_stamp (df_index d)))
      end
  end.

Definition __init__ (dpath : string) (input : frame A)
    (dateref datefrom dateto : option Z) : M (State A unit) (t A) :=
  d <- isdir dpath ;;
  (if d then ret tt else makedirs dpath) ;;
  (* Handle input with multiindex *)
  df0 <- lift (match input with
               | Frame d => Ok d
               | MultiFrame name0 name1 kind0 level0 level1 cols =>
                   if negb (bool_decide (name0 = Some "datetime"))
                   then Raise (AssertionError A_multiindex_datetime)
                   else if negb (bool_decide (name1 = Some "height"))
                   then Raise (AssertionError A_multiindex_height)
                   else reset_level1 name0 "height" kind0 level0 level1 cols
               end) ;;
  (* Use dataframe between datefrom and dateto *)
  datefrom <- lift (match datefrom with
                    | Some d => Ok d
                    | None => match df_index df0 with
                              | ts :: _ => Ok ts
                              | [] => Raise IndexError
                              end
                    end) ;;
  dateto <- lift (match dateto with
                  | Some d => Ok d
                  | None => match last (df_index df0) with
                            | Some ts => Ok ts
                            | None => Raise IndexError
                            end
                  end) ;;
  let sdf := loc_mask df0
               (map (fun ts => (datefrom <=? ts)%Z && (ts <=? dateto)%Z)
                    (df_index df0)) in
  assert (0 <? length (unique (df_index sdf))) A_no_data ;;
  (* calculate time in seconds since reference date *)
  sdf' <- lift (add_t_index sdf dateref) ;;
  ret (mk dpath sdf' datefrom).

Definition write_BCs (fname fieldname : string) (fact : A)
  : M (State A (t A)) unit :=
  self <- get_self ;;
  (* extract time and height array *)
  ts <- lift (getattr (df self) "t_index") ;;
  (* assert field exists and is complete *)
  assert (has_column fieldname (df self)) (A_field_in_df fieldname) ;;
  col <- lift (getitem (df self) fieldname) ;;
  assert (negb (any_isna col)) (A_field_complete fieldname) ;;
  let fieldvalues := map (dt_mul fact) col in
  let path := path_join (dpath self) fname in
  fopen path false ;;
  fsavetxt path
    (savetxt 2 (zip_with (fun ti v => [ti; v]) ts fieldvalues)
             (FmtList ["    (%g"; "%.12g)"]) EmptyString EmptyString "# ").

Definition write_ICs (fname xmom ymom temp : string)
  : M (State A (t A)) unit :=
  self <- get_self ;;
  (* Make copy to avoid SettingwithcopyWarning *)
  sel <- lift (loc_label (df self) (datefrom self)) ;;
  (* set missing fields to zero *)
  let fieldNames := [xmom; ymom; temp] in
  d <- lift (match sel with
             | LocSeries _ => Raise (AttributeError "columns")
             | LocFrame d =>
                 Ok (foldl (fun d field =>
                              if has_column field d then d
                              else setitem_zero d field)
                           d fieldNames)
             end) ;;
  (* extract time and height array *)
  zs <- lift (getattr d "height") ;;
  (* check data is complete *)
  for_each fieldNames (fun field =>
    col <- lift (getitem d field) ;;
    assert (negb (any_isna col)) (A_ics_complete field)) ;;
  cx <- lift (getitem d xmom) ;;
  cy <- lift (getitem d ymom) ;;
  ct <- lift (getitem d temp) ;;
  (* write data to SOWFA readable file *)
  let path := path_join (dpath self) fname in
  fopen path false ;;
  fsavetxt path
    (savetxt 4
       (zip_with (fun z r => z :: r) zs
          (zip_with (fun u r => u :: r) cx
             (zip_with (fun v th => [v; th]) cy ct)))
       (FmtList (["    (%g"] ++ replicate 2 "%.12g" ++ ["%.12g)"]))
       EmptyString EmptyString "# ").

(** [df_pivot[field]] *)
Definition pivot_getitem (p : PivotTable) (field : string)
  : result (list (list A)) :=
  match assoc field (pv_blocks p) with
  | Some b => Ok b
  | None => Raise (KeyError field)
  end.

(** The momentum completeness check of [write_timeheight]; its value is
    [write_mom]. *)
Definition check_momentum {S} (xmom ymom zmom : option string) : M S bool :=
  let have_xyz_mom :=
    map (fun comp : option string => bool_decide (comp ≠ None))
        [xmom; ymom; zmom] in
  if existsb id have_xyz_mom
  then assert (forallb id have_xyz_mom) A_all_momentum ;; ret true
  else ret false.

(** One [sourceTable...] block: its label line and the (time x height)
    table of [field]. *)
Definition write_table (path label : string) (ts : list A) (nz : nat)
    (p : PivotTable) (field : string) : M (State A (t A)) unit :=
  fwrite_str path (label +:+ nl) ;;
  let fmt := (["    (%g"] ++ replicate (nz - 1) "%.12g" ++ ["%.12g)"])%list in
  block <- lift (pivot_getitem p field) ;;
  rows <- lift (concat_time ts block) ;;
  fsavetxt path
    (savetxt (1 + length (pv_heights p)) rows (FmtList fmt)
             "(" (");" +:+ nl) EmptyString).

(** One [sourceHeights...] block. *)
Definition write_heights (path label : string) (zs : list A)
  : M (State A (t A)) unit :=
  fwrite_str path (label +:+ nl) ;;
  fsavetxt path (savetxt_1d zs (FmtStr "    %g") "(" (");" +:+ nl) EmptyString).

(** How many of the three momentum arguments are given. *)
Definition momentum_given (xmom ymom zmom : option string) : nat :=
  length (List.filter (fun comp : option string => bool_decide (comp ≠ None))
                      [xmom; ymom; zmom]).

(** The stored frame after the loop that sets missing fields to zero. *)
Definition add_zero_fields (d : DataFrame A) (fields : list (option string))
  : DataFrame A :=
  foldl (fun d field =>
           match field with
           | Some f => if has_column f d then d else setitem_zero d f
           | None => d
           end) d fields.

(** The loop of [write_timeheight] that sets missing fields to zero, on
    the stored frame itself. *)
Definition set_missing_to_zero (fieldNames : list (option string))
  : M (State A (t A)) unit :=
  for_each fieldNames (fun field =>
    match field with
    | None => ret tt
    | Some f =>
        self <- get_self ;;
        if has_column f (df self) then ret tt
        else set_self (set_df self (setitem_zero (df self) f))
    end).

(** The rest of [write_timeheight]: pivot, completeness check, file. *)
Definition timeheight_output (write_mom : bool) (fname : string)
    (xmom ymom zmom temp : option string) (zs ts : list A)
  : M (State A (t A)) unit :=
  let nz := length zs in
  let fieldNames := omap id [xmom; ymom; zmom; temp] in
  (* pivot data to time-height arrays *)
  self <- get_self ;;
  df_pivot <- lift (pivot (df self) fieldNames) ;;
  (* check data is complete *)
  for_each fieldNames (fun field =>
    block <- lift (pivot_getitem df_pivot field) ;;
    assert (negb (existsb any_isna block)) (A_pivot_complete field)) ;;
  (* write data to SOWFA readable file *)
  let path := path_join (dpath self) fname in
  fopen path false ;;
  (match write_mom, xmom, ymom, zmom with
   | true, Some xm, Some ym, Some zm =>
       write_heights path "sourceHeightsMomentum" zs ;;
       write_table path "sourceTableMomentumX" ts nz df_pivot xm ;;
       write_table path "sourceTableMomentumY" ts nz df_pivot ym ;;
       write_table path "sourceTableMomentumZ" ts nz df_pivot zm
   | _, _, _, _ => ret tt   (* write_mom is False *)
   end) ;;
  match temp with
  | Some tm =>
      if String.eqb tm EmptyString then ret tt   (* an empty name is falsy *)
      else
        write_heights path "sourceHeightsTemperature" zs ;;
        write_table path "sourceTableTemperature" ts nz df_pivot tm
  | None => ret tt
  end.

(** [write_timeheight] after its momentum check. *)
Definition timeheight_body (write_mom : bool) (fname : string)
    (xmom ymom zmom temp : option string) : M (State A (t A)) unit :=
  (* extract time and height array *)
  self <- get_self ;;
  heights <- lift (getattr (df self) "height") ;;
  tindex <- lift (getattr (df self) "t_index") ;;
  let zs := unique heights in
  let ts := unique tindex in
  (* set missing fields to zero *)
  set_missing_to_zero [xmom; ymom; zmom; temp] ;;
  timeheight_output write_mom fname xmom ymom zmom temp zs ts.

Definition write_timeheight (fname : string)
    (xmom ymom zmom temp : option string) : M (State A (t A)) unit :=
  write_mom <- check_momentum xmom ymom zmom ;;
  timeheight_body write_mom fname xmom ymom zmom temp.
End Methods.
End InternalCoupling.

(** ** numpy: row-major arrays *)

(** The number of items of an array of the given shape. *)
Definition size_of (shape : list nat) : nat := foldr Nat.mul 1 shape.

(** [np.ravel_multi_index(idx, shape)] in C order: the last axis varies
    fastest. *)
Fixpoint ravel_multi_index (shape idx : list nat) : nat :=
  match shape, idx with
  | _ :: shape', i :: idx' => i * size_of shape' + ravel_multi_index shape' idx'
  | _, _ => 0
  end.

(** [np.unravel_index(k, shape)] in C order. *)
Fixpoint unravel_index (shape : list nat) (k : nat) : list nat :=
  match shape with
  | [] => []
  | _ :: shape' => k / size_of shape' :: unravel_index shape' (k mod size_of shape')
  end.

(** [l.index(x)] *)
Fixpoint index_of (x : string) (l : list string) : option nat :=
  match l with
  | [] => None
  | y :: l' => if String.eqb y x then Some 0 else S <$> index_of x l'
  end.

(** A labelled array (an xarray DataArray, or the variable of a coordinate):
    the names of its axes, its shape, and its items in C order. *)
Record NDArray (T : Type) : Type := mkND {
  nd_dims : list string;
  nd_shape : list nat;
  nd_values : list T
}.
Arguments mkND {T}.
Arguments nd_dims {T}.
Arguments nd_shape {T}.
Arguments nd_values {T}.

Section Arrays.
Context {T : Type}.

(** [a.values[idx]] *)
Definition nd_item (a : NDArray T) (idx : list nat) : option T :=
  nd_values a !! ravel_multi_index (nd_shape a) idx.

(** The items of an array of shape [shape] whose item at [idx] is the item
    of [src] at position [from idx]. *)
Definition gather (shape : list nat) (src : list T) (from : list nat -> nat)
  : list T :=
  omap (fun k => src !! from (unravel_index shape k)) (seq 0 (size_of shape)).

(** [a.sel] by position: the item at the index that [env] gives to every
    axis, by name. *)
Definition sel_item (a : NDArray T) (env : string -> nat) : option T :=
  nd_item a (map env (nd_dims a)).

(** The invariant of a labelled array in a dataset whose dimension [d] has
    length [sz d]: distinct axis names, the shape the names dictate, one
    item per index. *)
Definition wf_nd (sz : string -> nat) (a : NDArray T) : Prop :=
  NoDup (nd_dims a)
  /\ nd_shape a = map sz (nd_dims a)
  /\ length (nd_values a) = size_of (nd_shape a).

(** [a.expand_dims({dim: coord})] with [len(coord) = n]: the new axis comes
    first and the items are repeated along it. *)
Definition expand_dims (dim : string) (n : nat) (a : NDArray T) : NDArray T :=
  mkND (dim :: nd_dims a) (n :: nd_shape a)
       (concat (replicate n (nd_values a))).

(** [a.swap_dims({old: new})] *)
Definition swap_dims (old new : string) (a : NDArray T) : result (NDArray T) :=
  if bool_decide (old ∈ nd_dims a)
  then Ok (mkND (map (fun d => if String.eqb d old then new else d) (nd_dims a))
                (nd_shape a) (nd_values a))
  else Raise (ValueError "cannot swap from a dimension that does not exist").

(** [a.transpose( *order )]: axes are reordered by name. *)
Definition transpose (order : list string) (a : NDArray T)
  : result (NDArray T) :=
  if forallb (fun d => bool_decide (d ∈ nd_dims a)) order
     && forallb (fun d => bool_decide (d ∈ order)) (nd_dims a)
     && (length order =? length (nd_dims a))
  then
    let shape' :=
      omap (fun d => i ← index_of d (nd_dims a); nd_shape a !! i) order in
    Ok (mkND order shape'
          (gather shape' (nd_values a)
             (fun idx' =>
                ravel_multi_index (nd_shape a)
                  (map (fun d => default 0 (j ← index_of d order; idx' !! j))
                       (nd_dims a)))))
  else Raise (ValueError "arguments to transpose must be permuted array dimensions").

(** [a.isel({dim: slice(lo, lo + len)})]; an array without the axis is
    returned as it is. *)
Definition take_axis (dim : string) (lo len : nat) (a : NDArray T) : NDArray T :=
  match index_of dim (nd_dims a) with
  | None => a
  | Some p =>
      let shape' := <[p := len]> (nd_shape a) in
      mkND (nd_dims a) shape'
           (gather shape' (nd_values a)
              (fun idx' =>
                 ravel_multi_index (nd_shape a)
                   (alter (fun i => lo + i) p idx')))
  end.

(** [list(a)]: the sub-arrays along the first axis, each raveled in C
    order. A 0-d array cannot be iterated. *)
Definition iter_first_axis (a : NDArray T) : result (list (list T)) :=
  match nd_shape a with
  | [] => Raise (TypeError "iteration over a 0-d array")
  | n :: shape' =>
      Ok (map (fun i => take (size_of shape') (drop (i * size_of shape') (nd_values a)))
              (seq 0 n))
  end.

(** One output array of [np.meshgrid(..., indexing='ij')], raveled: the
    array of shape [shape] that repeats [vals] along axis [axis]. *)
Definition meshgrid_ravel (shape : list nat) (axis : nat) (vals : list T)
  : list T :=
  gather shape vals (fun idx => default 0 (idx !! axis)).

(** [np.stack((u, v, w), axis=1)] of three 1-D arrays. *)
Definition stack3 (u v w : list T) : result (list (list T)) :=
  if (length u =? length v) && (length v =? length w)
  then Ok (zip_with (fun a r => a :: r) u (zip_with (fun b c => [b; c]) v w))
  else Raise (ValueError "all input arrays must have the same shape").
End Arrays.

(** [a.tobytes(order='C')]: the items' bytes, row by row. *)
Definition tobytes {A} `{!DType A} (rows : list (list A)) : list byte :=
  concat (map dt_tobytes (concat rows)).
Definition tobytes_1d {A} `{!DType A} (xs : list A) : list byte :=
  concat (map dt_tobytes xs).

(** ** xarray: datasets *)

(** The datetime coordinate holds timestamps, every other coordinate and every
    data variable holds items of type [A]. [ds_dims] is [Dataset.dims]. *)
Record Dataset (A : Type) : Type := mkDS {
  ds_dims : list (string * nat);
  ds_datetime : option (NDArray Z);
  ds_t_index : option (list Q);
  ds_coords : gmap string (NDArray A);
  ds_data_vars : gmap string (NDArray A)
}.
Arguments mkDS {A}.
Arguments ds_dims {A}.
Arguments ds_datetime {A}.
Arguments ds_t_index {A}.
Arguments ds_coords {A}.
Arguments ds_data_vars {A}.

Section Datasets.
Context {A : Type} `{!DType A}.

Definition dims (ds : Dataset A) : list string := map fst (ds_dims ds).

(** [name in ds.variables]: data variables and stored coordinates. *)
Definition in_variables (name : string) (ds : Dataset A) : bool :=
  bool_decide (is_Some (ds_data_vars ds !! name))
  || bool_decide (is_Some (ds_coords ds !! name))
  || (String.eqb name "datetime" && bool_decide (is_Some (ds_datetime ds)))
  || (String.eqb name "t_index" && bool_decide (is_Some (ds_t_index ds))).

(** [ds.coords[name].dims]. A dimension without a stored coordinate has a
    virtual one, the range of its length. *)
Definition coord_dims (ds : Dataset A) (name : string)
  : result (list string) :=
  if bool_decide (is_Some (ds_data_vars ds !! name)) then Raise (KeyError name)
  else if String.eqb name "datetime" then
    match ds_datetime ds with
    | Some c => Ok (nd_dims c)
    | None => if bool_decide (name ∈ dims ds) then Ok [name]
              else Raise (KeyError name)
    end
  else if String.eqb name "t_index" then
    match ds_t_index ds with
    | Some _ => Ok ["datetime"]
    | None => if bool_decide (name ∈ dims ds) then Ok [name]
              else Raise (KeyError name)
    end
  else
    match ds_coords ds !! name with
    | Some c => Ok (nd_dims c)
    | None => if bool_decide (name ∈ dims ds) then Ok [name]
              else Raise (KeyError name)
    end.

(** [ds.coords[name]] for a coordinate that holds numbers. *)
Definition coords_getitem (ds : Dataset A) (name : string)
  : result (NDArray A) :=
  if bool_decide (is_Some (ds_data_vars ds !! name)) then Raise (KeyError name)
  else if String.eqb name "datetime" || String.eqb name "t_index"
  then Raise (Unmodelled "a time coordinate used as numbers")
  else
    match ds_coords ds !! name with
    | Some c => Ok c
    | None =>
        match assoc name (ds_dims ds) with
        | Some n => Ok (mkND [name] [n] (map dt_of_nat (seq 0 n)))
        | None => Raise (KeyError name)
        end
    end.

(** [ds.coords['datetime']] *)
Definition coords_datetime (ds : Dataset A) : result (NDArray Z) :=
  if bool_decide (is_Some (ds_data_vars ds !! "datetime"))
  then Raise (KeyError "datetime")
  else
    match ds_datetime ds with
    | Some c => Ok c
    | None => if bool_decide ("datetime" ∈ dims ds)
              then Raise (Unmodelled "datetime dimension without coordinate")
              else Raise (KeyError "datetime")
    end.

(** [c[0]] and [c[-1]] on a coordinate. *)
Definition first_item {T} (c : NDArray T) : result T :=
  match nd_shape c with
  | [] => Raise IndexError      (* too many indices for a 0-d array *)
  | _ => match nd_values c with
         | v :: _ => Ok v
         | [] => Raise IndexError
         end
  end.
Definition last_item {T} (c : NDArray T) : result T :=
  match nd_shape c with
  | [] => Raise IndexError
  | _ => match last (nd_values c) with
         | Some v => Ok v
         | None => Raise IndexError
         end
  end.

Fixpoint sorted_ascending (l : list Z) : bool :=
  match l with
  | a :: (b :: _) as l' => (a <=? b)%Z && sorted_ascending l'
  | _ => true
  end.

(** [ds.sel(datetime=slice(datefrom, dateto))]: the labels between the two
    bounds, both included. xarray selects by label along a dimension only,
    and the model covers increasing datetime indexes. *)
Definition sel_datetime (ds : Dataset A) (datefrom dateto : Z)
  : result (Dataset A) :=
  if negb (bool_decide ("datetime" ∈ dims ds))
  then Raise (ValueError "dimensions ['datetime'] do not exist")
  else
    match ds_datetime ds with
    | None => Raise (Unmodelled "datetime dimension without coordinate")
    | Some c =>
        if negb (bool_decide (nd_dims c = ["datetime"]))
        then Raise (Unmodelled "datetime coordinate is not an index")
        else if negb (sorted_ascending (nd_values c))
        then Raise (Unmodelled "datetime index is not increasing")
        else
          let lo := length (filter (fun ts => (ts < datefrom)%Z) (nd_values c)) in
          let hi := length (filter (fun ts => (ts <= dateto)%Z) (nd_values c)) in
          let n := hi - lo in
          Ok (mkDS (map (fun d => if String.eqb (fst d) "datetime"
                                  then (fst d, n) else d) (ds_dims ds))
                   (Some (take_axis "datetime" lo n c))
                   (option_map (fun l => take n (drop lo l)) (ds_t_index ds))
                   (take_axis "datetime" lo n <$> ds_coords ds)
                   (take_axis "datetime" lo n <$> ds_data_vars ds))
    end.

(** The length of a dimension; [t_index] runs along [datetime]. *)
Definition dim_len (ds : Dataset A) (name : string) : nat :=
  default 0 (assoc (if String.eqb name "t_index" then "datetime" else name)
                   (ds_dims ds)).

(** What xarray and a successful construction guarantee of the dataset of
    a boundary writer: distinct dimensions among the expected ones with
    datetime present; data variables over those dimensions, of the
    dictated shape; one 1-D coordinate per spatial dimension; a scalar
    coordinate for a spatial axis that is not a dimension; the datetime
    and t_index coordinates along datetime. *)
Record wf_dataset (ds : Dataset A) : Prop := {
  wf_dims_nodup : NoDup (dims ds);
  wf_dims_expected :
    forall dim, dim ∈ dims ds -> dim ∈ ["datetime"; "height"; "x"; "y"];
  wf_has_datetime : "datetime" ∈ dims ds;
  wf_data_vars :
    map_Forall (fun _ a => wf_nd (dim_len ds) a
                           /\ Forall (fun dim => dim ∈ dims ds) (nd_dims a))
               (ds_data_vars ds);
  wf_dim_coords :
    forall name c, ds_coords ds !! name = Some c -> name ∈ dims ds ->
                   length (nd_values c) = dim_len ds name;
  wf_const_coords :
    forall name, name ∈ ["x"; "y"; "height"] -> name ∉ dims ds ->
                 exists c, ds_coords ds !! name = Some c
                           /\ length (nd_values c) = 1;
  wf_coord_names :
    forall name, name ∈ ["x"; "y"; "height"] -> ds_data_vars ds !! name = None;
  wf_times :
    exists times tidx,
      ds_datetime ds = Some times /\ ds_t_index ds = Some tidx
      /\ length (nd_values times) = dim_len ds "datetime"
      /\ length tidx = dim_len ds "datetime"
}.

(** The number of values of the coordinate of a spatial axis: the length of
    the dimension, or one for the normal of the plane. *)
Definition axis_len (ds : Dataset A) (name : string) : nat :=
  if bool_decide (name ∈ dims ds) then dim_len ds name else 1.

(** The shape of the grid of points. *)
Definition grid_shape (ds : Dataset A) : list nat :=
  [axis_len ds "x"; axis_len ds "y"; axis_len ds "height"].

(** The index along every axis of the [k]-th point of the grid, at
    timestep [t]. *)
Definition point_env (ds : Dataset A) (t k : nat) (dim : string) : nat :=
  if String.eqb dim "datetime" then t
  else default 0 (p ← index_of dim ["x"; "y"; "height"];
                  unravel_index (grid_shape ds) k !! p).

(** The [i]-th value of a coordinate. *)
Definition coord_value (ds : Dataset A) (name : string) (i : nat) : option A :=
  match coords_getitem ds name with
  | Ok c => nd_values c !! i
  | Raise _ => None
  end.
End Datasets.

(** ** class BoundaryCoupling *)

(** A value of the [fields] dict: one variable name (a scalar field), or a
    list or tuple of names (a vector field). *)
Inductive dvars_spec : Type :=
  | ScalarVar (var : string)
  | VectorVars (components : list string).

(** [list.remove(x)] *)
Fixpoint list_remove (x : string) (l : list string) : result (list string) :=
  match l with
  | [] => Raise (ValueError "list.remove(x): x not in list")
  | y :: l' => if String.eqb y x then Ok l'
               else match list_remove x l' with
                    | Ok r => Ok (y :: r)
                    | Raise e => Raise e
                    end
  end.

(** [zip( *ls )]: the tuples of the items at the same position, as many as
    the shortest list has. *)
Definition zip_star {X} (ls : list (list X)) : list (list X) :=
  match ls with
  | [] => []
  | l0 :: _ =>
      let n := foldr (fun l m => min (length l) m) (length l0) ls in
      map (fun i => omap (fun l => l !! i) ls) (seq 0 n)
  end.

Fixpoint foldM {S X Acc} (f : Acc -> X -> M S Acc) (acc : Acc) (l : list X)
  : M S Acc :=
  match l with
  | [] => ret acc
  | x :: l' => acc' <- f acc x ;; foldM f acc' l'
  end.

Module BoundaryCoupling.

Record t (A : Type) : Type := mk {
  name : string;
  dpath : string;
  ds : Dataset A;
  datefrom : Z;
  bndry_dims : option (list string)   (* set by [write] *)
}.
Arguments mk {A}.
Arguments name {A}.
Arguments dpath {A}.
Arguments ds {A}.
Arguments datefrom {A}.
Arguments bndry_dims {A}.

Definition backslash : string := String (ascii_of_nat 92) EmptyString.

(** The lines of [boundaryDataHeader] before the point count. *)
Definition header_lines : list string :=
  [ "/*--------------------------------*- C++ -*----------------------------------*" +:+ backslash;
    "  =========                 |";
    "  \\      /  F ield         | OpenFOAM: The Open Source CFD Toolbox";
    "   \\    /   O peration     | Website:  https://openfoam.org";
    "    \\  /    A nd           | Version:  6";
    "     \\/     M anipulation  |";
    backslash +:+ "*---------------------------------------------------------------------------*/";
    EmptyString;
    "// generated by mmctools.coupling.sowfa.BoundaryCoupling";
    "// https://github.com/a2e-mmc/mmctools/tree/dev";
    EmptyString ].

(** [boundaryDataHeader.format(N=N)] *)
Definition boundaryDataHeader (N : nat) : string :=
  String.concat nl (header_lines ++ [pretty N; "("])%list.

Definition expected_dims : list string := ["datetime"; "height"; "x"; "y"].

(** One second, in nanoseconds. *)
Definition one_second : positive := 1000000000.

Section Methods.
Context {A : Type} `{!DType A}.

Definition set_bndry_dims (self : t A) (bd : list string) : t A :=
  mk (name self) (dpath self) (ds self) (datefrom self) (Some bd).

(** ['{:g}'.format(ds.coords[constdim].values)]: only a 0-d array can be
    formatted, through its item; the item of a 0-d datetime array is
    formatted as its text, which has no format code 'g'. *)
Definition constdim_value (d : Dataset A) (constdim : string)
  : result (A + Z) :=
  if String.eqb constdim "datetime" then
    c ← coords_datetime d;
    match nd_shape c, nd_values c with
    | [], [_] => Raise (ValueError "Unknown format code 'g' for object of type 'str'")
    | _, _ => Raise (TypeError "unsupported format string")
    end
  else
    c ← coords_getitem d constdim;
    match nd_shape c, nd_values c with
    | [], [v] => Ok (inl v)
    | _, _ => Raise (TypeError "unsupported format string")
    end.

Definition _check_xarray_dataset {Self} (d : Dataset A)
    (expected_dims : list string) : M (State A Self) unit :=
  for_each (dims d) (fun dim =>
    (* dimension coordinates *)
    assert (bool_decide (dim ∈ expected_dims)) (A_dim_expected dim) ;;
    cdims <- lift (coord_dims d dim) ;;
    match cdims with
    | [] => raise IndexError
    | d0 :: _ =>
        assert (String.eqb d0 dim && (length cdims =? 1)) (A_coord_1d dim)
    end) ;;
  (* Only handle a single boundary plane at a time *)
  rest <- foldM (fun l dim => lift (list_remove dim l)) expected_dims (dims d) ;;
  assert (length rest =? 1) A_one_constdim ;;
  match rest with
  | constdim :: _ =>
      v <- lift (constdim_value d constdim) ;;
      print (MsgBoundary constdim v)
  | [] => raise IndexError
  end.

Definition __init__ (dpath0 : string) (d : Dataset A) (name : string)
    (dateref datefrom dateto : option Z) : M (State A unit) (t A) :=
  let dpath := path_join dpath0 name in
  (* Create folder dpath if needed *)
  ex <- isdir dpath ;;
  (if ex then ret tt else makedirs dpath) ;;
  (* Check xarray coordinates *)
  _check_xarray_dataset d expected_dims ;;
  (* Use dataframe between datefrom and dateto *)
  datefrom <- match datefrom with
              | None => c <- lift (coords_datetime d) ;; lift (first_item c)
              | Some v => ret v
              end ;;
  dateto <- match dateto with
            | None => c <- lift (coords_datetime d) ;; lift (last_item c)
            | Some v => ret v
            end ;;
  d' <- lift (sel_datetime d datefrom dateto) ;;
  (* calculate time in seconds since reference date *)
  dateref <- match dateref with
             | None =>
                 c <- lift (coords_datetime d') ;;
                 _ <- lift (first_item c) ;;
                 (* a DataArray has no method to_datetime64 *)
                 raise (AttributeError "to_datetime64")
             | Some v => ret v
             end ;;
  times <- lift (coords_datetime d') ;;
  let tidx := map (fun ts => (ts - dateref) # one_second) (nd_values times) in
  ret (mk name dpath
         (mkDS (ds_dims d') (ds_datetime d') (Some tidx) (ds_coords d')
               (ds_data_vars d'))
         datefrom None).

(** [self._open(fpath, fopts, gzip)]; the value is the path of the file
    that was opened. *)
Definition _open (fpath : string) (gzip : bool) : M (State A (t A)) string :=
  if gzip then
    let fpath := if endswith fpath ".gz" then fpath else fpath +:+ ".gz" in
    fopen fpath true ;; ret fpath
  else
    fopen fpath false ;; ret fpath.

(** [x, y, z] of [_write_points], raveled, and stacked into [pts]. *)
Definition points (d : Dataset A) : result (list (list A)) :=
  cx ← coords_getitem d "x";
  cy ← coords_getitem d "y";
  cz ← coords_getitem d "height";
  let shape := [length (nd_values cx); length (nd_values cy);
                length (nd_values cz)] in
  let x := meshgrid_ravel shape 0 (nd_values cx) in
  let y := meshgrid_ravel shape 1 (nd_values cy) in
  let z := meshgrid_ravel shape 2 (nd_values cz) in
  stack3 x y z.

Definition _write_points (fname : string) (binary gzip : bool)
  : M (State A (t A)) unit :=
  self <- get_self ;;
  pts <- lift (points (ds self)) ;;
  let N := length pts in
  let fpath := path_join (dpath self) fname in
  let header := boundaryDataHeader N in
  (if binary then
     f <- _open fpath gzip ;;
     fwrite f (str_bytes header) ;;
     fwrite f (tobytes pts) ;;
     fwrite f (str_bytes ")")
   else
     f <- _open fpath gzip ;;
     fsavetxt f (savetxt 3 pts (FmtStr "(%g %g %g)") header ")" EmptyString)) ;;
  print (MsgWrotePoints N fpath).

(** [ds[var]] on the local copy of the dataset; [vars] holds its data
    variables. The model covers fields that are data variables. *)
Definition ds_getitem (d : Dataset A) (vars : gmap string (NDArray A))
    (var : string) : result (NDArray A) :=
  match vars !! var with
  | Some a => Ok a
  | None =>
      if in_variables var d || bool_decide (var ∈ dims d)
      then Raise (Unmodelled "a coordinate used as a field")
      else Raise (KeyError var)
  end.

(** [if dim not in ds[var].dims:
       ds[var] = ds[var].expand_dims({dim: ds.coords[dim]})] *)
Definition add_missing_dim (d : Dataset A) (dim var : string)
    (vars : gmap string (NDArray A)) : result (gmap string (NDArray A)) :=
  a ← ds_getitem d vars var;
  if bool_decide (dim ∈ nd_dims a) then Ok vars
  else
    c ← coords_getitem d dim;
    Ok (<[var := expand_dims dim (length (nd_values c)) a]> vars).

(** [ds[var].swap_dims({'datetime':'t_index'}).transpose( *dim_order )] *)
Definition reordered (d : Dataset A) (vars : gmap string (NDArray A))
    (bd : list string) (var : string) : result (NDArray A) :=
  a ← ds_getitem d vars var;
  a' ← swap_dims "datetime" "t_index" a;
  transpose ("t_index" :: bd) a'.

(** The items of an iteration over an array whose first axis is
    [t_index]: for every timestep its [t_index], its [datetime] and the
    raveled slice. *)
Definition timesteps (d : Dataset A) (u : NDArray A)
  : result (list (Q * Z * list A)) :=
  slices ← iter_first_axis u;
  match ds_t_index d, ds_datetime d with
  | Some tidx, Some times => Ok (zip (zip tidx (nd_values times)) slices)
  | _, _ => Raise (KeyError "t_index")
  end.

(** What [_write_boundary_scalar] computes before it writes: the field
    with its missing in-plane dimensions added, reordered to
    (t_index, in-plane dimensions), one raveled slice per timestep. *)
Definition scalar_steps (d : Dataset A) (bd : list string) (var : string)
  : result (list (Q * Z * list A)) :=
  (* add missing dimensions, if any *)
  vars ← fold_result (fun vars dim => add_missing_dim d dim var vars)
                     (ds_data_vars d) bd;
  (* reorder the data so that raveling produces the correct order *)
  u ← reordered d vars bd var;
  timesteps d u.

(** The same for [_write_boundary_vector]: per component the list of its
    timesteps ([uvec]). *)
Definition vector_steps (d : Dataset A) (bd : list string)
    (components : list string) : result (list (list (Q * Z * list A))) :=
  (* add missing dimensions, if any *)
  vars ← fold_result (fun vars dim =>
            fold_result (fun vars var => add_missing_dim d dim var vars)
                        vars components)
          (ds_data_vars d) bd;
  (* reorder the data so that raveling produces the correct order *)
  fold_result (fun acc var =>
                 u ← reordered d vars bd var;
                 steps ← timesteps d u;
                 Ok (acc ++ [steps])%list)
              [] components.

(** [ti < 0] *)
Definition negative (ti : Q) : bool := negb (Qle_bool 0 ti).

(** ['{:g}'.format(ti)] *)
Definition tname (ti : Q) : string := fmt_g 6 (dt_of_seconds ti).

(** The body of the loop of [_write_boundary_vector]. *)
Definition vector_step (fname : string) (binary gzip : bool)
    (ti : Q) (tstamp : Z) (ui vi wi : list A) : M (State A (t A)) unit :=
  if negative ti then print (MsgSkipping ti)   (* continue *)
  else
    self <- get_self ;;
    data <- lift (stack3 ui vi wi) ;;
    let N := length data in
    let dpath := path_join (dpath self) (tname ti) in
    let fpath := path_join dpath fname in
    ex <- isdir dpath ;;
    (if ex then ret tt else makedirs dpath) ;;
    let header := boundaryDataHeader N in
    (if binary then
       f <- _open fpath gzip ;;
       fwrite f (str_bytes header) ;;
       fwrite f (tobytes data) ;;
       fwrite f (str_bytes ")") ;;
       fwrite f (str_bytes (nl +:+ "(0 0 0)"))
     else
       f <- _open fpath gzip ;;
       fsavetxt f (savetxt 3 data (FmtStr "(%g %g %g)") header ")" EmptyString) ;;
       fwrite f (str_bytes (nl +:+ "(0 0 0) // average value"))) ;;
    print (MsgWroteVectors N fpath tstamp).

Definition _write_boundary_vector (fname : string) (components : list string)
    (binary gzip : bool) : M (State A (t A)) unit :=
  self <- get_self ;;
  bd <- lift (match bndry_dims self with
              | Some bd => Ok bd
              | None => Raise (AttributeError "bndry_dims")
              end) ;;
  uvec <- lift (vector_steps (ds self) bd components) ;;
  for_each (zip_star uvec) (fun tuple =>
    match tuple with
    | [(ti, tstamp, ui); (_, _, vi); (_, _, wi)] =>
        vector_step fname binary gzip ti tstamp ui vi wi
    | _ => raise (ValueError "wrong number of values to unpack")
    end).

(** The body of the loop of [_write_boundary_scalar]. *)
Definition scalar_step (fname : string) (binary gzip : bool)
    (ti : Q) (tstamp : Z) (ui : list A) : M (State A (t A)) unit :=
  if negative ti then print (MsgSkipping ti)   (* continue *)
  else
    self <- get_self ;;
    let N := length ui in
    let dpath := path_join (dpath self) (tname ti) in
    let fpath := path_join dpath fname in
    ex <- isdir dpath ;;
    (if ex then ret tt else makedirs dpath) ;;
    let header := boundaryDataHeader N in
    (if binary then
       f <- _open fpath gzip ;;
       fwrite f (str_bytes header) ;;
       fwrite f (tobytes_1d ui) ;;
       fwrite f (str_bytes ")") ;;
       fwrite f (str_bytes (nl +:+ "0"))
     else
       f <- _open fpath gzip ;;
       fsavetxt f (savetxt_1d ui (FmtStr "%g") header ")" EmptyString) ;;
       fwrite f (str_bytes (nl +:+ "0 // average value"))) ;;
    print (MsgWroteScalars N fpath tstamp).

Definition _write_boundary_scalar (fname var : string) (binary gzip : bool)
  : M (State A (t A)) unit :=
  self <- get_self ;;
  bd <- lift (match bndry_dims self with
              | Some bd => Ok bd
              | None => Raise (AttributeError "bndry_dims")
              end) ;;
  steps <- lift (scalar_steps (ds self) bd var) ;;
  for_each steps (fun '(ti, tstamp, ui) =>
    scalar_step fname binary gzip ti tstamp ui).

Definition write (fields : list (string * dvars_spec)) (binary gzip : bool)
  : M (State A (t A)) unit :=
  (* check output options *)
  (if binary && gzip then print MsgCompressedBinary else ret tt) ;;
  (* make sure ordering of bnd_dims is correct *)
  self <- get_self ;;
  dims <- lift (list_remove "datetime" (dims (ds self))) ;;
  let bd := List.filter (fun dim => bool_decide (dim ∈ dims)) ["x"; "y"; "height"] in
  set_self (set_bndry_dims self bd) ;;
  assert (length bd =? 2) A_two_bndry_dims ;;
  (* write out the points of the patch *)
  _write_points "points" binary gzip ;;
  (* write out the field files of the patch *)
  for_each fields (fun '(fieldname, dvars) =>
    self <- get_self ;;
    match dvars with
    | VectorVars dvars =>
        assert (forallb (fun dvar => in_variables dvar (ds self)) dvars)
               (A_all_components dvars) ;;
        assert (length dvars =? 3) A_three_components ;;
        _write_boundary_vector fieldname dvars binary gzip
    | ScalarVar dvar =>
        assert (in_variables dvar (ds self)) (A_scalar_var dvar) ;;
        _write_boundary_scalar fieldname dvar binary gzip
    end).

(** *** What the writers leave behind

    The closed forms of the paths, the file contents and the world after
    a step, used to state what the methods do. *)

(** The file of field [fname] at the timestep with t_index [ti]. *)
Definition field_path (self : t A) (ti : Q) (fname : string) : string :=
  path_join (path_join (dpath self) (tname ti)) fname.

(** The path [_open] opens for [fpath]. *)
Definition opened_path (fpath : string) (gzip : bool) : string :=
  if gzip then (if endswith fpath ".gz" then fpath else fpath +:+ ".gz")
  else fpath.

Definition stored (gzip : bool) (b : list byte) : content :=
  if gzip then Gzipped b else Plain b.

(** The timesteps of a dataset: t_index and timestamp. *)
Definition timeline (d : Dataset A) : list (Q * Z) :=
  match ds_t_index d, ds_datetime d with
  | Some tidx, Some times => zip tidx (nd_values times)
  | _, _ => []
  end.

(** The bytes of the points file. *)
Definition points_file (binary : bool) (pts : list (list A)) : list byte :=
  let header := boundaryDataHeader (length pts) in
  if binary then
    (str_bytes header ++ tobytes pts ++ str_bytes ")")%list
  else
    str_bytes (header +:+ nl
               +:+ render_lines (render_tuple EmptyString 6 6) pts
               +:+ ")" +:+ nl).

(** The bytes of a vector field file. *)
Definition vector_file (binary : bool) (data : list (list A)) : list byte :=
  let header := boundaryDataHeader (length data) in
  if binary then
    (str_bytes header ++ tobytes data ++ str_bytes ")"
     ++ str_bytes (nl +:+ "(0 0 0)"))%list
  else
    (str_bytes (header +:+ nl
                +:+ render_lines (render_tuple EmptyString 6 6) data
                +:+ ")" +:+ nl)
     ++ str_bytes (nl +:+ "(0 0 0) // average value"))%list.

(** The bytes of a scalar field file. *)
Definition scalar_file (binary : bool) (ui : list A) : list byte :=
  let header := boundaryDataHeader (length ui) in
  if binary then
    (str_bytes header ++ tobytes_1d ui ++ str_bytes ")"
     ++ str_bytes (nl +:+ "0"))%list
  else
    (str_bytes (header +:+ nl
                +:+ render_lines (render_scalar EmptyString 6)
                                 (map (fun v => [v]) ui)
                +:+ ")" +:+ nl)
     ++ str_bytes (nl +:+ "0 // average value"))%list.

(** The world after a skipped timestep. *)
Definition after_skip (w : World A) (ti : Q) : World A :=
  mkWorld (w_files w) (w_dirs w) (w_stdout w ++ [MsgSkipping ti]).

(** The world after a file was written into directory [dir]. *)
Definition after_write (w : World A) (dir path : string) (c : content)
    (msg : message A) : World A :=
  mkWorld (<[path := c]> (w_files w))
          (if bool_decide (dir ∈ w_dirs w) then w_dirs w
           else {[dir]} ∪ w_dirs w)
          (w_stdout w ++ [msg]).

(** The world after the timestep [step] of a field whose file holds
    [bytes] and [N] values: a diagnostic when its t_index is negative,
    else the file in the directory named by the t_index, and the line
    that reports it. *)
Definition after_step (wrote : nat -> string -> Z -> message A)
    (self : t A) (fname : string) (gzip : bool) (N : nat)
    (bytes : list byte) (w : World A) (step : Q * Z) : World A :=
  let '(ti, tstamp) := step in
  if negative ti then after_skip w ti
  else after_write w (path_join (dpath self) (tname ti))
         (opened_path (field_path self ti fname) gzip)
         (stored gzip bytes)
         (wrote N (field_path self ti fname) tstamp).

(** The world after one timestep of a scalar field. *)
Definition after_scalar_step (self : t A) (fname : string)
    (binary gzip : bool) (w : World A) (step : Q * Z * list A) : World A :=
  let '(ti, tstamp, ui) := step in
  after_step MsgWroteScalars self fname gzip (length ui)
             (scalar_file binary ui) w (ti, tstamp).

(** The world after one timestep of a vector field with rows [data]. *)
Definition after_vector_step (self : t A) (fname : string)
    (binary gzip : bool) (w : World A) (step : Q * Z * list (list A))
  : World A :=
  let '(ti, tstamp, data) := step in
  after_step MsgWroteVectors self fname gzip (length data)
             (vector_file binary data) w (ti, tstamp).

(** The assertion of [write] that the field [dvars] fails, if any. *)
Definition shape_error (d : Dataset A) (dvars : dvars_spec)
  : option assertion :=
  match dvars with
  | VectorVars l =>
      if negb (forallb (fun dvar => in_variables dvar d) l)
      then Some (A_all_components l)
      else if negb (length l =? 3) then Some A_three_components
      else None
  | ScalarVar dvar =>
      if in_variables dvar d then None else Some (A_scalar_var dvar)
  end.

(** *** The layouts as the specification words them *)

(** Follows the words of the specification for a binary scalar file:
    header, the raw bytes of the values, the closing parenthesis, and
    the average-value placeholder 0 as raw bytes of the element type. *)
Definition spec_binary_scalar_file (ui : list A) : list byte :=
  (str_bytes (boundaryDataHeader (length ui)) ++ tobytes_1d ui
   ++ str_bytes ")" ++ tobytes_1d [dt_zero])%list.

(** Follows the words of the specification for a binary vector file:
    the placeholder (0 0 0) as raw bytes of the element type. *)
Definition spec_binary_vector_file (data : list (list A)) : list byte :=
  (str_bytes (boundaryDataHeader (length data)) ++ tobytes data
   ++ str_bytes ")" ++ tobytes [[dt_zero; dt_zero; dt_zero]])%list.

End Methods.
End BoundaryCoupling.

(** ** Invariants of the broadcasting loops *)

Section BroadcastInvariants.
Context {A : Type} `{!DType A}.
Implicit Types (d : Dataset A) (vars : gmap string (NDArray A)).

(** A spatial dimension of the dataset. *)
Definition plane_dim d (dim : string) : Prop :=
  dim ∈ ["x"; "y"; "height"] /\ dim ∈ dims d.

(** [a'] is [a] broadcast over spatial dimensions: it is well formed, has
    the axes of [a] and possibly spatial ones more, and holds at every
    index the item of [a] at that index. *)
Definition broadcast_of d (a a' : NDArray A) : Prop :=
  wf_nd (dim_len d) a'
  /\ (forall dm, dm ∈ nd_dims a -> dm ∈ nd_dims a')
  /\ (forall dm, dm ∈ nd_dims a' -> dm ∈ nd_dims a \/ plane_dim d dm)
  /\ (forall env, Forall (fun dm => env dm < dim_len d dm) (nd_dims a') ->
                  sel_item a' env = sel_item a env).

(** The local copy of the data variables while dimensions are added. *)
Definition broadcast_vars d vars : Prop :=
  forall v, match ds_data_vars d !! v, vars !! v with
            | Some a, Some a' => broadcast_of d a a'
            | None, None => True
            | _, _ => False
            end.

(** No variable loses an axis from [vars] to [vars']. *)
Definition grows vars vars' : Prop :=
  forall v a, vars !! v = Some a ->
    exists a', vars' !! v = Some a'
               /\ forall dm, dm ∈ nd_dims a -> dm ∈ nd_dims a'.

(** The index along every axis of the [k]-th item of the slice at timestep
    [t] of a field laid out over the in-plane dimensions [bd]. *)
Definition plane_env d (bd : list string) (t k : nat) (dim : string) : nat :=
  if String.eqb dim "datetime" || String.eqb dim "t_index" then t
  else default 0 (p ← index_of dim bd;
                  unravel_index (map (dim_len d) bd) k !! p).

(** The in-plane dimensions in the order [write] fixes. *)
Definition plane_dims d : list string :=
  List.filter (fun dim => bool_decide (dim ∈ dims d)) ["x"; "y"; "height"].

(** [steps] are the timesteps of the field [a] laid out over [bd]: one per
    datetime, with its t_index and timestamp, and a payload whose [k]-th
    value is the item of [a] at the index [plane_env] gives. *)
Definition steps_follow d (bd : list string) (a : NDArray A)
    (steps : list (Q * Z * list A)) : Prop :=
  length steps = dim_len d "datetime"
  /\ forall t, t < dim_len d "datetime" ->
       exists ti tstamp payload,
         steps !! t = Some (ti, tstamp, payload)
         /\ (exists tidx times,
               ds_t_index d = Some tidx /\ ds_datetime d = Some times
               /\ tidx !! t = Some ti /\ nd_values times !! t = Some tstamp)
         /\ length payload = size_of (map (dim_len d) bd)
         /\ forall k, k < size_of (map (dim_len d) bd) ->
              exists v, payload !! k = Some v
                        /\ sel_item a (plane_env d bd t k) = Some v.

(** The [k]-th row of [pts] holds the coordinates of the [k]-th point of
    the grid. *)
Definition points_follow_grid d (pts : list (list A)) : Prop :=
  forall k, k < length pts ->
    exists xv yv zv,
      pts !! k = Some [xv; yv; zv]
      /\ coord_value d "x" (point_env d 0 k "x") = Some xv
      /\ coord_value d "y" (point_env d 0 k "y") = Some yv
      /\ coord_value d "height" (point_env d 0 k "height") = Some zv.

(** Every timestep of [steps] has one value per point, and the [k]-th
    value is the item of the field [a] at the [k]-th point. *)
Definition payloads_follow_points d (pts : list (list A)) (a : NDArray A)
    (steps : list (Q * Z * list A)) : Prop :=
  length steps = dim_len d "datetime"
  /\ forall t ti tstamp payload,
       steps !! t = Some (ti, tstamp, payload) ->
       length payload = length pts
       /\ forall k, k < length pts ->
            exists v, payload !! k = Some v
                      /\ sel_item a (point_env d t k) = Some v.

(** Every payload of [steps] holds, at every position, the item of the
    field [a] at the index of that position, and so the same value at any
    two positions whose indices differ only along the dimension [m]. *)
Definition repeats_along d (bd : list string) (m : string) (a : NDArray A)
    (steps : list (Q * Z * list A)) : Prop :=
  forall t ti tstamp payload,
    steps !! t = Some (ti, tstamp, payload) ->
    length payload = size_of (map (dim_len d) bd)
    /\ forall k, k < length payload ->
         exists v,
           payload !! k = Some v
           /\ sel_item a (plane_env d bd t k) = Some v
           /\ forall k', k' < length payload ->
                (forall dm, dm <> m ->
                   plane_env d bd t k' dm = plane_env d bd t k dm) ->
                payload !! k' = Some v.
End BroadcastInvariants.

(** ** What a call does to the world, as a sequence of effects *)

(** The three things the writers do to the outside world. *)
Inductive effect (A : Type) : Type :=
  | Print (line : message A)                 (* one more line on stdout *)
  | MakeDirs (dir : string)                  (* the directory exists *)
  | PutFile (path : string) (c : content).   (* the file is created or replaced *)
Arguments Print {A}.
Arguments MakeDirs {A}.
Arguments PutFile {A}.

Definition perform {A} (w : World A) (e : effect A) : World A :=
  match e with
  | Print line => mkWorld (w_files w) (w_dirs w) (w_stdout w ++ [line])
  | MakeDirs dir => mkWorld (w_files w) ({[dir]} ∪ w_dirs w) (w_stdout w)
  | PutFile path c => mkWorld (<[path := c]> (w_files w)) (w_dirs w) (w_stdout w)
  end.

(** The world after the effects, one after the other. *)
Definition perform_all {A} (w : World A) (es : list (effect A)) : World A :=
  foldl perform w es.

(** The lines among the effects, and the paths of the files. *)
Definition printed {A} (es : list (effect A)) : list (message A) :=
  omap (fun e => match e with Print line => Some line | _ => None end) es.
Definition put_paths {A} (es : list (effect A)) : list string :=
  omap (fun e => match e with PutFile path _ => Some path | _ => None end) es.

Section Effects.
Context {A : Type} `{!DType A}.
Implicit Types (d : Dataset A).

(** The directory of the timestep with t_index [ti] under the folder of
    the patch: the t_index formatted by ['{:g}']. *)
Definition timestep_dir (dpath : string) (ti : Q) : string :=
  path_join dpath (fmt_g 6 (dt_of_seconds ti)).

(** The file of field [fname] at the timestep with t_index [ti]. *)
Definition timestep_file (dpath fname : string) (ti : Q) : string :=
  path_join (timestep_dir dpath ti) fname.

(** What is expected of one timestep of a field whose file holds [bytes]
    for [N] values: a timestep with a negative t_index is skipped with a
    diagnostic; any other has its directory made, its file written, and is
    reported. *)
Definition timestep_effects (wrote : nat -> string -> Z -> message A)
    (dpath fname : string) (gzip : bool) (N : nat) (bytes : list byte)
    (ti : Q) (tstamp : Z) : list (effect A) :=
  if (Qnum ti <? 0)%Z then [Print (MsgSkipping ti)]
  else [MakeDirs (timestep_dir dpath ti);
        PutFile (BoundaryCoupling.opened_path (timestep_file dpath fname ti) gzip)
                (BoundaryCoupling.stored gzip bytes);
        Print (wrote N (timestep_file dpath fname ti) tstamp)].

(** The line printed for a timestep. *)
Definition timestep_line (wrote : nat -> string -> Z -> message A)
    (dpath fname : string) (N : nat) (step : Q * Z) : message A :=
  if (Qnum step.1 <? 0)%Z then MsgSkipping step.1
  else wrote N (timestep_file dpath fname step.1) step.2.

(** The files of the timesteps that are retained. *)
Definition retained_files (dpath fname : string) (gzip : bool)
    (steps : list (Q * Z)) : list string :=
  map (fun step => BoundaryCoupling.opened_path
                     (timestep_file dpath fname step.1) gzip)
      (List.filter (fun step => negb (Qnum step.1 <? 0)%Z) steps).

(** The effects of a scalar field with the given timesteps, in order. *)
Definition scalar_effects (dpath fname : string) (binary gzip : bool)
    (steps : list (Q * Z * list A)) : list (effect A) :=
  concat (map (fun step : Q * Z * list A =>
                 timestep_effects MsgWroteScalars dpath fname gzip
                   (length step.2) (BoundaryCoupling.scalar_file binary step.2)
                   step.1.1 step.1.2)
              steps).

(** The rows of a vector field: row [k] holds the [k]-th value of each of
    the three components. *)
Definition vector_rows (ui vi wi : list A) : list (list A) :=
  zip_with (fun a r => a :: r) ui (zip_with (fun b c => [b; c]) vi wi).

(** The effects of a vector field whose components have the timesteps
    [s1], [s2] and [s3]; the time of a step is that of the first
    component. *)
Definition vector_effects (dpath fname : string) (binary gzip : bool)
    (s1 s2 s3 : list (Q * Z * list A)) : list (effect A) :=
  concat (zip_with (fun (step : Q * Z * list A) (vw : list A * list A) =>
                      let rows := vector_rows step.2 vw.1 vw.2 in
                      timestep_effects MsgWroteVectors dpath fname gzip
                        (length rows) (BoundaryCoupling.vector_file binary rows)
                        step.1.1 step.1.2)
                   s1 (zip (map snd s2) (map snd s3))).

(** The effects of the points file. *)
Definition points_effects (dpath : string) (binary gzip : bool)
    (pts : list (list A)) : list (effect A) :=
  [PutFile (BoundaryCoupling.opened_path (path_join dpath "points") gzip)
           (BoundaryCoupling.stored gzip (BoundaryCoupling.points_file binary pts));
   Print (MsgWrotePoints (length pts) (path_join dpath "points"))].

(** The note on compressed binary output. *)
Definition note_effects (binary gzip : bool) : list (effect A) :=
  if binary && gzip then [Print MsgCompressedBinary] else [].

(** A variable a field can be written from: a data variable along
    datetime. *)
Definition valid_var d (var : string) : Prop :=
  exists a, ds_data_vars d !! var = Some a /\ "datetime" ∈ nd_dims a.

Definition valid_field d (field : string * dvars_spec) : Prop :=
  match field.2 with
  | ScalarVar var => valid_var d var
  | VectorVars l => length l = 3 /\ Forall (valid_var d) l
  end.

(** The effects of one entry of [fields], given what relates a variable to
    its timesteps. *)
Inductive field_effects (P : string -> list (Q * Z * list A) -> Prop)
    (dpath : string) (binary gzip : bool)
  : string * dvars_spec -> list (effect A) -> Prop :=
  | scalar_field_effects fname var steps :
      P var steps ->
      field_effects P dpath binary gzip (fname, ScalarVar var)
        (scalar_effects dpath fname binary gzip steps)
  | vector_field_effects fname c1 c2 c3 s1 s2 s3 :
      P c1 s1 -> P c2 s2 -> P c3 s3 ->
      field_effects P dpath binary gzip (fname, VectorVars [c1; c2; c3])
        (vector_effects dpath fname binary gzip s1 s2 s3).

(** [steps] are the timesteps of the dataset with, for each, the values of
    the variable [var] laid out over the in-plane dimensions [bd]. *)
Definition var_steps d (bd : list string) (var : string)
    (steps : list (Q * Z * list A)) : Prop :=
  exists a, ds_data_vars d !! var = Some a
            /\ map fst steps = BoundaryCoupling.timeline d
            /\ steps_follow d bd a steps.

(** [steps] are the timesteps of the dataset with, for each, the values of
    the variable [var] at the points [pts], in the order of the points. *)
Definition var_at_points d (pts : list (list A)) (var : string)
    (steps : list (Q * Z * list A)) : Prop :=
  exists a, ds_data_vars d !! var = Some a
            /\ map fst steps = BoundaryCoupling.timeline d
            /\ payloads_follow_points d pts a steps.

(** The printed name of a kind of field. *)
Definition wrote_of (dvars : dvars_spec) : nat -> string -> Z -> message A :=
  match dvars with
  | ScalarVar _ => MsgWroteScalars
  | VectorVars _ => MsgWroteVectors
  end.
End Effects.

(** ** A concrete element type: float64 values that are integers

    [Fin z] is the double whose value is the integer [z], exact for
    [|z| < 2^53]; [NaN] is the missing value. Formatting and the byte layout
    follow C's [printf] and IEEE 754 on a little-endian machine. Products and
    quotients are exact as long as they are integers in that range, which is
    the case for every input evaluated below. *)
Module F64.

Inductive f64 : Type :=
  | Fin (z : Z)
  | NaN.

Definition eqb (a b : f64) : bool :=
  match a, b with
  | Fin x, Fin y => (x =? y)%Z
  | NaN, NaN => true
  | _, _ => false
  end.

Definition leb (a b : f64) : bool :=
  match a, b with
  | Fin x, Fin y => (x <=? y)%Z
  | _, NaN => true
  | NaN, _ => false
  end.

Definition mul (a b : f64) : f64 :=
  match a, b with
  | Fin x, Fin y => Fin (x * y)
  | _, _ => NaN
  end.

(** The decimal digits of a positive number without its trailing zeros. *)
Fixpoint strip_zeros (fuel : nat) (m : Z) : Z :=
  match fuel with
  | O => m
  | S fuel' => if (m mod 10 =? 0)%Z && (0 <? m)%Z
               then strip_zeros fuel' (m / 10) else m
  end.

(** The number of decimal digits of a positive number. *)
Definition ndigits (m : Z) : nat := String.length (pretty m).

(** ['%.{p}g' % float(z)]. With [P = max p 1] and [X] the decimal exponent
    of [z]: fixed notation when [X < P] (an integer prints as its digits),
    else scientific notation with the mantissa rounded half-to-even to [P]
    digits, trailing zeros removed, and an exponent of at least two
    digits. *)
Definition format_g (p : nat) (a : f64) : string :=
  match a with
  | NaN => "nan"
  | Fin z =>
      if (z =? 0)%Z then "0"
      else
        let sign := if (z <? 0)%Z then "-" else EmptyString in
        let m := Z.abs z in
        let P := Nat.max p 1 in
        let n := ndigits m in
        if n <=? P then sign +:+ pretty m
        else
          let scale := (10 ^ Z.of_nat (n - P))%Z in
          let q := (m / scale)%Z in
          let r := (m mod scale)%Z in
          let q' := if (scale <? 2 * r)%Z || ((2 * r =? scale)%Z && Z.odd q)
                    then (q + 1)%Z else q in
          (* a carry out of the leading digit moves the exponent *)
          let X := if (q' =? 10 ^ Z.of_nat P)%Z then n else n - 1 in
          let mant := pretty (strip_zeros P q') in
          let frac := match mant with
                      | String c EmptyString => String c EmptyString
                      | String c rest => String c ("." +:+ rest)
                      | EmptyString => EmptyString
                      end in
          sign +:+ frac +:+ "e+" +:+ (if X <? 10 then "0" else EmptyString)
               +:+ pretty X
  end.

(** The 64 bits of a double. *)
Definition bits (a : f64) : Z :=
  match a with
  | NaN => 0x7ff8000000000000
  | Fin z =>
      if (z =? 0)%Z then 0
      else
        let m := Z.abs z in
        let e := Z.log2 m in
        let frac := if (e <=? 52)%Z then (m * 2 ^ (52 - e) - 2 ^ 52)%Z
                    else (Z.shiftr m (e - 52) - 2 ^ 52)%Z in
        ((if (z <? 0)%Z then 2 ^ 63 else 0) + (e + 1023) * 2 ^ 52 + frac)%Z
  end.

Definition byte_of_Z (z : Z) : byte :=
  default x00 (Byte.of_N (Z.to_N (z mod 256))).

(** Eight bytes, least significant first. *)
Definition to_bytes (a : f64) : list byte :=
  map (fun i => byte_of_Z (Z.shiftr (bits a) (8 * Z.of_nat i))) (seq 0 8).

Definition eq_dec : EqDecision f64.
Proof. unfold EqDecision, Decision. decide equality. apply Z.eq_dec. Defined.

#[global] Instance dtype : DType f64 := {|
  dt_eq_dec := eq_dec;
  dt_zero := Fin 0;
  dt_nan := NaN;
  dt_isna := fun a => match a with NaN => true | _ => false end;
  dt_leb := leb;
  dt_mul := mul;
  dt_of_seconds := fun q => Fin (Qnum q / Zpos (Qden q));
  dt_of_stamp := Fin;
  dt_of_nat := fun n => Fin (Z.of_nat n);
  fmt_g := format_g;
  dt_tobytes := to_bytes;
  dt_zero_not_na := eq_refl
|}.
End F64.

(** ** Inputs of the scenarios *)

Module Scenario.
Import F64.

(** 2020-01-01T00:00:00 and one hour, in nanoseconds. *)
Definition T0 : Z := 1577836800000000000.
Definition hour : Z := 3600000000000.

(** A source with timestamps T0 and T0+1h, the single height 10 and the
    field theta = [300.0, 301.0]. *)
Definition single_height : DataFrame f64 :=
  mkDF (Some "datetime") DatetimeIndex [T0; (T0 + hour)%Z]
       [("height", [Fin 10; Fin 10]); ("theta", [Fin 300; Fin 301])].

(** The same source with a (datetime, height) MultiIndex. *)
Definition single_height_multi : frame f64 :=
  MultiFrame (Some "datetime") (Some "height") DatetimeIndex
             [T0; (T0 + hour)%Z] [Fin 10; Fin 10]
             [("theta", [Fin 300; Fin 301])].

(** Two heights per timestamp. *)
Definition two_heights : DataFrame f64 :=
  mkDF (Some "datetime") DatetimeIndex [T0; T0; (T0 + hour)%Z; (T0 + hour)%Z]
       [("height", [Fin 10; Fin 20; Fin 10; Fin 20]);
        ("theta", [Fin 300; Fin 305; Fin 301; Fin 306])].

Definition start : State f64 unit := mkState tt empty_world.

(** A west boundary, as a caller passes it: the plane x in [0, 10] and
    height in [5, 6, 7] at y = 1234567, at T0 and T0+1h, with theta over
    (datetime, height, x), u over (datetime, height), v over (x, datetime)
    and w over datetime. *)
Definition west_input : Dataset f64 :=
  mkDS [("datetime", 2); ("x", 2); ("height", 3)]
       (Some (mkND ["datetime"] [2] [T0; (T0 + hour)%Z]))
       None
       (<["x" := mkND ["x"] [2] [Fin 0; Fin 10]]>
        (<["height" := mkND ["height"] [3] [Fin 5; Fin 6; Fin 7]]>
         (<["y" := mkND [] [] [Fin 1234567]]> ∅)))
       (<["theta" := mkND ["datetime"; "height"; "x"] [2; 3; 2]
                       (map Fin [1; 2; 3; 4; 5; 6; 7; 8; 9; 10; 11; 12]%Z)]>
        (<["u" := mkND ["datetime"; "height"] [2; 3]
                    (map Fin [21; 22; 23; 24; 25; 26]%Z)]>
         (<["v" := mkND ["x"; "datetime"] [2; 2] (map Fin [31; 32; 33; 34]%Z)]>
          (<["w" := mkND ["datetime"] [2] (map Fin [41; 42]%Z)]> ∅)))).

(** The dataset of the writer constructed on [west_input] with reference
    date [dateref]. *)
Definition west_at (dateref : Z) : Dataset f64 :=
  mkDS (ds_dims west_input) (ds_datetime west_input)
       (Some (map (fun ts => (ts - dateref) # BoundaryCoupling.one_second)
                  [T0; (T0 + hour)%Z]))
       (ds_coords west_input) (ds_data_vars west_input).
Definition west : Dataset f64 := west_at T0.

(** A writer of internal forcing over [single_height], with the t_index
    column its constructor adds for the reference date T0. *)
Definition internal_writer : InternalCoupling.t f64 :=
  InternalCoupling.mk "out"
    (setitem single_height "t_index" [Fin 0; Fin 3600]) T0.

(** The writer of the west boundary while [write] runs. *)
Definition west_writer (dateref : Z) : BoundaryCoupling.t f64 :=
  BoundaryCoupling.mk "west" "out/west" (west_at dateref) T0
                      (Some ["x"; "height"]).

(** A dataset over x, y and height without a datetime dimension; datetime
    is a scalar coordinate. *)
Definition timeless : Dataset f64 :=
  mkDS [("x", 2); ("y", 1); ("height", 3)]
       (Some (mkND [] [] [T0]))
       None
       (<["x" := mkND ["x"] [2] [Fin 0; Fin 10]]>
        (<["y" := mkND ["y"] [1] [Fin 0]]>
         (<["height" := mkND ["height"] [3] [Fin 5; Fin 6; Fin 7]]> ∅)))
       (<["theta" := mkND ["x"; "y"; "height"] [2; 1; 3]
                       (map Fin [1; 2; 3; 4; 5; 6]%Z)]> ∅).

(** Construct the writer of the west boundary with reference date
    [dateref], then call [write(fields, binary, gzip)]. *)
Definition west_run (dateref : Z) (fields : list (string * dvars_spec))
    (binary gzip : bool)
  : State f64 (BoundaryCoupling.t f64) * result unit + exn :=
  match BoundaryCoupling.__init__ "out" west_input "west" (Some dateref)
          None None start with
  | (s, Ok bc) =>
      inl (BoundaryCoupling.write fields binary gzip (mkState bc (st_world s)))
  | (_, Raise e) => inr e
  end.

(** The west boundary with timestamps 1000000 s and 1000001 s after T0. *)
Definition late_input : Dataset f64 :=
  mkDS (ds_dims west_input)
       (Some (mkND ["datetime"] [2]
                   [(T0 + 1000000 * 1000000000)%Z; (T0 + 1000001 * 1000000000)%Z]))
       None (ds_coords west_input) (ds_data_vars west_input).

(** Construct the writer on [late_input] with reference date T0, then call
    [write(fields, binary, gzip)]. *)
Definition late_run (fields : list (string * dvars_spec)) (binary gzip : bool)
  : State f64 (BoundaryCoupling.t f64) * result unit + exn :=
  match BoundaryCoupling.__init__ "out" late_input "west" (Some T0)
          None None start with
  | (s, Ok bc) =>
      inl (BoundaryCoupling.write fields binary gzip (mkState bc (st_world s)))
  | (_, Raise e) => inr e
  end.

(** Construct the writer on [input] with start date [datefrom], then call
    [write_ICs('ICs')] with its default field names. *)
Definition ics_run (input : frame f64) (datefrom : option Z)
  : State f64 (InternalCoupling.t f64) * result unit + exn :=
  match InternalCoupling.__init__ "out" input None datefrom None start with
  | (s, Ok ic) =>
      inl (InternalCoupling.write_ICs "ICs" "u" "v" "theta"
             (mkState ic (st_world s)))
  | (_, Raise e) => inr e
  end.
End Scenario.

(* ================================================================== *)
(** * Part II: properties *)
(* ================================================================== *)

(** ** The monad *)

Section MonadFacts.
Context {A Self : Type}.
Local Abbreviation St := (State A Self).

Lemma keeps_ret {X} (x : X) : keeps_self (ret x : M St X).
Proof. intros s; reflexivity. Qed.

Lemma keeps_raise {X} e : keeps_self (@raise St X e).
Proof. intros s; reflexivity. Qed.

Lemma keeps_lift {X} (r : result X) : keeps_self (lift r : M St X).
Proof. intros s; reflexivity. Qed.

Lemma keeps_assert b a : keeps_self (assert b a : M St unit).
Proof. intros s; destruct b; reflexivity. Qed.

Lemma keeps_get_self : keeps_self (get_self : M St Self).
Proof. intros s; reflexivity. Qed.

Lemma keeps_modify_world f : keeps_self (modify_world f : M St unit).
Proof. intros s; reflexivity. Qed.

Lemma keeps_isdir p : keeps_self (isdir p : M St bool).
Proof. intros s; reflexivity. Qed.

Lemma keeps_bind {X Y} (m : M St X) (k : X -> M St Y) :
  keeps_self m -> (forall x, keeps_self (k x)) -> keeps_self (bind m k).
Proof.
  intros Hm Hk s. unfold bind. specialize (Hm s).
  destruct (m s) as [s1 [x|e]]; simpl in *.
  - rewrite Hk. exact Hm.
  - exact Hm.
Qed.

Lemma keeps_for_each {X} (l : list X) (body : X -> M St unit) :
  (forall x, keeps_self (body x)) -> keeps_self (for_each l body).
Proof.
  intros Hb. induction l as [|x l IH]; simpl.
  - apply keeps_ret.
  - apply keeps_bind; [apply Hb | intros _; exact IH].
Qed.

Lemma keeps_fopen p gz : keeps_self (fopen p gz : M St unit).
Proof. intros s; reflexivity. Qed.

Lemma keeps_fwrite p b : keeps_self (fwrite p b : M St unit).
Proof. intros s; reflexivity. Qed.

Lemma keeps_fsavetxt p out : keeps_self (fsavetxt p out : M St unit).
Proof.
  unfold fsavetxt, fwrite_str.
  apply keeps_bind; [apply keeps_fwrite | intros; apply keeps_lift].
Qed.

Lemma bind_ok {X Y} (m : M St X) (k : X -> M St Y) s s1 x :
  m s = (s1, Ok x) -> bind m k s = k x s1.
Proof. intros H. unfold bind. now rewrite H. Qed.

Lemma bind_raise {X Y} (m : M St X) (k : X -> M St Y) s s1 e :
  m s = (s1, Raise e) -> bind m k s = (s1, Raise e).
Proof. intros H. unfold bind. now rewrite H. Qed.

Lemma keeps_makedirs p : keeps_self (makedirs p : M St unit).
Proof. intros s; reflexivity. Qed.

Lemma keeps_print m : keeps_self (print m : M St unit).
Proof. intros s; reflexivity. Qed.

Lemma keeps_if {X} (b : bool) (m1 m2 : M St X) :
  keeps_self m1 -> keeps_self m2 -> keeps_self (if b then m1 else m2).
Proof. destruct b; auto. Qed.
End MonadFacts.

(** Proves [keeps_self m] for a computation built from operations on the
    world. *)
Ltac keeps :=
  repeat first
    [ apply keeps_ret | apply keeps_raise | apply keeps_lift
    | apply keeps_assert | apply keeps_get_self | apply keeps_isdir
    | apply keeps_modify_world | apply keeps_fopen | apply keeps_fwrite
    | apply keeps_fsavetxt | apply keeps_makedirs | apply keeps_print
    | apply keeps_bind; [|intros ?]
    | apply keeps_for_each; intros ?
    | match goal with
      | |- keeps_self (if ?b then _ else _) => destruct b
      | |- keeps_self (match ?x with _ => _ end) => destruct x
      end ].

(** ** Data frames *)

Section FrameFacts.
Context {A : Type} `{!DType A}.

Lemma has_column_assoc name (d : DataFrame A) :
  has_column name d = true <-> is_Some (assoc name (df_columns d)).
Proof.
  unfold has_column, columns. rewrite bool_decide_eq_true.
  induction (df_columns d) as [|[k v] l IH]; simpl.
  - split; [intros H; inversion H | intros [? H]; discriminate].
  - destruct (String.eqb_spec k name) as [->|Hne].
    + split; [eauto | intros _; left].
    + rewrite <- IH. rewrite elem_of_cons. split; [intros [->|]|]; tauto.
Qed.

Lemma has_column_false name (d : DataFrame A) :
  has_column name d = false <-> assoc name (df_columns d) = None.
Proof.
  rewrite <- not_true_iff_false, has_column_assoc, <- eq_None_not_Some.
  reflexivity.
Qed.

Lemma assoc_set_assoc_eq {V} name (v : V) l :
  assoc name (set_assoc name v l) = Some v.
Proof.
  induction l as [|[k v0] l IH]; simpl.
  - rewrite String.eqb_refl. reflexivity.
  - destruct (String.eqb_spec k name) as [->|Hne]; simpl.
    + rewrite String.eqb_refl. reflexivity.
    + destruct (String.eqb_spec k name); [contradiction | exact IH].
Qed.

Lemma assoc_set_assoc_ne {V} name k (v : V) l :
  k <> name -> assoc k (set_assoc name v l) = assoc k l.
Proof.
  intros Hne. induction l as [|[k' v0] l IH]; simpl.
  - destruct (String.eqb_spec name k); [congruence | reflexivity].
  - destruct (String.eqb_spec k' name) as [->|Hk']; simpl.
    + destruct (String.eqb_spec name k); [congruence | reflexivity].
    + destruct (String.eqb_spec k' k); [reflexivity | exact IH].
Qed.

Lemma getitem_setitem_eq (d : DataFrame A) name v :
  getitem (setitem d name v) name = Ok v.
Proof. unfold getitem, setitem; simpl. rewrite assoc_set_assoc_eq. reflexivity. Qed.

Lemma getitem_setitem_ne (d : DataFrame A) name k v :
  k <> name -> getitem (setitem d name v) k = getitem d k.
Proof.
  intros Hne. unfold getitem, setitem; simpl.
  rewrite assoc_set_assoc_ne by exact Hne. reflexivity.
Qed.
End FrameFacts.

(** ** InternalCoupling *)

Section InternalFacts.
Context {A : Type} `{!DType A}.
Import InternalCoupling.
Local Abbreviation St := (State A (InternalCoupling.t A)).

Lemma set_df_same (self : t A) : set_df self (df self) = self.
Proof. destruct self; reflexivity. Qed.

(** The zero-filling loop of [write_timeheight] replaces the stored frame
    and touches nothing else. *)
Lemma set_missing_to_zero_run fields (s : St) :
  set_missing_to_zero fields s
  = (mkState (set_df (st_self s) (add_zero_fields (df (st_self s)) fields))
             (st_world s), Ok tt).
Proof.
  revert s. induction fields as [|field fields IH]; intros [self w].
  - simpl. rewrite set_df_same. reflexivity.
  - unfold set_missing_to_zero in *. simpl. unfold bind at 1.
    destruct field as [f|]; simpl.
    + unfold bind at 1. simpl.
      destruct (has_column f (df self)) eqn:Hf; simpl.
      * rewrite IH. simpl. reflexivity.
      * unfold set_self, modify. simpl. rewrite IH. simpl. reflexivity.
    + rewrite IH. reflexivity.
Qed.

Lemma keeps_write_heights path label zs :
  keeps_self (write_heights path label zs).
Proof.
  unfold write_heights, fwrite_str.
  apply keeps_bind; [apply keeps_fwrite | intros; apply keeps_fsavetxt].
Qed.

Lemma keeps_write_table path label ts nz p field :
  keeps_self (write_table path label ts nz p field).
Proof.
  unfold write_table, fwrite_str.
  apply keeps_bind; [apply keeps_fwrite | intros].
  apply keeps_bind; [apply keeps_lift | intros].
  apply keeps_bind; [apply keeps_lift | intros].
  apply keeps_fsavetxt.
Qed.

Lemma keeps_timeheight_output wm fname xmom ymom zmom temp zs ts :
  keeps_self (timeheight_output wm fname xmom ymom zmom temp zs ts).
Proof.
  unfold timeheight_output.
  apply keeps_bind; [apply keeps_get_self | intros self].
  apply keeps_bind; [apply keeps_lift | intros pv].
  apply keeps_bind.
  { apply keeps_for_each. intros f.
    apply keeps_bind; [apply keeps_lift | intros; apply keeps_assert]. }
  intros _. apply keeps_bind; [apply keeps_fopen | intros _].
  apply keeps_bind.
  - destruct wm, xmom, ymom, zmom; try apply keeps_ret.
    repeat (apply keeps_bind; [first [apply keeps_write_heights
                                     | apply keeps_write_table] | intros _]).
    apply keeps_write_table.
  - intros _. destruct temp as [tm|]; [|apply keeps_ret].
    destruct (String.eqb tm EmptyString); [apply keeps_ret|].
    apply keeps_bind; [apply keeps_write_heights | intros _].
    apply keeps_write_table.
Qed.

(** [write_ICs] works on a copy: the stored frame is never changed. *)
Lemma keeps_write_ICs fname xmom ymom temp :
  keeps_self (write_ICs fname xmom ymom temp).
Proof.
  unfold write_ICs.
  apply keeps_bind; [apply keeps_get_self | intros self].
  apply keeps_bind; [apply keeps_lift | intros sel].
  apply keeps_bind; [apply keeps_lift | intros d].
  apply keeps_bind; [apply keeps_lift | intros zs].
  apply keeps_bind.
  { apply keeps_for_each. intros f.
    apply keeps_bind; [apply keeps_lift | intros; apply keeps_assert]. }
  intros _.
  repeat (apply keeps_bind; [apply keeps_lift | intros ?]).
  apply keeps_bind; [apply keeps_fopen | intros _].
  apply keeps_fsavetxt.
Qed.

Lemma getattr_has_column name (d : DataFrame A) :
  has_column name d = true -> exists v, getattr d name = Ok v.
Proof.
  rewrite has_column_assoc. intros [v Hv]. exists v.
  unfold getattr. rewrite Hv. reflexivity.
Qed.

(** The object after [timeheight_body]: whatever happens after the loop,
    the stored frame is the one the loop left. *)
Lemma timeheight_body_self wm fname xmom ymom zmom temp (s : St) :
  has_column "height" (df (st_self s)) = true ->
  has_column "t_index" (df (st_self s)) = true ->
  st_self (fst (timeheight_body wm fname xmom ymom zmom temp s))
  = set_df (st_self s)
           (add_zero_fields (df (st_self s)) [xmom; ymom; zmom; temp]).
Proof.
  intros Hh Ht.
  destruct (getattr_has_column _ _ Hh) as [hs Hhs].
  destruct (getattr_has_column _ _ Ht) as [tx Htx].
  unfold timeheight_body. unfold bind at 1. simpl.
  unfold bind at 1. unfold lift at 1. rewrite Hhs.
  unfold bind at 1. unfold lift at 1. rewrite Htx.
  unfold bind at 1. rewrite set_missing_to_zero_run.
  rewrite keeps_timeheight_output. reflexivity.
Qed.
End InternalFacts.

(** ** Text output *)

Lemma append_nil_r (s : string) : s +:+ EmptyString = s.
Proof.
  induction s as [|c s IH]; [reflexivity | exact (f_equal (String c) IH)].
Qed.

Lemma append_assoc (s1 s2 s3 : string) : (s1 +:+ s2) +:+ s3 = s1 +:+ (s2 +:+ s3).
Proof.
  induction s1 as [|c s IH]; [reflexivity | exact (f_equal (String c) IH)].
Qed.

Section TextFacts.
Context {A : Type} `{!DType A}.

(** When every row is formatted by [render], the data block is one
    rendered row per line. *)
Lemma savetxt_rows_ok format (render : list A -> string) rows :
  (forall r, r ∈ rows -> pyformat format r = Ok (render r)) ->
  savetxt_rows format rows = (render_lines render rows, Ok tt).
Proof.
  induction rows as [|r rows IH]; intros Hr; simpl.
  - reflexivity.
  - rewrite (Hr r) by left. rewrite IH; [reflexivity|].
    intros r' Hin. apply Hr. now right.
Qed.

(** The two-column rows of [write_BCs]. *)
Lemma savetxt_BCs (ts vs : list A) :
  savetxt 2 (zip_with (fun ti v => [ti; v]) ts vs)
          (FmtList ["    (%g"; "%.12g)"]) EmptyString EmptyString "# "
  = (render_lines (render_tuple "    " 6 12)
                  (zip_with (fun ti v => [ti; v]) ts vs), Ok tt).
Proof.
  unfold savetxt. simpl savetxt_format. cbv iota beta.
  rewrite (savetxt_rows_ok _ (render_tuple "    " 6 12)).
  - simpl. now rewrite append_nil_r.
  - intros r Hin. apply elem_of_zip_with in Hin as (ti & v & -> & _).
    reflexivity.
Qed.

(** The four-column rows of [write_ICs]. *)
Lemma savetxt_ICs (zs cx cy ct : list A) :
  let rows := zip_with (fun z r => z :: r) zs
                (zip_with (fun u r => u :: r) cx
                   (zip_with (fun v th => [v; th]) cy ct)) in
  savetxt 4 rows
          (FmtList (["    (%g"] ++ replicate 2 "%.12g" ++ ["%.12g)"]))
          EmptyString EmptyString "# "
  = (render_lines (render_tuple "    " 6 12) rows, Ok tt).
Proof.
  intros rows. unfold savetxt. simpl savetxt_format. cbv iota beta.
  rewrite (savetxt_rows_ok _ (render_tuple "    " 6 12)).
  - simpl. now rewrite append_nil_r.
  - intros r Hin. subst rows.
    apply elem_of_zip_with in Hin as (z & r1 & -> & _ & Hin).
    apply elem_of_zip_with in Hin as (u & r2 & -> & _ & Hin).
    apply elem_of_zip_with in Hin as (v & th & -> & _).
    reflexivity.
Qed.

(** The three-column rows of the boundary points and vector files: every
    column is written by [%g]. *)
Lemma savetxt_triples (rows : list (list A)) header :
  (forall r, r ∈ rows -> length r = 3) ->
  header <> EmptyString ->
  savetxt 3 rows (FmtStr "(%g %g %g)") header ")" EmptyString
  = (header +:+ nl +:+ render_lines (render_tuple EmptyString 6 6) rows +:+ ")" +:+ nl,
     Ok tt).
Proof.
  intros Hrows Hh. unfold savetxt. simpl savetxt_format. cbv iota beta.
  rewrite (savetxt_rows_ok _ (render_tuple EmptyString 6 6)).
  - destruct (String.eqb_spec header EmptyString) as [->|_]; [congruence|].
    simpl. f_equal.
    assert (Hid : forall s, replace_nl s EmptyString = s).
    { induction s as [|c s IH]; simpl; [reflexivity|].
      destruct (Ascii.eqb c _); simpl; now rewrite IH. }
    rewrite Hid, !append_assoc. reflexivity.
  - intros r Hin. specialize (Hrows r Hin).
    destruct r as [|a [|b [|c [|]]]]; try discriminate. reflexivity.
Qed.

(** The one-column rows of the boundary scalar files: bare values by
    [%g]. *)
Lemma savetxt_scalars (xs : list A) header :
  header <> EmptyString ->
  savetxt_1d xs (FmtStr "%g") header ")" EmptyString
  = (header +:+ nl +:+
     render_lines (render_scalar EmptyString 6) (map (fun v => [v]) xs)
     +:+ ")" +:+ nl, Ok tt).
Proof.
  intros Hh. unfold savetxt_1d, savetxt. simpl savetxt_format. cbv iota beta.
  rewrite (savetxt_rows_ok _ (render_scalar EmptyString 6)).
  - destruct (String.eqb_spec header EmptyString) as [->|_]; [congruence|].
    simpl. f_equal.
    assert (Hid : forall s, replace_nl s EmptyString = s).
    { induction s as [|c s IH]; simpl; [reflexivity|].
      destruct (Ascii.eqb c _); simpl; now rewrite IH. }
    rewrite Hid, !append_assoc. reflexivity.
  - intros r Hin. apply list_elem_of_fmap in Hin as (v & -> & _).
    unfold pyformat. simpl. now rewrite append_nil_r.
Qed.
End TextFacts.

(** ** InternalCoupling: the time-height writer and the initial conditions *)

Section InternalClaims.
Context {A : Type} `{!DType A}.
Import InternalCoupling.
Local Abbreviation St := (State A (InternalCoupling.t A)).

Lemma has_column_setitem (d : DataFrame A) name v c :
  has_column c (setitem d name v) = true <-> c = name \/ has_column c d = true.
Proof.
  rewrite !has_column_assoc. unfold setitem; simpl.
  destruct (decide (c = name)) as [->|Hne].
  - rewrite assoc_set_assoc_eq. split; [auto | eauto].
  - rewrite assoc_set_assoc_ne by exact Hne. tauto.
Qed.

(** What the zero-filling loop does to a frame: the index and the columns
    it had are kept, and every requested field it lacked is a column of
    zeros. *)
Lemma add_zero_fields_spec fields (d : DataFrame A) :
  df_index (add_zero_fields d fields) = df_index d
  /\ (forall c, has_column c d = true ->
        getitem (add_zero_fields d fields) c = getitem d c)
  /\ (forall f, Some f ∈ fields -> has_column f d = false ->
        getitem (add_zero_fields d fields) f
        = Ok (replicate (length (df_index d)) dt_zero)).
Proof.
  revert d. induction fields as [|field fields IH]; intros d.
  - simpl. split; [reflexivity|]. split; [reflexivity|].
    intros f Hin. inversion Hin.
  - unfold add_zero_fields in *. simpl.
    destruct field as [g|].
    + destruct (has_column g d) eqn:Hg.
      * destruct (IH d) as (Hi & Hold & Hnew).
        split; [exact Hi|]. split; [exact Hold|].
        intros f Hin Hf. apply Hnew; [|exact Hf].
        apply elem_of_cons in Hin as [Heq|Hin]; [|exact Hin].
        injection Heq as ->. congruence.
      * destruct (IH (setitem_zero d g)) as (Hi & Hold & Hnew).
        split; [exact Hi|]. split.
        -- intros c Hc. rewrite Hold.
           ++ apply getitem_setitem_ne. intros ->. congruence.
           ++ apply has_column_setitem. now right.
        -- intros f Hin Hf.
           destruct (decide (f = g)) as [->|Hne].
           ++ rewrite Hold.
              ** apply getitem_setitem_eq.
              ** apply has_column_setitem. now left.
           ++ rewrite Hnew.
              ** reflexivity.
              ** apply elem_of_cons in Hin as [Heq|Hin]; [congruence | exact Hin].
              ** apply not_true_iff_false. intros Hc.
                 apply has_column_setitem in Hc as [->|Hc]; congruence.
    + destruct (IH d) as (Hi & Hold & Hnew).
      split; [exact Hi|]. split; [exact Hold|].
      intros f Hin Hf. apply Hnew; [|exact Hf].
      apply elem_of_cons in Hin as [Heq|Hin]; [discriminate | exact Hin].
Qed.

Lemma getitem_has_column name (d : DataFrame A) v :
  getitem d name = Ok v -> has_column name d = true.
Proof.
  unfold getitem. rewrite has_column_assoc.
  destruct (assoc name (df_columns d)); [eauto | discriminate].
Qed.

Lemma getattr_getitem name (d : DataFrame A) v :
  getattr d name = Ok v <-> getitem d name = Ok v.
Proof.
  unfold getattr, getitem.
  destruct (assoc name (df_columns d)); split; congruence.
Qed.

Lemma any_isna_zeros n : any_isna (replicate n (dt_zero : A)) = false.
Proof.
  induction n as [|n IH]; simpl; [reflexivity|].
  rewrite dt_zero_not_na. exact IH.
Qed.

(** A call of [write_BCs] on a complete field: the file holds one line
    [    (t v)] per row, with [t] by [%g] and the scaled value by
    [%.12g]. *)
Lemma write_BCs_run fname fieldname fact (self : t A) w ts col :
  getattr (df self) "t_index" = Ok ts ->
  getitem (df self) fieldname = Ok col ->
  any_isna col = false ->
  write_BCs fname fieldname fact (mkState self w)
  = (mkState self
       (mkWorld
          (<[path_join (dpath self) fname :=
               Plain (str_bytes
                        (render_lines (render_tuple "    " 6 12)
                           (zip_with (fun ti v => [ti; v]) ts
                                     (map (dt_mul fact) col))))]> (w_files w))
          (w_dirs w) (w_stdout w)), Ok tt).
Proof.
  intros Hts Hcol Hna.
  unfold write_BCs. unfold bind at 1. simpl.
  unfold bind at 1. unfold lift at 1. rewrite Hts.
  unfold bind at 1. rewrite (getitem_has_column _ _ _ Hcol). simpl.
  unfold bind at 1. unfold lift at 1. rewrite Hcol.
  unfold bind at 1. rewrite Hna. simpl.
  rewrite savetxt_BCs.
  unfold fsavetxt, fwrite_str, fwrite, fopen, bind, lift, modify_world, modify.
  simpl. rewrite alter_insert_eq. reflexivity.
Qed.

(** C7. [write_timeheight] fails, before it reads or writes anything, when
    exactly one or exactly two of xmom, ymom and zmom are given; when none
    or all three are given the check passes and the call goes on to write,
    with [write_mom] set exactly when all three are given. *)
Theorem write_timeheight_momentum_complete
    fname xmom ymom zmom temp (s : St) :
  write_timeheight fname xmom ymom zmom temp s =
    match momentum_given xmom ymom zmom with
    | 1 | 2 => (s, Raise (AssertionError A_all_momentum))
    | 0 => timeheight_body false fname xmom ymom zmom temp s
    | _ => timeheight_body true fname xmom ymom zmom temp s
    end.
Proof. destruct xmom, ymom, zmom; reflexivity. Qed.

(** C10. When [write_timeheight] passes its momentum check on a frame with
    height and t_index columns, every requested field that is not a column
    of the stored frame becomes a column of zeros of the stored frame
    itself, whatever the rest of the call does; the index and the other
    columns are kept. The change persists: [write_BCs] of that field, which
    failed on the writer before, now succeeds and writes the zeros, while
    [write_ICs] never changes the stored frame. *)
Theorem write_timeheight_zero_column_persists
    fname xmom ymom zmom temp f (self : t A) w :
  Some f ∈ [xmom; ymom; zmom; temp] ->
  has_column f (df self) = false ->
  momentum_given xmom ymom zmom = 0 \/ momentum_given xmom ymom zmom = 3 ->
  has_column "height" (df self) = true ->
  has_column "t_index" (df self) = true ->
  let s' := fst (write_timeheight fname xmom ymom zmom temp (mkState self w)) in
  let zeros := replicate (length (df_index (df self))) dt_zero in
  getitem (df (st_self s')) f = Ok zeros
  /\ df_index (df (st_self s')) = df_index (df self)
  /\ (forall c, has_column c (df self) = true ->
        getitem (df (st_self s')) c = getitem (df self) c)
  /\ (forall fname' fact,
        snd (write_BCs fname' f fact (mkState self w))
        = Raise (AssertionError (A_field_in_df f)))
  /\ (forall fname' fact,
        exists ts, getattr (df self) "t_index" = Ok ts /\
        write_BCs fname' f fact s'
        = (mkState (st_self s')
             (mkWorld
                (<[path_join (dpath self) fname' :=
                     Plain (str_bytes
                              (render_lines (render_tuple "    " 6 12)
                                 (zip_with (fun ti v => [ti; v]) ts
                                           (map (dt_mul fact) zeros))))]>
                   (w_files (st_world s')))
                (w_dirs (st_world s')) (w_stdout (st_world s'))), Ok tt))
  /\ (forall fname' x y th s0,
        st_self (fst (write_ICs fname' x y th s0)) = st_self s0).
Proof.
  intros Hin Hf Hmom Hh Ht s' zeros.
  assert (Hs' : st_self s'
                = set_df self (add_zero_fields (df self) [xmom; ymom; zmom; temp])).
  { subst s'. rewrite write_timeheight_momentum_complete.
    destruct Hmom as [-> | ->]; apply timeheight_body_self; assumption. }
  destruct (add_zero_fields_spec [xmom; ymom; zmom; temp] (df self))
    as (Hi & Hold & Hnew).
  destruct (getattr_has_column _ _ Ht) as [ts Hts].
  assert (Hdf : df (st_self s') = add_zero_fields (df self) [xmom; ymom; zmom; temp]).
  { rewrite Hs'. destruct self; reflexivity. }
  split; [rewrite Hdf; now apply Hnew|].
  split; [rewrite Hdf; exact Hi|].
  split; [intros c Hc; rewrite Hdf; now apply Hold|].
  split.
  { intros fname' fact. unfold write_BCs. unfold bind at 1. simpl.
    unfold bind at 1. unfold lift at 1. rewrite Hts.
    unfold bind at 1. rewrite Hf. reflexivity. }
  split.
  { intros fname' fact. exists ts. split; [exact Hts|].
    destruct s' as [self' w'] eqn:Es'. simpl in *.
    assert (Hd : dpath self' = dpath self) by (rewrite Hs'; destruct self; reflexivity).
    rewrite <- Hd. apply write_BCs_run.
    - apply getattr_getitem. rewrite Hdf, Hold by exact Ht.
      now apply getattr_getitem.
    - rewrite Hdf. now apply Hnew.
    - apply any_isna_zeros. }
  intros fname' x y th s0. apply keeps_write_ICs.
Qed.
End InternalClaims.

(** The hypotheses of [write_timeheight_zero_column_persists] hold on the
    writer built from the two-height source when the field w is requested
    with u, v and theta. *)
Lemma write_timeheight_zero_column_persists_witness :
  let self := InternalCoupling.mk "out"
                (setitem Scenario.two_heights "t_index"
                   (map F64.Fin [0; 0; 3600; 3600]%Z)) Scenario.T0 in
  getitem
    (InternalCoupling.df
       (st_self (fst (InternalCoupling.write_timeheight "th"
                        (Some "u") (Some "v") (Some "w") (Some "theta")
                        (mkState self empty_world))))) "w"
  = Ok (replicate 4 (F64.Fin 0)).
Proof.
  intros self.
  refine (proj1 (write_timeheight_zero_column_persists
                   "th" (Some "u") (Some "v") (Some "w") (Some "theta") "w"
                   self empty_world _ _ _ _ _)).
  - repeat constructor.
  - reflexivity.
  - right. reflexivity.
  - reflexivity.
  - reflexivity.
Defined.

(** C8, at the scenario of the claim. On the source with timestamps T0 and
    T0+1h, the single height 10 and theta = [300, 301], [write_ICs] raises
    AttributeError and writes no file: [df.loc[T0]] selects a single row,
    which pandas returns as a Series, and a Series has no [columns]. This
    holds for the single-indexed and the multi-indexed source, with the start
    date given or defaulted. *)
Theorem write_ICs_single_height_raises :
  Forall (fun run =>
            exists s, run = inl (s, Raise (AttributeError "columns"))
                      /\ w_files (st_world s) = ∅)
    [ Scenario.ics_run (Frame Scenario.single_height) (Some Scenario.T0);
      Scenario.ics_run (Frame Scenario.single_height) None;
      Scenario.ics_run Scenario.single_height_multi (Some Scenario.T0);
      Scenario.ics_run Scenario.single_height_multi None ].
Proof.
  repeat constructor; eexists; (split; [vm_compute; reflexivity | reflexivity]).
Qed.

(** With two heights per timestamp the same call writes the profile at the
    start date, one line per height, absent fields as zeros. *)
Lemma write_ICs_two_heights :
  exists s,
    Scenario.ics_run (Frame Scenario.two_heights) (Some Scenario.T0)
    = inl (s, Ok tt)
    /\ w_files (st_world s) !! "out/ICs"
       = Some (Plain (str_bytes ("    (10 0 0 300)" +:+ nl +:+
                                 "    (20 0 0 305)" +:+ nl))).
Proof. eexists; split; [vm_compute; reflexivity | reflexivity]. Qed.

(** ** Row-major indexing *)

(** An index within the bounds of a shape. *)
Local Abbreviation in_range idx shape := (Forall2 lt idx shape).

Lemma size_of_cons n shape : size_of (n :: shape) = n * size_of shape.
Proof. reflexivity. Qed.

Lemma ravel_lt shape : forall idx,
  in_range idx shape -> ravel_multi_index shape idx < size_of shape.
Proof.
  induction shape as [|n shape IH]; intros idx H; inversion H; subst; simpl.
  - lia.
  - match goal with Hr : Forall2 _ _ shape |- _ => specialize (IH _ Hr) end.
    fold (size_of shape). nia.
Qed.

Lemma unravel_ravel shape : forall idx,
  in_range idx shape ->
  unravel_index shape (ravel_multi_index shape idx) = idx.
Proof.
  induction shape as [|n shape IH]; intros idx H; inversion H; subst; simpl.
  - reflexivity.
  - match goal with Hr : Forall2 _ _ shape |- _ =>
      pose proof (ravel_lt _ _ Hr) as Hlt; specialize (IH _ Hr) end.
    fold (size_of shape).
    set (sz := size_of shape) in *. set (r := ravel_multi_index shape _) in *.
    assert (Hq : (x * sz + r) / sz = x).
    { symmetry. apply (Nat.div_unique _ _ _ r); [exact Hlt | lia]. }
    assert (Hm : (x * sz + r) mod sz = r).
    { symmetry. apply (Nat.mod_unique _ _ x); [exact Hlt | lia]. }
    rewrite Hq, Hm, IH. reflexivity.
Qed.

Lemma unravel_in_range shape : forall k,
  k < size_of shape -> in_range (unravel_index shape k) shape.
Proof.
  induction shape as [|n shape IH]; intros k Hk; simpl.
  - constructor.
  - rewrite size_of_cons in Hk. fold (size_of shape).
    assert (Hsz : size_of shape <> 0) by (intros E; rewrite E in Hk; lia).
    constructor.
    + apply Nat.Div0.div_lt_upper_bound. lia.
    + apply IH. apply Nat.mod_upper_bound. exact Hsz.
Qed.

Lemma ravel_unravel shape : forall k,
  k < size_of shape ->
  ravel_multi_index shape (unravel_index shape k) = k.
Proof.
  induction shape as [|n shape IH]; intros k Hk; simpl.
  - simpl in Hk. lia.
  - rewrite size_of_cons in Hk. fold (size_of shape).
    assert (Hsz : size_of shape <> 0) by (intros E; rewrite E in Hk; lia).
    rewrite IH by (apply Nat.mod_upper_bound; exact Hsz).
    pose proof (Nat.div_mod_eq k (size_of shape)). lia.
Qed.

Lemma length_unravel shape k : length (unravel_index shape k) = length shape.
Proof. revert k. induction shape; intros k; simpl; [|rewrite IHshape]; reflexivity. Qed.

(** [omap] over a range on which the function is defined. *)
Lemma omap_seq_lookup {T} (f : nat -> option T) n : forall a k,
  (forall i, i < n -> is_Some (f (a + i))) ->
  k < n -> omap f (seq a n) !! k = f (a + k).
Proof.
  induction n as [|n IH]; intros a k Hf Hk; [lia|].
  simpl. destruct (Hf 0 ltac:(lia)) as [y Hy].
  rewrite Nat.add_0_r in Hy. rewrite Hy.
  destruct k as [|k]; simpl.
  - now rewrite Nat.add_0_r.
  - rewrite IH; [f_equal; lia | | lia].
    intros i Hi. replace (S a + i) with (a + S i) by lia. apply Hf. lia.
Qed.

Lemma omap_seq_length {T} (f : nat -> option T) n : forall a,
  (forall i, i < n -> is_Some (f (a + i))) ->
  length (omap f (seq a n)) = n.
Proof.
  induction n as [|n IH]; intros a Hf; [reflexivity|].
  simpl. destruct (Hf 0 ltac:(lia)) as [y Hy].
  rewrite Nat.add_0_r in Hy. rewrite Hy. simpl. f_equal. apply IH.
  intros i Hi. replace (S a + i) with (a + S i) by lia. apply Hf. lia.
Qed.

Section GatherFacts.
Context {T : Type}.

Lemma gather_lookup shape (src : list T) from k :
  (forall k', k' < size_of shape ->
              from (unravel_index shape k') < length src) ->
  k < size_of shape ->
  gather shape src from !! k = src !! from (unravel_index shape k).
Proof.
  intros Hfrom Hk. unfold gather.
  rewrite (omap_seq_lookup _ _ 0 k); [reflexivity | | exact Hk].
  intros i Hi. apply lookup_lt_is_Some. simpl. now apply Hfrom.
Qed.

Lemma gather_length shape (src : list T) from :
  (forall k', k' < size_of shape ->
              from (unravel_index shape k') < length src) ->
  length (gather shape src from) = size_of shape.
Proof.
  intros Hfrom. unfold gather. apply omap_seq_length.
  intros i Hi. apply lookup_lt_is_Some. simpl. now apply Hfrom.
Qed.

(** The [i]-th copy inside [n] copies of a list. *)
Lemma lookup_concat_replicate (l : list T) n i j :
  i < n -> j < length l ->
  concat (replicate n l) !! (i * length l + j) = l !! j.
Proof.
  revert i. induction n as [|n IH]; intros i Hi Hj; [lia|].
  simpl. destruct i as [|i]; simpl.
  - now apply lookup_app_l.
  - rewrite lookup_app_r by lia.
    replace (length l + i * length l + j - length l) with (i * length l + j) by lia.
    apply IH; lia.
Qed.

Lemma chunk_concat_replicate (l : list T) n i :
  i < n ->
  take (length l) (drop (i * length l) (concat (replicate n l))) = l.
Proof.
  revert i. induction n as [|n IH]; intros i Hi; [lia|].
  simpl. destruct i as [|i]; simpl.
  - apply take_app_length.
  - rewrite drop_app_add. apply IH. lia.
Qed.

Lemma length_concat_replicate (l : list T) n :
  length (concat (replicate n l)) = n * length l.
Proof. induction n as [|n IH]; simpl; [reflexivity|]. rewrite length_app. lia. Qed.
End GatherFacts.

(** ** Labelled arrays *)

Lemma map_fmap {X Y} (f : X -> Y) (l : list X) : map f l = f <$> l.
Proof. induction l as [|x l IH]; simpl; [reflexivity | now rewrite IH]. Qed.

Lemma in_range_map (env sz : string -> nat) (ds : list string) :
  Forall (fun d => env d < sz d) ds -> in_range (map env ds) (map sz ds).
Proof. induction 1; simpl; constructor; assumption. Qed.

Lemma index_of_elem d (l : list string) :
  d ∈ l -> exists i, index_of d l = Some i /\ l !! i = Some d.
Proof.
  induction l as [|y l IH]; intros Hin; [inversion Hin|].
  simpl. destruct (String.eqb_spec y d) as [->|Hne].
  - exists 0. split; reflexivity.
  - apply elem_of_cons in Hin as [->|Hin]; [congruence|].
    destruct (IH Hin) as (i & Hi & Hl). exists (S i). rewrite Hi. split; [reflexivity | exact Hl].
Qed.

Lemma omap_as_map {X Y} (f : X -> option Y) (g : X -> Y) (l : list X) :
  (forall x, x ∈ l -> f x = Some (g x)) -> omap f l = map g l.
Proof.
  induction l as [|x l IH]; intros H; simpl; [reflexivity|].
  rewrite (H x) by left. f_equal. apply IH.
  intros y Hy. apply H. now right.
Qed.

Lemma map_ext_elem {X Y} (f g : X -> Y) (l : list X) :
  (forall x, x ∈ l -> f x = g x) -> map f l = map g l.
Proof.
  induction l as [|x l IH]; intros H; simpl; [reflexivity|].
  rewrite (H x) by left. rewrite IH; [reflexivity|].
  intros y Hy. apply H. now right.
Qed.

Section ArrayFacts.
Context {T : Type}.
Implicit Types (a : NDArray T) (sz env : string -> nat).

Lemma sel_item_lt sz a env :
  wf_nd sz a -> Forall (fun d => env d < sz d) (nd_dims a) ->
  ravel_multi_index (nd_shape a) (map env (nd_dims a)) < length (nd_values a).
Proof.
  intros (_ & Hs & Hl) Henv. rewrite Hl, Hs.
  apply ravel_lt. now apply in_range_map.
Qed.

(** Broadcasting: the expanded array does not depend on the index along the
    new axis. *)
Lemma expand_dims_sel sz a dim n env :
  wf_nd sz a -> Forall (fun d => env d < sz d) (nd_dims a) -> env dim < n ->
  sel_item (expand_dims dim n a) env = sel_item a env.
Proof.
  intros Hwf Henv Hn. pose proof (sel_item_lt _ _ _ Hwf Henv) as Hlt.
  destruct Hwf as (_ & Hs & Hl).
  unfold sel_item, nd_item, expand_dims. simpl.
  fold (size_of (nd_shape a)). rewrite <- Hl.
  now apply lookup_concat_replicate.
Qed.

Lemma expand_dims_wf sz a dim :
  wf_nd sz a -> dim ∉ nd_dims a -> wf_nd sz (expand_dims dim (sz dim) a).
Proof.
  intros (Hnd & Hs & Hl) Hdim. unfold wf_nd, expand_dims; simpl.
  split; [now constructor|]. split; [now rewrite Hs|].
  rewrite length_concat_replicate, Hl. reflexivity.
Qed.

(** Every slice of the expanded array along the new axis is the original
    array. *)
Lemma expand_dims_slices a dim n :
  length (nd_values a) = size_of (nd_shape a) ->
  iter_first_axis (expand_dims dim n a) = Ok (replicate n (nd_values a)).
Proof.
  destruct a as [ds sh vs]. unfold iter_first_axis, expand_dims. simpl.
  intros Hl. fold (size_of sh). rewrite <- Hl. f_equal.
  apply list_eq. intros i.
  rewrite map_fmap, list_lookup_fmap.
  destruct (decide (i < n)) as [Hi|Hi].
  - rewrite lookup_seq_lt, lookup_replicate_2 by exact Hi. simpl. f_equal.
    apply chunk_concat_replicate. exact Hi.
  - rewrite lookup_seq_ge by lia. symmetry. apply lookup_replicate_None. lia.
Qed.

Lemma swap_dims_spec sz a a' old new :
  swap_dims old new a = Ok a' -> wf_nd sz a -> new ∉ nd_dims a ->
  sz new = sz old ->
  nd_dims a' = map (fun d => if String.eqb d old then new else d) (nd_dims a)
  /\ wf_nd sz a'
  /\ forall env, sel_item a' env
                 = sel_item a (fun d => if String.eqb d old then env new else env d).
Proof.
  unfold swap_dims. destruct (bool_decide _); [|discriminate].
  intros [= <-] (Hnd & Hs & Hl) Hnew Hsz. simpl.
  split; [reflexivity|]. split.
  - unfold wf_nd; simpl. split; [|split; [|exact Hl]].
    + rewrite map_fmap. apply NoDup_fmap_2_strong; [|exact Hnd].
      intros x y Hx Hy.
      destruct (String.eqb_spec x old), (String.eqb_spec y old); congruence.
    + rewrite Hs, map_map. apply map_ext_elem. intros d _.
      destruct (String.eqb_spec d old); congruence.
  - intros env. unfold sel_item, nd_item; simpl. rewrite map_map.
    do 2 f_equal. apply map_ext_elem. intros d _.
    destruct (String.eqb d old); reflexivity.
Qed.

Lemma transpose_spec sz a a' order :
  transpose order a = Ok a' -> wf_nd sz a ->
  nd_dims a' = order
  /\ wf_nd sz a'
  /\ forall env, Forall (fun d => env d < sz d) (nd_dims a) ->
                 sel_item a' env = sel_item a env.
Proof.
  unfold transpose.
  destruct (forallb _ order && forallb _ (nd_dims a) && _) eqn:Hc; [|discriminate].
  apply andb_prop in Hc as [Hc Hlen]. apply andb_prop in Hc as [H1 H2].
  apply Nat.eqb_eq in Hlen.
  assert (Hsub1 : forall d, d ∈ order -> d ∈ nd_dims a).
  { intros d Hd. rewrite forallb_forall in H1.
    apply list_elem_of_In in Hd. apply H1 in Hd. now apply bool_decide_eq_true in Hd. }
  assert (Hsub2 : forall d, d ∈ nd_dims a -> d ∈ order).
  { intros d Hd. rewrite forallb_forall in H2.
    apply list_elem_of_In in Hd. apply H2 in Hd. now apply bool_decide_eq_true in Hd. }
  clear H1 H2. intros [= <-] (Hnd & Hs & Hl). simpl.
  assert (Hperm : nd_dims a ≡ₚ order).
  { apply submseteq_length_Permutation; [|lia].
    apply NoDup_submseteq; assumption. }
  assert (Hndo : NoDup order) by (now rewrite <- Hperm).
  assert (Hshape : omap (fun d => i ← index_of d (nd_dims a); nd_shape a !! i) order
                   = map sz order).
  { apply omap_as_map. intros d Hd.
    destruct (index_of_elem d _ (Hsub1 d Hd)) as (i & -> & Hi). simpl.
    rewrite Hs, map_fmap, list_lookup_fmap, Hi. reflexivity. }
  rewrite Hshape.
  (* the source index of a target index within bounds *)
  assert (Hsrc : forall idx', in_range idx' (map sz order) ->
            in_range (map (fun d => default 0 (j ← index_of d order; idx' !! j))
                          (nd_dims a)) (nd_shape a)).
  { intros idx' Hr. rewrite Hs. clear Hshape Hl Hs.
    assert (Hall : Forall (fun d => d ∈ nd_dims a) (nd_dims a))
      by (apply Forall_forall; auto).
    revert Hall. generalize (nd_dims a) at 2 3 4 as ds.
    induction ds as [|d ds IH]; intros Hall; simpl; constructor.
    - inversion Hall; subst.
      destruct (index_of_elem d order (Hsub2 d ltac:(assumption))) as (j & -> & Hj).
      simpl. rewrite map_fmap in Hr.
      destruct (Forall2_lookup_r _ _ _ j (sz d) Hr) as (x & Hx & Hlt).
      { rewrite list_lookup_fmap, Hj. reflexivity. }
      rewrite Hx. exact Hlt.
    - inversion Hall; subst. now apply IH. }
  assert (Hfrom : forall k', k' < size_of (map sz order) ->
            ravel_multi_index (nd_shape a)
              (map (fun d => default 0
                               (j ← index_of d order;
                                unravel_index (map sz order) k' !! j))
                   (nd_dims a)) < length (nd_values a)).
  { intros k' Hk'. rewrite Hl. apply ravel_lt, Hsrc.
    now apply unravel_in_range. }
  split; [reflexivity|]. split.
  - unfold wf_nd; simpl. split; [exact Hndo|]. split; [reflexivity|].
    now apply gather_length.
  - intros env Henv. unfold sel_item, nd_item; simpl.
    assert (Hro : in_range (map env order) (map sz order)).
    { apply in_range_map. apply Forall_forall. intros d Hd.
      rewrite Forall_forall in Henv. apply Henv, Hsub1, Hd. }
    rewrite gather_lookup; [|exact Hfrom | now apply ravel_lt].
    rewrite unravel_ravel by exact Hro.
    do 2 f_equal. apply map_ext_elem. intros d Hd.
    destruct (index_of_elem d order (Hsub2 d Hd)) as (j & -> & Hj). simpl.
    rewrite map_fmap, list_lookup_fmap, Hj. reflexivity.
Qed.

(** Iterating over the first axis: the [t]-th item is the raveled slice at
    index [t]. *)
Lemma iter_first_axis_spec sz a d0 rest :
  wf_nd sz a -> nd_dims a = d0 :: rest ->
  exists slices,
    iter_first_axis a = Ok slices
    /\ length slices = sz d0
    /\ forall t chunk, slices !! t = Some chunk ->
         length chunk = size_of (map sz rest)
         /\ forall k, k < size_of (map sz rest) ->
              chunk !! k
              = nd_item a (t :: unravel_index (map sz rest) k).
Proof.
  intros (Hnd & Hs & Hl) Hd. rewrite Hd in Hs. simpl in Hs.
  unfold iter_first_axis. rewrite Hs. eexists. split; [reflexivity|].
  split; [now rewrite length_map, length_seq|].
  intros t chunk Ht. rewrite map_fmap, list_lookup_fmap in Ht.
  destruct (seq 0 (sz d0) !! t) as [t'|] eqn:Et; [|discriminate].
  apply lookup_seq in Et as [-> Htlt]. simpl in Ht. injection Ht as <-.
  rewrite Hs, size_of_cons in Hl.
  set (m := size_of (map sz rest)) in *.
  split.
  - rewrite length_take, length_drop. nia.
  - intros k Hk. rewrite lookup_take_lt by exact Hk.
    rewrite lookup_drop. unfold nd_item. rewrite Hs. simpl.
    fold (size_of (map sz rest)). fold m.
    rewrite ravel_unravel by exact Hk. reflexivity.
Qed.
End ArrayFacts.

(** ** The grid of points *)

Section PointFacts.
Context {A : Type} `{!DType A}.
Implicit Types (d : Dataset A).

Lemma assoc_elem {V} name (l : list (string * V)) :
  name ∈ map fst l <-> is_Some (assoc name l).
Proof.
  induction l as [|[k v] l IH]; simpl.
  - split; [intros H; inversion H | intros [? H]; discriminate].
  - destruct (String.eqb_spec k name) as [->|Hne].
    + split; [eauto | intros _; left].
    + rewrite <- IH, elem_of_cons. split; [intros [->|]|]; tauto.
Qed.

Lemma coords_getitem_axis d name :
  wf_dataset d -> name ∈ ["x"; "y"; "height"] ->
  exists c, coords_getitem d name = Ok c
            /\ length (nd_values c) = axis_len d name.
Proof.
  intros Hwf Hname. unfold coords_getitem, axis_len.
  rewrite (wf_coord_names _ Hwf name Hname).
  rewrite bool_decide_eq_false_2 by (intros [? ?]; discriminate).
  assert (Hnt : String.eqb name "datetime" || String.eqb name "t_index" = false).
  { repeat (apply elem_of_cons in Hname as [->|Hname]; [reflexivity|]).
    inversion Hname. }
  rewrite Hnt.
  assert (Hlen : dim_len d name = default 0 (assoc name (ds_dims d))).
  { unfold dim_len. apply orb_false_elim in Hnt as [_ ->]. reflexivity. }
  destruct (ds_coords d !! name) as [c|] eqn:Ec.
  - exists c. split; [reflexivity|]. case_bool_decide as Hin.
    + now apply (wf_dim_coords _ Hwf).
    + destruct (wf_const_coords _ Hwf name Hname Hin) as (c' & Hc' & Hl).
      congruence.
  - case_bool_decide as Hin.
    + unfold dims in Hin. apply assoc_elem in Hin as [n Hn]. rewrite Hn.
      eexists. split; [reflexivity|]. simpl.
      rewrite length_map, length_seq, Hlen, Hn. reflexivity.
    + destruct (wf_const_coords _ Hwf name Hname Hin) as (c' & Hc' & _).
      congruence.
Qed.

Lemma meshgrid_ravel_spec {T} shape axis (vals : list T) :
  shape !! axis = Some (length vals) ->
  length (meshgrid_ravel shape axis vals) = size_of shape
  /\ forall k, k < size_of shape ->
       meshgrid_ravel shape axis vals !! k
       = vals !! default 0 (unravel_index shape k !! axis).
Proof.
  intros Hax.
  assert (Hfrom : forall k', k' < size_of shape ->
            default 0 (unravel_index shape k' !! axis) < length vals).
  { intros k' Hk'. pose proof (unravel_in_range _ _ Hk') as Hr.
    destruct (Forall2_lookup_r _ _ _ _ _ Hr Hax) as (i & -> & Hi). exact Hi. }
  unfold meshgrid_ravel. split.
  - now apply gather_length.
  - intros k Hk. now apply gather_lookup.
Qed.

Lemma stack3_spec {T} (u v w : list T) n :
  length u = n -> length v = n -> length w = n ->
  exists rows, stack3 u v w = Ok rows /\ length rows = n
    /\ (forall r, r ∈ rows -> length r = 3)
    /\ forall k, rows !! k
                 = (a ← u !! k; b ← v !! k; c ← w !! k; Some [a; b; c]).
Proof.
  intros Hu Hv Hw. unfold stack3.
  rewrite Hu, Hv, Hw, Nat.eqb_refl. simpl.
  eexists. split; [reflexivity|]. split; [|split].
  - rewrite !length_zip_with; lia.
  - intros r Hr. apply elem_of_zip_with in Hr as (a & r' & -> & _ & Hr).
    apply elem_of_zip_with in Hr as (b & c & -> & _). reflexivity.
  - intros k. rewrite lookup_zip_with.
    destruct (u !! k); simpl; [|reflexivity].
    rewrite lookup_zip_with. destruct (v !! k); simpl; [|reflexivity].
    destruct (w !! k); reflexivity.
Qed.

(** The points file lists the grid of the three spatial coordinates in C
    order: x outermost, height innermost. *)
Lemma points_spec d :
  wf_dataset d ->
  exists pts,
    BoundaryCoupling.points d = Ok pts
    /\ length pts = size_of (grid_shape d)
    /\ (forall r, r ∈ pts -> length r = 3)
    /\ forall t k, k < size_of (grid_shape d) ->
         exists xv yv zv,
           pts !! k = Some [xv; yv; zv]
           /\ coord_value d "x" (point_env d t k "x") = Some xv
           /\ coord_value d "y" (point_env d t k "y") = Some yv
           /\ coord_value d "height" (point_env d t k "height") = Some zv.
Proof.
  intros Hwf.
  destruct (coords_getitem_axis d "x" Hwf ltac:(repeat constructor)) as (cx & Hcx & Hlx).
  destruct (coords_getitem_axis d "y" Hwf ltac:(repeat constructor)) as (cy & Hcy & Hly).
  destruct (coords_getitem_axis d "height" Hwf ltac:(repeat constructor)) as (cz & Hcz & Hlz).
  unfold BoundaryCoupling.points. rewrite Hcx, Hcy, Hcz. simpl.
  rewrite Hlx, Hly, Hlz. fold (grid_shape d).
  destruct (meshgrid_ravel_spec (grid_shape d) 0 (nd_values cx)) as (Lx & Gx);
    [simpl; now rewrite Hlx|].
  destruct (meshgrid_ravel_spec (grid_shape d) 1 (nd_values cy)) as (Ly & Gy);
    [simpl; now rewrite Hly|].
  destruct (meshgrid_ravel_spec (grid_shape d) 2 (nd_values cz)) as (Lz & Gz);
    [simpl; now rewrite Hlz|].
  destruct (stack3_spec _ _ _ _ Lx Ly Lz) as (rows & Hrows & Hlen & Hr3 & Hk).
  exists rows. split; [exact Hrows|]. split; [exact Hlen|]. split; [exact Hr3|].
  intros t k Hlt. rewrite Hk, (Gx k Hlt), (Gy k Hlt), (Gz k Hlt).
  pose proof (unravel_in_range (grid_shape d) k Hlt) as Hr.
  unfold coord_value. rewrite Hcx, Hcy, Hcz.
  change (point_env d t k "x")
    with (default 0 (unravel_index (grid_shape d) k !! 0)).
  change (point_env d t k "y")
    with (default 0 (unravel_index (grid_shape d) k !! 1)).
  change (point_env d t k "height")
    with (default 0 (unravel_index (grid_shape d) k !! 2)).
  remember (unravel_index (grid_shape d) k) as idx eqn:Eidx. clear Eidx.
  unfold grid_shape in Hr.
  inversion Hr as [|i nx idx1 s1 Hi Hr1]; subst.
  inversion Hr1 as [|j ny idx2 s2 Hj Hr2]; subst.
  inversion Hr2 as [|l nz idx3 s3 Hl Hr3']; subst.
  cbn [lookup list_lookup default].
  rewrite <- Hlx in Hi. rewrite <- Hly in Hj. rewrite <- Hlz in Hl.
  apply lookup_lt_is_Some in Hi as [xv Hxv].
  apply lookup_lt_is_Some in Hj as [yv Hyv].
  apply lookup_lt_is_Some in Hl as [zv Hzv].
  exists xv, yv, zv. unfold id. rewrite Hxv, Hyv, Hzv. simpl. auto.
Qed.
End PointFacts.

(** ** Broadcasting the fields of a boundary *)

Section BroadcastFacts.
Context {A : Type} `{!DType A}.
Import BoundaryCoupling.
Implicit Types (d : Dataset A) (vars : gmap string (NDArray A)).

Lemma sel_item_ext {T} (a : NDArray T) (env env' : string -> nat) :
  (forall dm, dm ∈ nd_dims a -> env dm = env' dm) ->
  sel_item a env = sel_item a env'.
Proof.
  intros H. unfold sel_item. f_equal. now apply map_ext_elem.
Qed.

Lemma plane_dim_len d dim :
  wf_dataset d -> plane_dim d dim ->
  exists c, coords_getitem d dim = Ok c
            /\ length (nd_values c) = dim_len d dim.
Proof.
  intros Hwf [Hxyz Hin].
  destruct (coords_getitem_axis d dim Hwf Hxyz) as (c & Hc & Hl).
  exists c. split; [exact Hc|]. rewrite Hl. unfold axis_len.
  now rewrite bool_decide_eq_true_2.
Qed.

Lemma grows_refl vars : grows vars vars.
Proof. intros v a Hv. eauto. Qed.

Lemma grows_trans vars1 vars2 vars3 :
  grows vars1 vars2 -> grows vars2 vars3 -> grows vars1 vars3.
Proof.
  intros H12 H23 v a Hv. destruct (H12 v a Hv) as (a2 & Hv2 & Hd2).
  destruct (H23 v a2 Hv2) as (a3 & Hv3 & Hd3). eauto.
Qed.

Lemma broadcast_vars_init d :
  wf_dataset d -> broadcast_vars d (ds_data_vars d).
Proof.
  intros Hwf v. destruct (ds_data_vars d !! v) as [a|] eqn:Ev; [|exact I].
  destruct (wf_data_vars _ Hwf v a Ev) as [Hwfa _].
  split; [exact Hwfa|]. split; [auto|]. split; [auto|]. reflexivity.
Qed.

Lemma add_missing_dim_step d dim var vars :
  wf_dataset d -> plane_dim d dim -> broadcast_vars d vars ->
  is_Some (ds_data_vars d !! var) ->
  exists vars',
    add_missing_dim d dim var vars = Ok vars'
    /\ broadcast_vars d vars' /\ grows vars vars'
    /\ exists a', vars' !! var = Some a' /\ dim ∈ nd_dims a'.
Proof.
  intros Hwf Hdim Hvars [a0 Ha0].
  pose proof (Hvars var) as Hv. rewrite Ha0 in Hv.
  destruct (vars !! var) as [a|] eqn:Ea; [|contradiction].
  unfold add_missing_dim, ds_getitem. rewrite Ea. simpl.
  case_bool_decide as Hin.
  - exists vars. split; [reflexivity|]. split; [exact Hvars|].
    split; [apply grows_refl|]. eauto.
  - destruct (plane_dim_len d dim Hwf Hdim) as (c & Hc & Hl).
    rewrite Hc. simpl. rewrite Hl.
    destruct Hv as (Hwfa & Hsub & Hsup & Hsel).
    eexists. split; [reflexivity|]. split; [|split].
    + intros v. destruct (decide (v = var)) as [->|Hne].
      * rewrite Ha0, lookup_insert_eq. split; [|split; [|split]].
        -- now apply expand_dims_wf.
        -- intros dm Hdm. simpl. right. now apply Hsub.
        -- intros dm Hdm. simpl in Hdm.
           apply elem_of_cons in Hdm as [->|Hdm]; [now right | now apply Hsup].
        -- intros env Henv. simpl in Henv. inversion Henv; subst.
           rewrite (expand_dims_sel (dim_len d)); auto.
      * rewrite lookup_insert_ne by congruence. apply Hvars.
    + intros v a1 Hv1. destruct (decide (v = var)) as [->|Hne].
      * rewrite lookup_insert_eq. eexists. split; [reflexivity|].
        intros dm Hdm. simpl. right. congruence.
      * rewrite lookup_insert_ne by congruence. eauto.
    + rewrite lookup_insert_eq. eexists. split; [reflexivity|]. simpl. left.
Qed.

(** The loop over the components for one dimension. *)
Lemma add_missing_dim_components d dim comps : forall vars,
  wf_dataset d -> plane_dim d dim -> broadcast_vars d vars ->
  Forall (fun var => is_Some (ds_data_vars d !! var)) comps ->
  exists vars',
    fold_result (fun vars var => add_missing_dim d dim var vars) vars comps
    = Ok vars'
    /\ broadcast_vars d vars' /\ grows vars vars'
    /\ Forall (fun var => exists a', vars' !! var = Some a' /\ dim ∈ nd_dims a')
              comps.
Proof.
  induction comps as [|var comps IH]; intros vars Hwf Hdim Hvars Hc.
  - exists vars. simpl. split; [reflexivity|]. split; [exact Hvars|].
    split; [apply grows_refl | constructor].
  - inversion Hc as [|? ? Hvar Hc']; subst.
    destruct (add_missing_dim_step d dim var vars Hwf Hdim Hvars Hvar)
      as (vars1 & E1 & Hv1 & Hg1 & a1 & Ha1 & Hd1).
    destruct (IH vars1 Hwf Hdim Hv1 Hc') as (vars2 & E2 & Hv2 & Hg2 & Hall).
    exists vars2. simpl. rewrite E1. simpl. split; [exact E2|].
    split; [exact Hv2|]. split; [eapply grows_trans; eassumption|].
    constructor; [|exact Hall].
    destruct (Hg2 var a1 Ha1) as (a2 & Ha2 & Hd2). eauto.
Qed.

(** The two nested loops of [_write_boundary_vector]: afterwards every
    component has every in-plane dimension. *)
Lemma add_missing_dims_vector d bd comps : forall vars,
  wf_dataset d -> Forall (plane_dim d) bd -> broadcast_vars d vars ->
  Forall (fun var => is_Some (ds_data_vars d !! var)) comps ->
  exists vars',
    fold_result (fun vars dim =>
        fold_result (fun vars var => add_missing_dim d dim var vars) vars comps)
      vars bd = Ok vars'
    /\ broadcast_vars d vars' /\ grows vars vars'
    /\ Forall (fun var => exists a', vars' !! var = Some a'
                                     /\ forall dim, dim ∈ bd -> dim ∈ nd_dims a')
              comps.
Proof.
  induction bd as [|dim bd IH]; intros vars Hwf Hbd Hvars Hc.
  - exists vars. simpl. split; [reflexivity|]. split; [exact Hvars|].
    split; [apply grows_refl|].
    apply Forall_forall. intros var Hvar. rewrite Forall_forall in Hc.
    destruct (Hc var Hvar) as [a0 Ha0]. pose proof (Hvars var) as Hv.
    rewrite Ha0 in Hv. destruct (vars !! var) as [a|]; [|contradiction].
    exists a. split; [reflexivity|]. intros dm Hdm. inversion Hdm.
  - inversion Hbd as [|? ? Hdim Hbd']; subst.
    destruct (add_missing_dim_components d dim comps vars Hwf Hdim Hvars Hc)
      as (vars1 & E1 & Hv1 & Hg1 & Hall1).
    destruct (IH vars1 Hwf Hbd' Hv1 Hc) as (vars2 & E2 & Hv2 & Hg2 & Hall2).
    exists vars2. simpl. rewrite E1. simpl. split; [exact E2|].
    split; [exact Hv2|]. split; [eapply grows_trans; eassumption|].
    apply Forall_forall. intros var Hvar.
    rewrite Forall_forall in Hall1, Hall2.
    destruct (Hall1 var Hvar) as (a1 & Ha1 & Hd1).
    destruct (Hall2 var Hvar) as (a2 & Ha2 & Hd2).
    exists a2. split; [exact Ha2|]. intros dm Hdm.
    apply elem_of_cons in Hdm as [->|Hdm]; [|now apply Hd2].
    destruct (Hg2 var a1 Ha1) as (a2' & Ha2' & Hd2').
    assert (a2' = a2) by congruence. subst. now apply Hd2'.
Qed.

(** The single loop of [_write_boundary_scalar]. *)
Lemma add_missing_dims_scalar d bd var : forall vars,
  wf_dataset d -> Forall (plane_dim d) bd -> broadcast_vars d vars ->
  is_Some (ds_data_vars d !! var) ->
  exists vars',
    fold_result (fun vars dim => add_missing_dim d dim var vars) vars bd
    = Ok vars'
    /\ broadcast_vars d vars' /\ grows vars vars'
    /\ exists a', vars' !! var = Some a'
                  /\ forall dim, dim ∈ bd -> dim ∈ nd_dims a'.
Proof.
  induction bd as [|dim bd IH]; intros vars Hwf Hbd Hvars Hvar.
  - exists vars. simpl. split; [reflexivity|]. split; [exact Hvars|].
    split; [apply grows_refl|].
    destruct Hvar as [a0 Ha0]. pose proof (Hvars var) as Hv.
    rewrite Ha0 in Hv. destruct (vars !! var) as [a|]; [|contradiction].
    exists a. split; [reflexivity|]. intros dm Hdm. inversion Hdm.
  - inversion Hbd as [|? ? Hdim Hbd']; subst.
    destruct (add_missing_dim_step d dim var vars Hwf Hdim Hvars Hvar)
      as (vars1 & E1 & Hv1 & Hg1 & a1 & Ha1 & Hd1).
    destruct (IH vars1 Hwf Hbd' Hv1 Hvar) as (vars2 & E2 & Hv2 & Hg2 & a2 & Ha2 & Hd2).
    exists vars2. simpl. rewrite E1. simpl. split; [exact E2|].
    split; [exact Hv2|]. split; [eapply grows_trans; eassumption|].
    exists a2. split; [exact Ha2|]. intros dm Hdm.
    apply elem_of_cons in Hdm as [->|Hdm]; [|now apply Hd2].
    destruct (Hg2 var a1 Ha1) as (a2' & Ha2' & Hd2').
    assert (a2' = a2) by congruence. subst. now apply Hd2'.
Qed.
End BroadcastFacts.

(** ** From a broadcast field to its per-timestep payloads *)

Section StepFacts.
Context {A : Type} `{!DType A}.
Import BoundaryCoupling.
Implicit Types (d : Dataset A) (vars : gmap string (NDArray A)).

Lemma plane_dim_not_time d dim :
  plane_dim d dim -> dim <> "datetime" /\ dim <> "t_index".
Proof.
  intros [H _].
  repeat (apply elem_of_cons in H as [->|H]; [split; discriminate|]).
  inversion H.
Qed.

Lemma t_index_len d : dim_len d "t_index" = dim_len d "datetime".
Proof. reflexivity. Qed.

Lemma steps_of_var d vars var a' (d0 d1 : string) :
  wf_dataset d -> plane_dim d d0 -> plane_dim d d1 -> d0 <> d1 ->
  vars !! var = Some a' -> wf_nd (dim_len d) a' ->
  (forall dm, dm ∈ nd_dims a' <-> dm ∈ ["datetime"; d0; d1]) ->
  exists u steps times tidx,
    reordered d vars [d0; d1] var = Ok u
    /\ timesteps d u = Ok steps
    /\ ds_datetime d = Some times /\ ds_t_index d = Some tidx
    /\ length steps = dim_len d "datetime"
    /\ forall t, t < dim_len d "datetime" ->
         exists ti tstamp payload,
           steps !! t = Some (ti, tstamp, payload)
           /\ tidx !! t = Some ti /\ nd_values times !! t = Some tstamp
           /\ length payload = dim_len d d0 * dim_len d d1
           /\ forall k, k < dim_len d d0 * dim_len d d1 ->
                payload !! k = sel_item a' (plane_env d [d0; d1] t k).
Proof.
  intros Hwf Hd0 Hd1 Hne Hvar Hwfa Hdims.
  destruct (plane_dim_not_time _ _ Hd0) as [Hd0t Hd0i].
  destruct (plane_dim_not_time _ _ Hd1) as [Hd1t Hd1i].
  destruct (wf_times _ Hwf) as (times & tidx & Htimes & Htidx & Hlt & Hli).
  (* swap_dims *)
  assert (Hdt : "datetime" ∈ nd_dims a') by (apply Hdims; left).
  assert (Hti : "t_index" ∉ nd_dims a').
  { intros H. apply Hdims in H.
    repeat (apply elem_of_cons in H as [H|H]; [congruence|]). inversion H. }
  destruct (swap_dims "datetime" "t_index" a') as [a3|] eqn:Eswap.
  2:{ unfold swap_dims in Eswap. rewrite bool_decide_eq_true_2 in Eswap by exact Hdt.
      discriminate. }
  destruct (swap_dims_spec (dim_len d) _ _ _ _ Eswap Hwfa Hti (t_index_len d))
    as (Hd3 & Hwf3 & Hsel3).
  (* transpose *)
  assert (Hin3 : forall dm, dm ∈ nd_dims a3 <-> dm ∈ ["t_index"; d0; d1]).
  { intros dm. rewrite Hd3, map_fmap, list_elem_of_fmap. split.
    - intros (dm' & -> & Hdm'). apply Hdims in Hdm'.
      repeat (apply elem_of_cons in Hdm' as [->|Hdm']); try (inversion Hdm'; fail).
      + simpl. left.
      + destruct (String.eqb_spec d0 "datetime"); [congruence|]. right; left.
      + destruct (String.eqb_spec d1 "datetime"); [congruence|]. do 2 right; left.
    - intros Hdm.
      repeat (apply elem_of_cons in Hdm as [->|Hdm]); try (inversion Hdm; fail).
      + exists "datetime". split; [reflexivity | exact Hdt].
      + exists d0. destruct (String.eqb_spec d0 "datetime"); [congruence|].
        split; [reflexivity|]. apply Hdims. right; left.
      + exists d1. destruct (String.eqb_spec d1 "datetime"); [congruence|].
        split; [reflexivity|]. apply Hdims. do 2 right; left. }
  assert (Hnd_order : NoDup ["t_index"; d0; d1]).
  { repeat (apply NoDup_cons; split); try apply NoDup_nil_2;
      rewrite ?elem_of_cons, ?elem_of_nil; intuition congruence. }
  assert (Hlen3 : length (nd_dims a3) = 3).
  { destruct Hwf3 as (Hnd3 & _).
    assert (Hp : nd_dims a3 ≡ₚ ["t_index"; d0; d1])
      by (apply NoDup_Permutation; assumption).
    now rewrite Hp. }
  destruct (transpose ["t_index"; d0; d1] a3) as [u|] eqn:Etr.
  2:{ unfold transpose in Etr.
      assert (Hc : forallb (fun dm => bool_decide (dm ∈ nd_dims a3)) ["t_index"; d0; d1]
                   && forallb (fun dm => bool_decide (dm ∈ ["t_index"; d0; d1])) (nd_dims a3)
                   && (length ["t_index"; d0; d1] =? length (nd_dims a3)) = true).
      { rewrite Hlen3. rewrite !andb_true_iff. split; [split|reflexivity].
        - apply forallb_forall. intros dm Hdm. apply bool_decide_eq_true.
          apply Hin3. now apply list_elem_of_In.
        - apply forallb_forall. intros dm Hdm. apply bool_decide_eq_true.
          apply Hin3. now apply list_elem_of_In. }
      rewrite Hc in Etr. discriminate. }
  destruct (transpose_spec (dim_len d) _ _ _ Etr Hwf3) as (Hdu & Hwfu & Hselu).
  (* iteration *)
  destruct (iter_first_axis_spec (dim_len d) u "t_index" [d0; d1] Hwfu Hdu)
    as (slices & Hit & Hls & Hslice).
  rewrite t_index_len in Hls.
  exists u, (zip (zip tidx (nd_values times)) slices), times, tidx.
  split. { unfold reordered, ds_getitem. rewrite Hvar. simpl. rewrite Eswap. simpl. exact Etr. }
  split. { unfold timesteps. rewrite Hit. simpl. rewrite Htidx, Htimes. reflexivity. }
  split; [exact Htimes|]. split; [exact Htidx|].
  split. { rewrite !length_zip. lia. }
  intros t Ht.
  destruct (lookup_lt_is_Some_2 tidx t ltac:(lia)) as [ti Hti'].
  destruct (lookup_lt_is_Some_2 (nd_values times) t ltac:(lia)) as [ts Hts].
  destruct (lookup_lt_is_Some_2 slices t ltac:(lia)) as [payload Hp].
  exists ti, ts, payload.
  split.
  { rewrite lookup_zip_with, lookup_zip_with, Hti'. simpl.
    rewrite Hts. simpl. rewrite Hp. reflexivity. }
  split; [exact Hti'|]. split; [exact Hts|].
  destruct (Hslice t payload Hp) as (Hlp & Hk).
  assert (Hsz : size_of (map (dim_len d) [d0; d1]) = dim_len d d0 * dim_len d d1).
  { simpl. lia. }
  rewrite Hsz in Hlp, Hk. split; [exact Hlp|].
  intros k Hklt. rewrite (Hk k Hklt).
  (* the index of the item is the environment [plane_env], on [u] *)
  assert (Hkr : in_range (unravel_index (map (dim_len d) [d0; d1]) k)
                         (map (dim_len d) [d0; d1])).
  { apply unravel_in_range. now rewrite Hsz. }
  assert (Hu : nd_item u (t :: unravel_index (map (dim_len d) [d0; d1]) k)
               = sel_item u (plane_env d [d0; d1] t k)).
  { unfold sel_item. rewrite Hdu. f_equal. unfold plane_env.
    remember (unravel_index (map (dim_len d) [d0; d1]) k) as idx eqn:Eidx.
    clear Eidx Hk. cbn [map index_of].
    inversion Hkr as [|i0 n0 idx1 s1 Hi0 Hr1]; subst idx.
    inversion Hr1 as [|i1 n1 idx2 s2 Hi1 Hr2]. inversion Hr2. subst.
    destruct (String.eqb_spec d0 "datetime"); [congruence|].
    destruct (String.eqb_spec d0 "t_index"); [congruence|].
    destruct (String.eqb_spec d1 "datetime"); [congruence|].
    destruct (String.eqb_spec d1 "t_index"); [congruence|].
    rewrite !String.eqb_refl.
    destruct (String.eqb_spec d0 d1); [congruence|].
    reflexivity. }
  rewrite Hu.
  (* bounds of the environment *)
  assert (Hb : forall dm, dm ∈ ["t_index"; "datetime"; d0; d1] ->
                 plane_env d [d0; d1] t k dm < dim_len d dm).
  { intros dm Hdm. unfold plane_env. cbn [index_of].
    remember (unravel_index (map (dim_len d) [d0; d1]) k) as idx eqn:Eidx.
    clear Eidx Hk Hu.
    inversion Hkr as [|i0 n0 idx1 s1 Hi0 Hr1]; subst idx.
    inversion Hr1 as [|i1 n1 idx2 s2 Hi1 Hr2]. inversion Hr2. subst.
    repeat (apply elem_of_cons in Hdm as [->|Hdm]); try (inversion Hdm; fail).
    - simpl. rewrite t_index_len. exact Ht.
    - simpl. exact Ht.
    - destruct (String.eqb_spec d0 "datetime"); [congruence|].
      destruct (String.eqb_spec d0 "t_index"); [congruence|].
      rewrite String.eqb_refl. simpl. exact Hi0.
    - destruct (String.eqb_spec d1 "datetime"); [congruence|].
      destruct (String.eqb_spec d1 "t_index"); [congruence|].
      destruct (String.eqb_spec d0 d1); [congruence|].
      rewrite String.eqb_refl. simpl. exact Hi1. }
  rewrite Hselu.
  2:{ apply Forall_forall. intros dm Hdm. apply Hb.
      apply Hin3 in Hdm.
      apply elem_of_cons in Hdm as [->|Hdm]; [left | do 2 right; exact Hdm]. }
  rewrite Hsel3. apply sel_item_ext. intros dm Hdm.
  destruct (String.eqb_spec dm "datetime") as [->|]; reflexivity.
Qed.
End StepFacts.

(** ** The payloads of scalar and vector fields *)

Section FieldFacts.
Context {A : Type} `{!DType A}.
Import BoundaryCoupling.
Implicit Types (d : Dataset A) (vars : gmap string (NDArray A)).

(** A plane has two in-plane dimensions and one normal. *)
Lemma plane_dims_cases d :
  wf_dataset d -> length (plane_dims d) = 2 ->
  exists (p0 p1 m : string),
    plane_dims d = [p0; p1] /\ plane_dim d p0 /\ plane_dim d p1 /\ p0 <> p1
    /\ (m ∉ dims d)
    /\ ((p0 = "x" /\ p1 = "y" /\ m = "height")
        \/ (p0 = "x" /\ p1 = "height" /\ m = "y")
        \/ (p0 = "y" /\ p1 = "height" /\ m = "x")).
Proof.
  intros Hwf. unfold plane_dims, plane_dim. simpl.
  destruct (decide ("x" ∈ dims d)) as [Hx|Hx];
    destruct (decide ("y" ∈ dims d)) as [Hy|Hy];
    destruct (decide ("height" ∈ dims d)) as [Hz|Hz];
    rewrite ?(bool_decide_eq_true_2 _ Hx), ?(bool_decide_eq_false_2 _ Hx),
            ?(bool_decide_eq_true_2 _ Hy), ?(bool_decide_eq_false_2 _ Hy),
            ?(bool_decide_eq_true_2 _ Hz), ?(bool_decide_eq_false_2 _ Hz);
    simpl; intros Hlen; try discriminate.
  - exists "x", "y", "height". repeat split; auto; try discriminate;
      rewrite !elem_of_cons; auto.
  - exists "x", "height", "y". repeat split; auto 6; try discriminate;
      rewrite !elem_of_cons; auto.
  - exists "y", "height", "x". repeat split; auto 6; try discriminate;
      rewrite !elem_of_cons; auto.
Qed.

(** A dimension of the dataset is datetime or an in-plane dimension. *)
Lemma dims_of_plane d (p0 p1 : string) dm :
  wf_dataset d -> plane_dims d = [p0; p1] -> dm ∈ dims d ->
  dm ∈ ["datetime"; p0; p1].
Proof.
  intros Hwf Hbd Hdm. pose proof (wf_dims_expected _ Hwf dm Hdm) as He.
  apply elem_of_cons in He as [->|He]; [left|]. right.
  assert (Hin : dm ∈ plane_dims d).
  { unfold plane_dims. apply list_elem_of_In, filter_In. split.
    - apply list_elem_of_In. rewrite !elem_of_cons in He |- *. tauto.
    - now apply bool_decide_eq_true. }
  now rewrite Hbd in Hin.
Qed.

(** The payloads of a broadcast field follow the original field. *)
Lemma field_steps d vars var a a' (p0 p1 : string) :
  wf_dataset d -> plane_dims d = [p0; p1] ->
  plane_dim d p0 -> plane_dim d p1 -> p0 <> p1 ->
  ds_data_vars d !! var = Some a -> "datetime" ∈ nd_dims a ->
  vars !! var = Some a' -> broadcast_of d a a' ->
  (forall dim, dim ∈ [p0; p1] -> dim ∈ nd_dims a') ->
  exists u steps,
    reordered d vars [p0; p1] var = Ok u /\ timesteps d u = Ok steps
    /\ steps_follow d [p0; p1] a steps.
Proof.
  intros Hwf Hbd Hp0 Hp1 Hne Ha Hdt Hv (Hwfa' & Hsub & Hsup & Hsel) Hall.
  destruct (wf_data_vars _ Hwf var a Ha) as [Hwfa Hdims_a].
  assert (Hdims : forall dm, dm ∈ nd_dims a' <-> dm ∈ ["datetime"; p0; p1]).
  { intros dm. split.
    - intros Hdm. destruct (Hsup dm Hdm) as [Hin|[_ Hin]].
      + rewrite Forall_forall in Hdims_a.
        eapply dims_of_plane; eauto.
      + eapply dims_of_plane; eauto.
    - intros Hdm. apply elem_of_cons in Hdm as [->|Hdm]; [now apply Hsub|].
      now apply Hall. }
  destruct (steps_of_var d vars var a' p0 p1 Hwf Hp0 Hp1 Hne Hv Hwfa' Hdims)
    as (u & steps & times & tidx & Hre & Hts & Htimes & Htidx & Hlen & Hsteps).
  exists u, steps. split; [exact Hre|]. split; [exact Hts|].
  split; [exact Hlen|]. intros t Ht.
  destruct (Hsteps t Ht) as (ti & ts & payload & Hst & Hti & Htst & Hlp & Hk).
  exists ti, ts, payload. split; [exact Hst|].
  split; [exists tidx, times; auto|].
  assert (Hsz : size_of (map (dim_len d) [p0; p1]) = dim_len d p0 * dim_len d p1)
    by (simpl; lia).
  rewrite Hsz. split; [exact Hlp|]. intros k Hklt.
  destruct (lookup_lt_is_Some_2 payload k ltac:(lia)) as [v Hv'].
  exists v. split; [exact Hv'|]. rewrite <- Hv', (Hk k Hklt).
  symmetry. apply Hsel.
  (* the environment is within bounds on the axes of a' *)
  apply Forall_forall. intros dm Hdm. apply Hdims in Hdm.
  assert (Hkr : in_range (unravel_index (map (dim_len d) [p0; p1]) k)
                         (map (dim_len d) [p0; p1])).
  { apply unravel_in_range. now rewrite Hsz. }
  destruct (plane_dim_not_time _ _ Hp0) as [Hp0t Hp0i].
  destruct (plane_dim_not_time _ _ Hp1) as [Hp1t Hp1i].
  unfold plane_env. cbn [index_of].
  remember (unravel_index (map (dim_len d) [p0; p1]) k) as idx eqn:Eidx.
  clear Eidx Hk.
  inversion Hkr as [|i0 n0 idx1 s1 Hi0 Hr1]; subst idx.
  inversion Hr1 as [|i1 n1 idx2 s2 Hi1 Hr2]. inversion Hr2. subst.
  repeat (apply elem_of_cons in Hdm as [->|Hdm]); try (inversion Hdm; fail).
  - simpl. exact Ht.
  - destruct (String.eqb_spec p0 "datetime"); [congruence|].
    destruct (String.eqb_spec p0 "t_index"); [congruence|].
    rewrite String.eqb_refl. simpl. exact Hi0.
  - destruct (String.eqb_spec p1 "datetime"); [congruence|].
    destruct (String.eqb_spec p1 "t_index"); [congruence|].
    destruct (String.eqb_spec p0 p1); [congruence|].
    rewrite String.eqb_refl. simpl. exact Hi1.
Qed.

(** What [_write_boundary_scalar] computes for a data variable over
    datetime. *)
Lemma scalar_steps_follow d var a :
  wf_dataset d -> length (plane_dims d) = 2 ->
  ds_data_vars d !! var = Some a -> "datetime" ∈ nd_dims a ->
  exists steps, scalar_steps d (plane_dims d) var = Ok steps
                /\ steps_follow d (plane_dims d) a steps.
Proof.
  intros Hwf Hlen Ha Hdt.
  destruct (plane_dims_cases d Hwf Hlen)
    as (p0 & p1 & m & Hbd & Hp0 & Hp1 & Hne & _ & _).
  rewrite Hbd.
  destruct (add_missing_dims_scalar d [p0; p1] var (ds_data_vars d) Hwf)
    as (vars & Hfold & Hvars & _ & a' & Ha' & Hall).
  { constructor; [assumption | constructor; [assumption | constructor]]. }
  { now apply broadcast_vars_init. }
  { eauto. }
  pose proof (Hvars var) as Hb. rewrite Ha, Ha' in Hb.
  destruct (field_steps d vars var a a' p0 p1) as (u & steps & Hre & Hts & Hf);
    try assumption.
  exists steps. unfold scalar_steps. rewrite Hfold. simpl.
  rewrite Hre. simpl. split; assumption.
Qed.

(** What [_write_boundary_vector] computes for data variables over
    datetime: the timesteps of every component, in the order of the
    components. *)
Lemma vector_steps_follow d comps :
  wf_dataset d -> length (plane_dims d) = 2 ->
  Forall (fun var => exists a, ds_data_vars d !! var = Some a
                               /\ "datetime" ∈ nd_dims a) comps ->
  exists uvec,
    vector_steps d (plane_dims d) comps = Ok uvec
    /\ Forall2 (fun var steps =>
                  exists a, ds_data_vars d !! var = Some a
                            /\ steps_follow d (plane_dims d) a steps)
               comps uvec.
Proof.
  intros Hwf Hlen Hcomps.
  destruct (plane_dims_cases d Hwf Hlen)
    as (p0 & p1 & m & Hbd & Hp0 & Hp1 & Hne & _ & _).
  rewrite Hbd.
  destruct (add_missing_dims_vector d [p0; p1] comps (ds_data_vars d) Hwf)
    as (vars & Hfold & Hvars & _ & Hall).
  { constructor; [assumption | constructor; [assumption | constructor]]. }
  { now apply broadcast_vars_init. }
  { eapply Forall_impl; [exact Hcomps|]. intros var (a & Ha & _). eauto. }
  unfold vector_steps. rewrite Hfold. simpl.
  assert (Hgen : forall cs acc,
            Forall (fun var => exists a, ds_data_vars d !! var = Some a
                                         /\ "datetime" ∈ nd_dims a) cs ->
            Forall (fun var => exists a', vars !! var = Some a'
                      /\ forall dim, dim ∈ [p0; p1] -> dim ∈ nd_dims a') cs ->
            exists uvec,
              fold_result (fun acc var =>
                             u ← reordered d vars [p0; p1] var;
                             steps ← timesteps d u;
                             Ok (acc ++ [steps])%list) acc cs
              = Ok (acc ++ uvec)%list
              /\ Forall2 (fun var steps =>
                            exists a, ds_data_vars d !! var = Some a
                                      /\ steps_follow d [p0; p1] a steps)
                         cs uvec).
  { induction cs as [|var cs IH]; intros acc Hc Ha'.
    - exists []. simpl. rewrite app_nil_r. split; [reflexivity | constructor].
    - inversion Hc as [|? ? (a & Ha & Hdt) Hc']; subst.
      inversion Ha' as [|? ? (a' & Hva' & Hall') Ha'']; subst.
      pose proof (Hvars var) as Hb. rewrite Ha, Hva' in Hb.
      destruct (field_steps d vars var a a' p0 p1) as (u & steps & Hre & Hts & Hf);
        try assumption.
      destruct (IH (acc ++ [steps])%list Hc' Ha'') as (uvec & Hfold' & Huvec).
      exists (steps :: uvec). simpl. rewrite Hre. simpl. rewrite Hts. simpl.
      rewrite Hfold', <- app_assoc. split; [reflexivity|].
      constructor; [eauto | exact Huvec]. }
  destruct (Hgen comps [] Hcomps Hall) as (uvec & Hf & Hu).
  exists uvec. split; assumption.
Qed.
End FieldFacts.

(** ** BoundaryCoupling: the order of points and field values *)

Lemma unravel_index_2 a b k : unravel_index [a; b] k = [k / b; k mod b].
Proof.
  cbn [unravel_index size_of foldr].
  now rewrite Nat.mul_1_r, Nat.div_1_r.
Qed.

Lemma unravel_index_3 a b c k :
  unravel_index [a; b; c] k = [k / (b * c); (k mod (b * c)) / c; (k mod (b * c)) mod c].
Proof.
  cbn [unravel_index size_of foldr].
  now rewrite !Nat.mul_1_r, Nat.div_1_r.
Qed.

Section OrderFacts.
Context {A : Type} `{!DType A}.
Import BoundaryCoupling.
Implicit Types (d : Dataset A).
Local Abbreviation St := (State A (BoundaryCoupling.t A)).

Lemma keeps__open fpath gzip : keeps_self (_open fpath gzip : M St string).
Proof. unfold _open. keeps. Qed.

Lemma keeps__write_points fname binary gzip :
  keeps_self (_write_points fname binary gzip : M St unit).
Proof. unfold _write_points. keeps; apply keeps__open. Qed.

Lemma keeps_scalar_step fname binary gzip ti tstamp ui :
  keeps_self (scalar_step fname binary gzip ti tstamp ui : M St unit).
Proof. unfold scalar_step. keeps; apply keeps__open. Qed.

Lemma keeps_vector_step fname binary gzip ti tstamp ui vi wi :
  keeps_self (vector_step fname binary gzip ti tstamp ui vi wi : M St unit).
Proof. unfold vector_step. keeps; apply keeps__open. Qed.

Lemma keeps__write_boundary_scalar fname var binary gzip :
  keeps_self (_write_boundary_scalar fname var binary gzip : M St unit).
Proof. unfold _write_boundary_scalar. keeps. apply keeps_scalar_step. Qed.

Lemma keeps__write_boundary_vector fname comps binary gzip :
  keeps_self (_write_boundary_vector fname comps binary gzip : M St unit).
Proof. unfold _write_boundary_vector. keeps; apply keeps_vector_step. Qed.

Lemma list_remove_elem x (l : list string) :
  x ∈ l -> exists l', list_remove x l = Ok l'
                      /\ forall y, y <> x -> (y ∈ l' <-> y ∈ l).
Proof.
  induction l as [|z l IH]; intros Hin; [inversion Hin|].
  simpl. destruct (String.eqb_spec z x) as [->|Hne].
  - exists l. split; [reflexivity|]. intros y Hy.
    rewrite elem_of_cons. intuition congruence.
  - apply elem_of_cons in Hin as [->|Hin]; [congruence|].
    destruct (IH Hin) as (l' & -> & Hl'). exists (z :: l').
    split; [reflexivity|]. intros y Hy. rewrite !elem_of_cons, (Hl' y Hy).
    reflexivity.
Qed.

(** [write] stores the in-plane dimensions in the canonical order before
    anything is written, and nothing changes them afterwards. *)
Lemma write_bndry_dims (self : t A) w fields binary gzip :
  "datetime" ∈ dims (ds self) ->
  bndry_dims (st_self (fst (write fields binary gzip (mkState self w))))
  = Some (plane_dims (ds self)).
Proof.
  intros Hdt. destruct (list_remove_elem _ _ Hdt) as (l' & Hrm & Hl').
  assert (Hfilter : List.filter (fun dim => bool_decide (dim ∈ l')) ["x"; "y"; "height"]
                    = plane_dims (ds self)).
  { unfold plane_dims. simpl.
    assert (Hx : "x" ∈ l' <-> "x" ∈ dims (ds self)) by (apply Hl'; discriminate).
    assert (Hy : "y" ∈ l' <-> "y" ∈ dims (ds self)) by (apply Hl'; discriminate).
    assert (Hz : "height" ∈ l' <-> "height" ∈ dims (ds self))
      by (apply Hl'; discriminate).
    rewrite (bool_decide_ext _ _ Hx), (bool_decide_ext _ _ Hy),
            (bool_decide_ext _ _ Hz).
    reflexivity. }
  unfold write.
  assert (H1 : exists w1,
            (if binary && gzip then print MsgCompressedBinary else ret tt)
              (mkState self w) = (mkState self w1, Ok tt)).
  { destruct (binary && gzip); eexists; reflexivity. }
  destruct H1 as [w1 H1].
  erewrite bind_ok by exact H1.
  erewrite bind_ok by reflexivity.
  erewrite bind_ok by (unfold lift; cbn [st_self]; rewrite Hrm; reflexivity).
  erewrite bind_ok by reflexivity.
  match goal with
  | |- bndry_dims (st_self (fst (?m ?s))) = _ =>
      assert (Hk : keeps_self m); [|rewrite Hk]
  end.
  { keeps; first [apply keeps__open | apply keeps_scalar_step
                 | apply keeps_vector_step]. }
  cbn [st_self set_bndry_dims bndry_dims]. now rewrite Hfilter.
Qed.

(** The index of the [k]-th value of a payload is the index of the [k]-th
    point. *)
Lemma plane_env_point_env d (p0 p1 m : string) t k :
  plane_dims d = [p0; p1] -> plane_dim d p0 -> plane_dim d p1 -> m ∉ dims d ->
  (p0 = "x" /\ p1 = "y" /\ m = "height")
  \/ (p0 = "x" /\ p1 = "height" /\ m = "y")
  \/ (p0 = "y" /\ p1 = "height" /\ m = "x") ->
  size_of (grid_shape d) = size_of (map (dim_len d) [p0; p1])
  /\ (k < size_of (map (dim_len d) [p0; p1]) ->
      forall dm, dm ∈ ["datetime"; p0; p1] ->
                 plane_env d [p0; p1] t k dm = point_env d t k dm).
Proof.
  intros Hbd [_ H0] [_ H1] Hm Hcases.
  unfold plane_env, point_env, grid_shape, axis_len.
  cbn [map]. rewrite unravel_index_2, unravel_index_3.
  destruct Hcases as [(-> & -> & ->)|[(-> & -> & ->)|(-> & -> & ->)]];
    rewrite (bool_decide_eq_true_2 _ H0), (bool_decide_eq_true_2 _ H1),
            (bool_decide_eq_false_2 _ Hm);
    cbn [size_of foldr]; rewrite ?Nat.mul_1_r, ?Nat.mul_1_l;
    (split; [lia|]); intros Hk dm Hdm;
    repeat (apply elem_of_cons in Hdm as [->|Hdm]); try (inversion Hdm; fail);
    cbn; rewrite ?Nat.mul_1_r, ?Nat.add_0_r; try reflexivity.
  - symmetry. exact (Nat.div_1_r (k mod dim_len d "y")).
  - now rewrite Nat.Div0.mod_mod.
  - rewrite (Nat.mod_small k (dim_len d "y" * dim_len d "height")) by lia.
    reflexivity.
  - rewrite (Nat.mod_small k (dim_len d "y" * dim_len d "height")) by lia.
    reflexivity.
Qed.

Lemma steps_follow_points d pts a steps (p0 p1 m : string) :
  plane_dims d = [p0; p1] -> plane_dim d p0 -> plane_dim d p1 -> m ∉ dims d ->
  (p0 = "x" /\ p1 = "y" /\ m = "height")
  \/ (p0 = "x" /\ p1 = "height" /\ m = "y")
  \/ (p0 = "y" /\ p1 = "height" /\ m = "x") ->
  length pts = size_of (grid_shape d) ->
  (forall dm, dm ∈ nd_dims a -> dm ∈ ["datetime"; p0; p1]) ->
  steps_follow d [p0; p1] a steps ->
  payloads_follow_points d pts a steps.
Proof.
  intros Hbd Hp0 Hp1 Hm Hcases Hlen Hdims (Hl & Hsteps).
  split; [exact Hl|]. intros t ti tstamp payload Hst.
  assert (Ht : t < dim_len d "datetime").
  { rewrite <- Hl. eapply lookup_lt_Some; eauto. }
  destruct (Hsteps t Ht) as (ti' & ts' & payload' & Hst' & _ & Hlp & Hk).
  rewrite Hst in Hst'. injection Hst' as <- <- <-.
  destruct (plane_env_point_env d p0 p1 m t 0 Hbd Hp0 Hp1 Hm Hcases) as [Hsz _].
  split; [now rewrite Hlp, Hlen, Hsz|].
  intros k Hklt. rewrite Hlen, Hsz in Hklt.
  destruct (Hk k Hklt) as (v & Hv & Hsel). exists v. split; [exact Hv|].
  rewrite <- Hsel. apply sel_item_ext. intros dm Hdm. symmetry.
  destruct (plane_env_point_env d p0 p1 m t k Hbd Hp0 Hp1 Hm Hcases) as [_ He].
  apply He; [exact Hklt | now apply Hdims].
Qed.

End OrderFacts.

(** The west boundary of the scenarios is what the constructor makes of the
    caller's dataset, and satisfies the invariant. *)
Lemma west_constructed :
  Forall (fun dateref =>
            match BoundaryCoupling.__init__ "out" Scenario.west_input "west"
                    (Some dateref) None None Scenario.start with
            | (_, Ok bc) => BoundaryCoupling.ds bc = Scenario.west_at dateref
                            /\ BoundaryCoupling.dpath bc = "out/west"
            | (_, Raise _) => False
            end)
    [Scenario.T0; (Scenario.T0 + Scenario.hour)%Z].
Proof. repeat constructor; vm_compute; reflexivity. Qed.

Lemma west_wf dateref : wf_dataset (Scenario.west_at dateref).
Proof.
  constructor.
  - compute_done.
  - intros dim Hdim. unfold dims in Hdim. simpl in Hdim.
    repeat (apply elem_of_cons in Hdim as [->|Hdim]); try (inversion Hdim; fail);
      compute_done.
  - compute_done.
  - simpl. repeat apply map_Forall_insert_2; try apply map_Forall_empty;
      (split; [split; [compute_done | split; reflexivity] | compute_done]).
  - intros name c. simpl. revert name c.
    change (map_Forall (fun name c => name ∈ dims (Scenario.west_at dateref) ->
                          length (nd_values c)
                          = dim_len (Scenario.west_at dateref) name)
                       (ds_coords Scenario.west_input)).
    repeat apply map_Forall_insert_2; try apply map_Forall_empty; try reflexivity.
    intros Hy. exfalso. revert Hy. compute_done.
  - intros name Hname Hnot.
    repeat (apply elem_of_cons in Hname as [->|Hname]); try (inversion Hname; fail).
    + exfalso. apply Hnot. compute_done.
    + eexists. split; reflexivity.
    + exfalso. apply Hnot. compute_done.
  - intros name Hname.
    repeat (apply elem_of_cons in Hname as [->|Hname]); try (inversion Hname; fail);
      reflexivity.
  - do 2 eexists. repeat split; reflexivity.
Qed.

Lemma west_plane : length (plane_dims Scenario.west) = 2.
Proof. reflexivity. Qed.


(** ** BoundaryCoupling: broadcasting *)

Section RepeatFacts.
Context {A : Type} `{!DType A}.
Import BoundaryCoupling.
Implicit Types (d : Dataset A).

Lemma steps_follow_repeats d bd (m : string) a steps :
  steps_follow d bd a steps -> m ∉ nd_dims a ->
  repeats_along d bd m a steps.
Proof.
  intros (Hl & Hsteps) Hm t ti tstamp payload Hst.
  assert (Ht : t < dim_len d "datetime").
  { rewrite <- Hl. eapply lookup_lt_Some; eauto. }
  destruct (Hsteps t Ht) as (ti' & ts' & payload' & Hst' & _ & Hlp & Hk).
  rewrite Hst in Hst'. injection Hst' as <- <- <-.
  split; [exact Hlp|]. intros k Hklt. rewrite Hlp in Hklt.
  destruct (Hk k Hklt) as (v & Hv & Hsel).
  exists v. split; [exact Hv|]. split; [exact Hsel|].
  intros k' Hk' Henv. rewrite Hlp in Hk'.
  destruct (Hk k' Hk') as (v' & Hv' & Hsel').
  rewrite Hv'. rewrite <- Hsel, <- Hsel'. apply sel_item_ext.
  intros dm Hdm. apply Henv. intros ->. contradiction.
Qed.

End RepeatFacts.


(** ** BoundaryCoupling: what one step writes *)

Section StepRuns.
Context {A : Type} `{!DType A}.
Import BoundaryCoupling.
Local Abbreviation St := (State A (BoundaryCoupling.t A)).

Lemma header_not_empty N : boundaryDataHeader N <> EmptyString.
Proof. unfold boundaryDataHeader, header_lines. cbn. discriminate. Qed.

Lemma str_bytes_app s1 s2 : str_bytes (s1 +:+ s2) = (str_bytes s1 ++ str_bytes s2)%list.
Proof.
  unfold str_bytes. induction s1 as [|c s1 IH]; [reflexivity|].
  exact (f_equal (cons (byte_of_ascii c)) IH).
Qed.

(** Opening a file and writing chunks into it leaves the chunks as its
    content. *)
Lemma alter_append_stored p gzip b1 b2 (m : gmap string content) :
  alter (fun c => content_append c b2) p (<[p := stored gzip b1]> m)
  = <[p := stored gzip (b1 ++ b2)]> m.
Proof. rewrite alter_insert_eq. destruct gzip; reflexivity. Qed.

Lemma _open_run fpath gzip (self : t A) w :
  _open fpath gzip (mkState self w)
  = (mkState self
       (mkWorld (<[opened_path fpath gzip := stored gzip []]> (w_files w))
                (w_dirs w) (w_stdout w)),
     Ok (opened_path fpath gzip)).
Proof. unfold _open, opened_path. destruct gzip; reflexivity. Qed.

(** Creating the directory of a timestep when it does not exist. *)
Lemma ensure_dir_run dir (self : t A) (w : World A) :
  (if bool_decide (dir ∈ w_dirs w) then ret tt else makedirs dir)
    (mkState self w)
  = (mkState self
       (mkWorld (w_files w)
                (if bool_decide (dir ∈ w_dirs w) then w_dirs w
                 else {[dir]} ∪ w_dirs w)
                (w_stdout w)), Ok tt).
Proof. destruct (bool_decide _); [|reflexivity]. destruct w; reflexivity. Qed.

Lemma scalar_step_run fname binary gzip ti tstamp ui (self : t A) w :
  scalar_step fname binary gzip ti tstamp ui (mkState self w)
  = (mkState self
       (after_scalar_step self fname binary gzip w (ti, tstamp, ui)), Ok tt).
Proof.
  unfold scalar_step, after_scalar_step, after_step.
  destruct (negative ti); [reflexivity|].
  erewrite bind_ok by reflexivity. cbn [st_self].
  erewrite bind_ok by reflexivity. cbn [st_world].
  erewrite bind_ok by apply ensure_dir_run.
  unfold after_write, field_path, scalar_file.
  destruct binary.
  - erewrite bind_ok.
    2:{ erewrite bind_ok by apply _open_run.
        unfold fwrite, bind, modify_world, modify. cbn [st_self st_world w_files w_dirs w_stdout fst snd].
        rewrite !alter_append_stored, app_nil_l, <- ?app_assoc. reflexivity. }
    reflexivity.
  - erewrite bind_ok.
    2:{ erewrite bind_ok by apply _open_run.
        rewrite (savetxt_scalars _ _ (header_not_empty _)).
        unfold fsavetxt, fwrite_str, fwrite, bind, lift, modify_world, modify.
        cbn [st_self st_world w_files w_dirs w_stdout fst snd].
        rewrite !alter_append_stored, app_nil_l, <- ?app_assoc. reflexivity. }
    reflexivity.
Qed.

Lemma vector_step_run fname binary gzip ti tstamp ui vi wi data (self : t A) w :
  stack3 ui vi wi = Ok data ->
  (forall r, r ∈ data -> length r = 3) ->
  vector_step fname binary gzip ti tstamp ui vi wi (mkState self w)
  = (mkState self
       (after_vector_step self fname binary gzip w (ti, tstamp, data)), Ok tt).
Proof.
  intros Hdata Hrows. unfold vector_step, after_vector_step, after_step.
  destruct (negative ti); [reflexivity|].
  erewrite bind_ok by reflexivity. cbn [st_self].
  erewrite bind_ok by (unfold lift; rewrite Hdata; reflexivity).
  erewrite bind_ok by reflexivity. cbn [st_world].
  erewrite bind_ok by apply ensure_dir_run.
  unfold after_write, field_path, vector_file.
  destruct binary.
  - erewrite bind_ok.
    2:{ erewrite bind_ok by apply _open_run.
        unfold fwrite, bind, modify_world, modify. cbn [st_self st_world w_files w_dirs w_stdout fst snd].
        rewrite !alter_append_stored, app_nil_l, <- ?app_assoc. reflexivity. }
    reflexivity.
  - erewrite bind_ok.
    2:{ erewrite bind_ok by apply _open_run.
        rewrite (savetxt_triples _ _ Hrows (header_not_empty _)).
        unfold fsavetxt, fwrite_str, fwrite, bind, lift, modify_world, modify.
        cbn [st_self st_world w_files w_dirs w_stdout fst snd].
        rewrite !alter_append_stored, app_nil_l, <- ?app_assoc. reflexivity. }
    reflexivity.
Qed.

Lemma _write_points_run fname binary gzip pts (self : t A) w :
  points (ds self) = Ok pts ->
  (forall r, r ∈ pts -> length r = 3) ->
  _write_points fname binary gzip (mkState self w)
  = (mkState self
       (mkWorld
          (<[opened_path (path_join (dpath self) fname) gzip :=
               stored gzip (points_file binary pts)]> (w_files w))
          (w_dirs w)
          (w_stdout w ++ [MsgWrotePoints (length pts)
                                         (path_join (dpath self) fname)])),
     Ok tt).
Proof.
  intros Hpts Hrows. unfold _write_points, points_file.
  erewrite bind_ok by reflexivity. cbn [st_self].
  erewrite bind_ok by (unfold lift; rewrite Hpts; reflexivity).
  destruct binary.
  - erewrite bind_ok.
    2:{ erewrite bind_ok by apply _open_run.
        unfold fwrite, bind, modify_world, modify. cbn [st_self st_world w_files w_dirs w_stdout fst snd].
        rewrite !alter_append_stored, app_nil_l, <- ?app_assoc. reflexivity. }
    reflexivity.
  - erewrite bind_ok.
    2:{ erewrite bind_ok by apply _open_run.
        rewrite (savetxt_triples _ _ Hrows (header_not_empty _)).
        unfold fsavetxt, fwrite_str, fwrite, bind, lift, modify_world, modify.
        cbn [st_self st_world w_files w_dirs w_stdout fst snd].
        rewrite !alter_append_stored, app_nil_l, <- ?app_assoc. reflexivity. }
    reflexivity.
Qed.
End StepRuns.

(** ** BoundaryCoupling: the loops over timesteps *)

Section LoopFacts.
Context {A : Type} `{!DType A}.
Import BoundaryCoupling.
Implicit Types (d : Dataset A).
Local Abbreviation St := (State A (BoundaryCoupling.t A)).

Lemma timeline_wf d :
  wf_dataset d ->
  exists times tidx,
    ds_datetime d = Some times /\ ds_t_index d = Some tidx
    /\ timeline d = zip tidx (nd_values times)
    /\ length (nd_values times) = dim_len d "datetime"
    /\ length tidx = dim_len d "datetime".
Proof.
  intros Hwf. destruct (wf_times _ Hwf) as (times & tidx & H1 & H2 & H3 & H4).
  exists times, tidx. unfold timeline. rewrite H1, H2. auto.
Qed.

(** The timesteps a field is written at are those of the dataset. *)
Lemma steps_follow_timeline d bd a steps :
  wf_dataset d -> steps_follow d bd a steps ->
  map fst steps = timeline d
  /\ Forall (fun step => length (snd step) = size_of (map (dim_len d) bd)) steps.
Proof.
  intros Hwf (Hl & Hsteps).
  destruct (timeline_wf d Hwf) as (times & tidx & Ht & Hi & -> & Hlt & Hli).
  split.
  - apply list_eq. intros i. rewrite map_fmap, list_lookup_fmap, lookup_zip_with.
    destruct (decide (i < dim_len d "datetime")) as [Hi'|Hi'].
    + destruct (Hsteps i Hi') as (ti & ts & payload & Hst & (tidx' & times' & E1 & E2 & E3 & E4) & _).
      rewrite Hst. simpl.
      assert (tidx' = tidx) by congruence. assert (times' = times) by congruence.
      subst. rewrite E3. simpl. rewrite E4. reflexivity.
    + rewrite (lookup_ge_None_2 steps) by lia.
      rewrite (lookup_ge_None_2 tidx) by lia. reflexivity.
  - apply Forall_forall. intros step Hin.
    apply list_elem_of_lookup in Hin as [i Hi'].
    assert (Hlt' : i < dim_len d "datetime").
    { rewrite <- Hl. eapply lookup_lt_Some; eauto. }
    destruct (Hsteps i Hlt') as (ti & ts & payload & Hst & _ & Hlp & _).
    rewrite Hi' in Hst. injection Hst as ->. exact Hlp.
Qed.

Lemma zip_star_3 {X} (s1 s2 s3 : list X) n :
  length s1 = n -> length s2 = n -> length s3 = n ->
  length (zip_star [s1; s2; s3]) = n
  /\ forall i x1 x2 x3,
       s1 !! i = Some x1 -> s2 !! i = Some x2 -> s3 !! i = Some x3 ->
       zip_star [s1; s2; s3] !! i = Some [x1; x2; x3].
Proof.
  intros H1 H2 H3. unfold zip_star. cbn [foldr]. rewrite H1, H2, H3.
  replace (n `min` (n `min` (n `min` n))) with n by lia.
  split; [now rewrite length_map, length_seq|].
  intros i x1 x2 x3 E1 E2 E3.
  rewrite map_fmap, list_lookup_fmap, lookup_seq_lt.
  - simpl. rewrite E1, E2, E3. reflexivity.
  - rewrite <- H1. eapply lookup_lt_Some; eauto.
Qed.
End LoopFacts.

(** ** BoundaryCoupling: what construction validates *)

Section MonadInversion.
Context {S : Type}.

Lemma bind_inv_ok {X Y} (m : M S X) (k : X -> M S Y) s s' y :
  bind m k s = (s', Ok y) ->
  exists s1 x, m s = (s1, Ok x) /\ k x s1 = (s', Ok y).
Proof.
  unfold bind. destruct (m s) as [s1 [x|e]]; [eauto | discriminate].
Qed.

Lemma assert_inv_ok b a (s s' : S) u :
  assert b a s = (s', Ok u) -> b = true /\ s' = s.
Proof. destruct b; simpl; [intros [= <-]; auto | discriminate]. Qed.

Lemma lift_inv_ok {X} (r : result X) (s s' : S) x :
  lift r s = (s', Ok x) -> r = Ok x /\ s' = s.
Proof. unfold lift. intros [= <- ->]. auto. Qed.

(** A loop that returns has run its body, and the body returned, on every
    item. *)
Lemma for_each_inv_ok {X} (l : list X) (body : X -> M S unit) s s' u :
  for_each l body s = (s', Ok u) ->
  forall x, x ∈ l -> exists s1 s2, body x s1 = (s2, Ok tt).
Proof.
  revert s. induction l as [|y l IH]; intros s H x Hx; [inversion Hx|].
  simpl in H. apply bind_inv_ok in H as (s1 & [] & Hy & Hrest).
  apply elem_of_cons in Hx as [->|Hx]; [eauto | eapply IH; eauto].
Qed.

Lemma list_remove_perm x l l' : list_remove x l = Ok l' -> l ≡ₚ x :: l'.
Proof.
  revert l'. induction l as [|y l IH]; intros l' H; [discriminate|].
  simpl in H. destruct (String.eqb_spec y x) as [->|Hne].
  - now injection H as ->.
  - destruct (list_remove x l) as [r|e]; [|discriminate].
    injection H as <-. rewrite (IH r eq_refl). apply Permutation_swap.
Qed.

Lemma remove_all_perm (l : list string) : forall acc (s s' : S) rest,
  foldM (fun l dim => lift (list_remove dim l)) acc l s = (s', Ok rest) ->
  acc ≡ₚ (l ++ rest)%list.
Proof.
  induction l as [|x l IH]; intros acc s s' rest H.
  - simpl in H. injection H as _ <-. reflexivity.
  - simpl in H. apply bind_inv_ok in H as (s1 & acc' & Hx & Hrest).
    apply lift_inv_ok in Hx as [Hx ->].
    rewrite (list_remove_perm _ _ _ Hx), (IH _ _ _ _ Hrest). reflexivity.
Qed.
End MonadInversion.

Section ConstructionClaims.
Context {A : Type} `{!DType A}.
Import BoundaryCoupling.
Implicit Types (d : Dataset A).

(** What a dataset that passes [_check_xarray_dataset] satisfies. *)
Lemma _check_xarray_dataset_inv {Self} d (s s' : State A Self) u :
  _check_xarray_dataset d expected_dims s = (s', Ok u) ->
  (forall dim, dim ∈ dims d -> dim ∈ expected_dims)
  /\ (forall dim, dim ∈ dims d -> coord_dims d dim = Ok [dim])
  /\ exists c, expected_dims ≡ₚ (dims d ++ [c])%list.
Proof.
  unfold _check_xarray_dataset. intros H.
  apply bind_inv_ok in H as (s1 & [] & Hloop & H).
  apply bind_inv_ok in H as (s2 & rest & Hrm & H).
  apply bind_inv_ok in H as (s3 & [] & Hlen & _).
  apply assert_inv_ok in Hlen as [Hlen _]. apply Nat.eqb_eq in Hlen.
  assert (Hbody : forall dim, dim ∈ dims d ->
            dim ∈ expected_dims /\ coord_dims d dim = Ok [dim]).
  { intros dim Hdim.
    destruct (for_each_inv_ok _ _ _ _ _ Hloop dim Hdim) as (sa & sb & Hb).
    apply bind_inv_ok in Hb as (sc & [] & Ha & Hb).
    apply assert_inv_ok in Ha as [Ha _]. apply bool_decide_eq_true in Ha.
    apply bind_inv_ok in Hb as (sd & cdims & Hc & Hb).
    apply lift_inv_ok in Hc as [Hc _].
    split; [exact Ha|]. rewrite Hc.
    destruct cdims as [|d0 cdims']; [discriminate|].
    apply assert_inv_ok in Hb as [Hb _]. apply andb_prop in Hb as [H0 H1].
    apply String.eqb_eq in H0. apply Nat.eqb_eq in H1.
    destruct cdims'; [congruence | discriminate]. }
  split; [intros dim Hdim; now apply Hbody|].
  split; [intros dim Hdim; now apply Hbody|].
  destruct rest as [|c [|]]; try discriminate.
  exists c. eapply remove_all_perm; eauto.
Qed.

(** C6. When the constructor returns, every dimension of the dataset is
    one of datetime, height, x and y, each has a coordinate whose only axis
    is the dimension itself, datetime is a dimension, and exactly one of x,
    y and height is not a dimension. A dataset with none or with several
    of them missing is therefore rejected. *)
Theorem construction_validates_dataset
    dpath0 d name dateref datefrom dateto s s' bc :
  __init__ dpath0 d name dateref datefrom dateto s = (s', Ok bc) ->
  (forall dim, dim ∈ dims d -> dim ∈ ["datetime"; "height"; "x"; "y"])
  /\ (forall dim, dim ∈ dims d -> coord_dims d dim = Ok [dim])
  /\ "datetime" ∈ dims d
  /\ exists c, c ∈ ["x"; "y"; "height"] /\ (c ∉ dims d)
               /\ forall c', c' ∈ ["x"; "y"; "height"] -> c' ∉ dims d -> c' = c.
Proof.
  unfold __init__. intros H.
  apply bind_inv_ok in H as (s1 & ex & _ & H).
  apply bind_inv_ok in H as (s2 & [] & _ & H).
  apply bind_inv_ok in H as (s3 & [] & Hcheck & H).
  apply bind_inv_ok in H as (s4 & from & _ & H).
  apply bind_inv_ok in H as (s5 & to & _ & H).
  apply bind_inv_ok in H as (s6 & d' & Hsel & _).
  apply lift_inv_ok in Hsel as [Hsel _].
  destruct (_check_xarray_dataset_inv _ _ _ _ Hcheck) as (Hexp & Hcoord & c & Hperm).
  assert (Hdt : "datetime" ∈ dims d).
  { unfold sel_datetime in Hsel. case_bool_decide; [assumption | discriminate]. }
  split; [exact Hexp|]. split; [exact Hcoord|]. split; [exact Hdt|].
  assert (Hnd : NoDup (dims d ++ [c])%list).
  { rewrite <- Hperm. compute_done. }
  apply NoDup_app in Hnd as (_ & Hdisj & _).
  assert (Hc : c ∉ dims d).
  { intros Hin. apply (Hdisj c Hin). left. }
  assert (Hce : c ∈ expected_dims).
  { rewrite Hperm. apply elem_of_app. right. left. }
  exists c. split; [|split; [exact Hc|]].
  - unfold expected_dims in Hce.
    repeat (apply elem_of_cons in Hce as [->|Hce]); try (inversion Hce; fail);
      try contradiction; rewrite !elem_of_cons; auto.
  - intros c' Hc' Hnot.
    assert (Hin : c' ∈ (dims d ++ [c])%list).
    { rewrite <- Hperm. clear Hnot.
      repeat (apply elem_of_cons in Hc' as [->|Hc']); try (inversion Hc'; fail);
        compute_done. }
    apply elem_of_app in Hin as [Hin|Hin]; [contradiction|].
    apply elem_of_cons in Hin as [->|Hin]; [reflexivity | inversion Hin].
Qed.
End ConstructionClaims.

(** The constructor returns on the west boundary with a reference date, and
    y is the axis it lacks. *)
Lemma construction_validates_dataset_witness :
  exists c, c ∈ ["x"; "y"; "height"] /\ (c ∉ dims Scenario.west_input)
            /\ forall c', c' ∈ ["x"; "y"; "height"] ->
                          c' ∉ dims Scenario.west_input -> c' = c.
Proof.
  refine (proj2 (proj2 (proj2
    (construction_validates_dataset "out" Scenario.west_input "west"
       (Some Scenario.T0) None None Scenario.start _ _ _)))).
  vm_compute. reflexivity.
Defined.

(** A dataset over x, y and height without a datetime dimension passes the
    check of the dimensions, datetime being then the one that is missing,
    and is rejected when the line on the boundary is formatted. *)
Lemma timeless_rejected :
  snd (BoundaryCoupling.__init__ "out" Scenario.timeless "west"
         (Some Scenario.T0) (Some Scenario.T0) (Some Scenario.T0) Scenario.start)
  = Raise (ValueError "Unknown format code 'g' for object of type 'str'").
Proof. vm_compute. reflexivity. Qed.

(** ** BoundaryCoupling: the layout of binary files *)

Section BinaryClaims.
Context {A : Type} `{!DType A}.
Import BoundaryCoupling.

Lemma stack3_rows {T} (u v w : list T) data :
  stack3 u v w = Ok data -> forall r, r ∈ data -> length r = 3.
Proof.
  unfold stack3. destruct (_ && _); [|discriminate].
  intros [= <-] r Hr.
  apply elem_of_zip_with in Hr as (a & r' & -> & _ & Hr).
  apply elem_of_zip_with in Hr as (b & c & -> & _). reflexivity.
Qed.

Lemma lookup_after_step wrote (self : t A) fname gzip N bytes w ti tstamp :
  negative ti = false ->
  w_files (after_step wrote self fname gzip N bytes w (ti, tstamp))
    !! opened_path (field_path self ti fname) gzip
  = Some (stored gzip bytes).
Proof.
  intros Hti. unfold after_step, after_write. rewrite Hti.
  cbn [w_files]. apply lookup_insert_eq.
Qed.

(** C4 (amended): in binary mode the file of a timestep that is not
    skipped holds the header as text, the raw bytes of the values in row
    order, the byte of the closing parenthesis, and then the placeholder as
    the ASCII text of a newline followed by 0 for a scalar field and by
    (0 0 0) for a vector field, whatever the element type is. *)
Theorem binary_field_file_layout fname gzip ti tstamp ui vi wi data
    (self : t A) (w : World A) :
  negative ti = false ->
  stack3 ui vi wi = Ok data ->
  let path := opened_path (field_path self ti fname) gzip in
  w_files (st_world (fst (scalar_step fname true gzip ti tstamp ui
                                      (mkState self w)))) !! path
  = Some (stored gzip
            (str_bytes (boundaryDataHeader (length ui)) ++ tobytes_1d ui
             ++ [x29] ++ [x0a; x30]))
  /\ w_files (st_world (fst (vector_step fname true gzip ti tstamp ui vi wi
                                         (mkState self w)))) !! path
     = Some (stored gzip
               (str_bytes (boundaryDataHeader (length data)) ++ tobytes data
                ++ [x29] ++ [x0a; x28; x30; x20; x30; x20; x30; x29])).
Proof.
  intros Hti Hdata path. split.
  - rewrite scalar_step_run. cbn [fst st_world]. unfold after_scalar_step.
    unfold path. rewrite lookup_after_step by exact Hti. reflexivity.
  - rewrite (vector_step_run _ _ _ _ _ _ _ _ data) by
      (try exact Hdata; exact (stack3_rows _ _ _ _ Hdata)).
    cbn [fst st_world]. unfold after_vector_step.
    unfold path. rewrite lookup_after_step by exact Hti. reflexivity.
Qed.
End BinaryClaims.

(** The binary file of theta at the first timestep of the west boundary ends
    in the two bytes of a newline and the digit 0, and the file of the vector
    (theta, theta, theta) in the eight bytes of a newline and (0 0 0). *)
Lemma binary_field_file_layout_witness :
  w_files (st_world (fst (BoundaryCoupling.scalar_step "T" true false 0%Q
            Scenario.T0 (map F64.Fin [1; 3; 5; 2; 4; 6]%Z)
            (mkState (Scenario.west_writer Scenario.T0) empty_world))))
    !! "out/west/0/T"
  = Some (Plain (str_bytes (BoundaryCoupling.boundaryDataHeader 6)
                 ++ tobytes_1d (map F64.Fin [1; 3; 5; 2; 4; 6]%Z)
                 ++ [x29] ++ [x0a; x30])).
Proof.
  refine (proj1 (binary_field_file_layout "T" false 0%Q Scenario.T0
                   (map F64.Fin [1; 3; 5; 2; 4; 6]%Z)
                   (map F64.Fin [1; 3; 5; 2; 4; 6]%Z)
                   (map F64.Fin [1; 3; 5; 2; 4; 6]%Z)
                   _ (Scenario.west_writer Scenario.T0) empty_world _ _)).
  - reflexivity.
  - vm_compute. reflexivity.
Defined.

(** C4 (as worded): writing theta of the west boundary in binary mode leaves
    a file at the first timestep that is not the header, the bytes of the
    values, the closing parenthesis and the bytes of a zero of the element
    type: it ends in the text of a newline and 0. *)
Lemma binary_placeholder_counterexample :
  exists s bytes,
    Scenario.west_run Scenario.T0 [("T", ScalarVar "theta")] true false
    = inl (s, Ok tt)
    /\ w_files (st_world s) !! "out/west/0/T" = Some (Plain bytes)
    /\ bytes <> BoundaryCoupling.spec_binary_scalar_file
                 (map F64.Fin [1; 3; 5; 2; 4; 6]%Z)
    /\ bytes = (str_bytes (BoundaryCoupling.boundaryDataHeader 6)
                ++ tobytes_1d (map F64.Fin [1; 3; 5; 2; 4; 6]%Z)
                ++ [x29; x0a; x30])%list.
Proof.
  eexists. eexists. split; [vm_compute; reflexivity|].
  split; [vm_compute; reflexivity|]. split.
  - intros H. apply (f_equal length) in H. vm_compute in H. discriminate.
  - vm_compute. reflexivity.
Qed.

(** ** The layout of text files *)

Section TextClaims.
Context {A : Type} `{!DType A}.

Lemma points_rows (d : Dataset A) pts :
  BoundaryCoupling.points d = Ok pts -> forall r, r ∈ pts -> length r = 3.
Proof.
  unfold BoundaryCoupling.points.
  destruct (coords_getitem d "x"); [|discriminate].
  destruct (coords_getitem d "y"); [|discriminate].
  destruct (coords_getitem d "height"); [|discriminate].
  cbn. apply stack3_rows.
Qed.

End TextClaims.



(** ** BoundaryCoupling: what a failing call of write leaves behind *)

Section FileFacts.
Context {A Self : Type}.
Local Abbreviation St := (State A Self).

Lemma files_ret {X} (x : X) : keeps_files (ret x : M St X).
Proof. intros s p Hp; exact Hp. Qed.

Lemma files_raise {X} e : keeps_files (@raise St X e).
Proof. intros s p Hp; exact Hp. Qed.

Lemma files_lift {X} (r : result X) : keeps_files (lift r : M St X).
Proof. intros s p Hp; exact Hp. Qed.

Lemma files_assert b a : keeps_files (assert b a : M St unit).
Proof. intros s p Hp; destruct b; exact Hp. Qed.

Lemma files_get_self : keeps_files (get_self : M St Self).
Proof. intros s p Hp; exact Hp. Qed.

Lemma files_set_self x : keeps_files (set_self x : M St unit).
Proof. intros s p Hp; exact Hp. Qed.

Lemma files_isdir q : keeps_files (isdir q : M St bool).
Proof. intros s p Hp; exact Hp. Qed.

Lemma files_makedirs q : keeps_files (makedirs q : M St unit).
Proof. intros s p Hp; exact Hp. Qed.

Lemma files_print m : keeps_files (print m : M St unit).
Proof. intros s p Hp; exact Hp. Qed.

Lemma files_fopen q gz : keeps_files (fopen q gz : M St unit).
Proof.
  intros s p Hp. cbn. apply lookup_insert_is_Some.
  destruct (decide (q = p)); [left | right]; auto.
Qed.

Lemma files_fwrite q b : keeps_files (fwrite q b : M St unit).
Proof.
  intros s p Hp. cbn. destruct (decide (q = p)) as [->|Hne].
  - rewrite lookup_alter_eq. destruct Hp as [c ->]. cbn. eauto.
  - rewrite lookup_alter_ne by exact Hne. exact Hp.
Qed.

Lemma files_bind {X Y} (m : M St X) (k : X -> M St Y) :
  keeps_files m -> (forall x, keeps_files (k x)) -> keeps_files (bind m k).
Proof.
  intros Hm Hk s p Hp. unfold bind. specialize (Hm s p Hp).
  destruct (m s) as [s1 [x|e]]; simpl in *; [apply Hk|]; exact Hm.
Qed.

Lemma files_fsavetxt q out : keeps_files (fsavetxt q out : M St unit).
Proof.
  unfold fsavetxt. apply files_bind; [apply files_fwrite|].
  intros _. apply files_lift.
Qed.

Lemma files_for_each {X} (l : list X) (body : X -> M St unit) :
  (forall x, keeps_files (body x)) -> keeps_files (for_each l body).
Proof.
  intros Hb. induction l as [|x l IH]; simpl.
  - apply files_ret.
  - apply files_bind; [apply Hb | intros _; exact IH].
Qed.

Lemma for_each_app {X} (l1 l2 : list X) (body : X -> M St unit) s :
  for_each (l1 ++ l2) body s
  = bind (for_each l1 body) (fun _ => for_each l2 body) s.
Proof.
  revert s. induction l1 as [|x l1 IH]; intros s; [reflexivity|].
  cbn [app for_each]. unfold bind.
  destruct (body x s) as [s1 [u|e]]; [|reflexivity].
  rewrite IH. reflexivity.
Qed.
End FileFacts.

Ltac files :=
  repeat match goal with
    | |- keeps_files (ret _) => apply files_ret
    | |- keeps_files (raise _) => apply files_raise
    | |- keeps_files (lift _) => apply files_lift
    | |- keeps_files (assert _ _) => apply files_assert
    | |- keeps_files get_self => apply files_get_self
    | |- keeps_files (isdir _) => apply files_isdir
    | |- keeps_files (fopen _ _) => apply files_fopen
    | |- keeps_files (fwrite _ _) => apply files_fwrite
    | |- keeps_files (fsavetxt _ _) => apply files_fsavetxt
    | |- keeps_files (makedirs _) => apply files_makedirs
    | |- keeps_files (print _) => apply files_print
    | |- keeps_files (bind _ _) => apply files_bind; [|intros ?]
    | |- keeps_files (for_each _ _) => apply files_for_each; intros ?
    | |- keeps_files (if ?b then _ else _) => destruct b
    | |- keeps_files (match ?x with _ => _ end) => destruct x
    end.

Section FailureClaims.
Context {A : Type} `{!DType A}.
Import BoundaryCoupling.
Local Abbreviation St := (State A (BoundaryCoupling.t A)).

Lemma files__open fpath gzip : keeps_files (_open fpath gzip : M St string).
Proof. unfold _open. files. Qed.

Lemma files__write_points fname binary gzip :
  keeps_files (_write_points fname binary gzip : M St unit).
Proof. unfold _write_points. files; apply files__open. Qed.

Lemma files_scalar_step fname binary gzip ti tstamp ui :
  keeps_files (scalar_step fname binary gzip ti tstamp ui : M St unit).
Proof. unfold scalar_step. files; apply files__open. Qed.

Lemma files_vector_step fname binary gzip ti tstamp ui vi wi :
  keeps_files (vector_step fname binary gzip ti tstamp ui vi wi : M St unit).
Proof. unfold vector_step. files; apply files__open. Qed.

Lemma files__write_boundary_scalar fname var binary gzip :
  keeps_files (_write_boundary_scalar fname var binary gzip : M St unit).
Proof. unfold _write_boundary_scalar. files. apply files_scalar_step. Qed.

Lemma files__write_boundary_vector fname comps binary gzip :
  keeps_files (_write_boundary_vector fname comps binary gzip : M St unit).
Proof. unfold _write_boundary_vector. files; apply files_vector_step. Qed.

(** The body of the loop of [write] over the fields. *)
Local Abbreviation write_field binary gzip :=
  (fun '(fieldname, dvars) =>
     self <- get_self ;;
     match dvars with
     | VectorVars dvars =>
         assert (forallb (fun dvar => in_variables dvar (ds self)) dvars)
                (A_all_components dvars) ;;
         assert (length dvars =? 3) A_three_components ;;
         _write_boundary_vector fieldname dvars binary gzip
     | ScalarVar dvar =>
         assert (in_variables dvar (ds self)) (A_scalar_var dvar) ;;
         _write_boundary_scalar fieldname dvar binary gzip
     end).

Lemma keeps_write_field binary gzip fd :
  keeps_self (write_field binary gzip fd : M St unit).
Proof.
  destruct fd as [fieldname dvars]. cbv beta iota.
  apply keeps_bind; [apply keeps_get_self|intros self].
  destruct dvars as [dvar|l].
  - apply keeps_bind; [apply keeps_assert|intros _].
    apply keeps__write_boundary_scalar.
  - apply keeps_bind; [apply keeps_assert|intros _].
    apply keeps_bind; [apply keeps_assert|intros _].
    apply keeps__write_boundary_vector.
Qed.

Lemma files_write_field binary gzip fd :
  keeps_files (write_field binary gzip fd : M St unit).
Proof.
  destruct fd as [fieldname dvars]. cbv beta iota.
  files; first [apply files__write_boundary_vector
               | apply files__write_boundary_scalar].
Qed.

(** A field with a shape error fails its assertion and changes nothing. *)
Lemma write_field_shape_error binary gzip fieldname dvars (s : St) a :
  shape_error (ds (st_self s)) dvars = Some a ->
  write_field binary gzip (fieldname, dvars) s = (s, Raise (AssertionError a)).
Proof.
  unfold shape_error, bind, get_self, assert.
  destruct dvars as [dvar|l].
  - destruct (in_variables dvar _); [discriminate|]. now intros [= <-].
  - destruct (forallb _ l); cbn [negb].
    + destruct (length l =? 3); cbn [negb]; [discriminate|]. now intros [= <-].
    + now intros [= <-].
Qed.

(** [write] is what it does before the loop, followed by the loop. *)
Lemma write_as_loop fields binary gzip (s : St) :
  write fields binary gzip s
  = bind (write [] binary gzip)
         (fun _ => for_each fields (write_field binary gzip)) s.
Proof.
  unfold write. cbn [for_each]. unfold bind.
  destruct ((if binary && gzip then print MsgCompressedBinary else ret tt) s)
    as [sa [[]|e]]; [|reflexivity].
  unfold get_self. destruct (lift _ sa) as [sb [l|e]]; [|reflexivity].
  destruct (set_self _ sb) as [sc [[]|e]]; [|reflexivity].
  destruct (assert _ _ sc) as [sd [[]|e]]; [|reflexivity].
  destruct (_write_points _ _ _ sd) as [se [[]|e]]; reflexivity.
Qed.

(** When [_write_points] returns, the points file exists. *)
Lemma _write_points_inv fname binary gzip (self : t A) w (s' : St) :
  _write_points fname binary gzip (mkState self w) = (s', Ok tt) ->
  st_self s' = self
  /\ is_Some (w_files (st_world s')
                !! opened_path (path_join (dpath self) fname) gzip).
Proof.
  intros H. destruct (points (ds self)) as [pts|e] eqn:Hpts.
  - rewrite (_write_points_run _ _ _ pts _ _ Hpts (points_rows _ _ Hpts)) in H.
    injection H as <-. cbn [st_self st_world w_files]. split; [reflexivity|].
    rewrite lookup_insert_eq. eauto.
  - unfold _write_points in H.
    erewrite bind_ok in H by reflexivity. cbn [st_self] in H.
    erewrite bind_raise in H by (unfold lift; rewrite Hpts; reflexivity).
    discriminate.
Qed.

(** When [write] returns for no field, the dataset of the writer is the
    one it had and the points file exists. *)
Lemma write_nil_inv binary gzip (self : t A) w (s0 : St) :
  write [] binary gzip (mkState self w) = (s0, Ok tt) ->
  ds (st_self s0) = ds self
  /\ is_Some (w_files (st_world s0)
                !! opened_path (path_join (dpath self) "points") gzip).
Proof.
  unfold write. intros H.
  apply bind_inv_ok in H as (sa & [] & Ha & H).
  assert (Hsa : exists wa, sa = mkState self wa).
  { destruct (binary && gzip); injection Ha as <-; eexists; reflexivity. }
  destruct Hsa as [wa ->].
  apply bind_inv_ok in H as (sb & self' & Hb & H).
  injection Hb as <- <-. cbn [st_self] in H.
  apply bind_inv_ok in H as (sc & l & Hc & H).
  apply lift_inv_ok in Hc as [_ ->].
  apply bind_inv_ok in H as (sd & [] & Hd & H).
  injection Hd as <-. cbn [st_world] in H.
  apply bind_inv_ok in H as (se & [] & He & H).
  apply assert_inv_ok in He as [_ ->].
  apply bind_inv_ok in H as (sf & [] & Hf & H).
  injection H as <-.
  apply _write_points_inv in Hf as [-> Hf]. exact (conj eq_refl Hf).
Qed.

(** C5 (amended): when the fields before a field with a shape error are
    written without error, [write] fails on that field with the assertion
    it violates, in the very state the fields before it left: the points
    file and the files of the fields before it are retained, and nothing
    is written for the failing field or for the fields after it. *)
Theorem write_shape_error_keeps_output
    (self : t A) (w : World A) pre fieldname dvars post binary gzip
    (s1 : St) a :
  shape_error (ds self) dvars = Some a ->
  write pre binary gzip (mkState self w) = (s1, Ok tt) ->
  write (pre ++ (fieldname, dvars) :: post) binary gzip (mkState self w)
  = (s1, Raise (AssertionError a))
  /\ is_Some (w_files (st_world s1)
                !! opened_path (path_join (dpath self) "points") gzip).
Proof.
  intros Hbad Hpre. rewrite write_as_loop in Hpre.
  apply bind_inv_ok in Hpre as (s0 & [] & H0 & Hpre).
  destruct (write_nil_inv _ _ _ _ _ H0) as [Hds Hpts].
  assert (Hself : st_self s1 = st_self s0).
  { pose proof (keeps_for_each pre (write_field binary gzip)
                  (keeps_write_field binary gzip) s0) as Hk.
    rewrite Hpre in Hk. exact Hk. }
  split.
  - rewrite write_as_loop. erewrite bind_ok by exact H0.
    rewrite for_each_app. erewrite bind_ok by exact Hpre.
    cbn [for_each]. apply bind_raise.
    apply write_field_shape_error. now rewrite Hself, Hds.
  - pose proof (files_for_each pre (write_field binary gzip)
                  (files_write_field binary gzip) s0 _ Hpts) as Hk.
    rewrite Hpre in Hk. exact Hk.
Qed.
End FailureClaims.

(** ** BoundaryCoupling: a call of write as a sequence of effects *)

Section EffectFacts.
Context {A : Type} `{!DType A}.
Import BoundaryCoupling.
Implicit Types (d : Dataset A).
Local Abbreviation St := (State A (BoundaryCoupling.t A)).

Lemma perform_all_app (w : World A) es1 es2 :
  perform_all w (es1 ++ es2) = perform_all (perform_all w es1) es2.
Proof. apply foldl_app. Qed.

Lemma stdout_perform_all (w : World A) es :
  w_stdout (perform_all w es) = (w_stdout w ++ printed es)%list.
Proof.
  revert w. induction es as [|e es IH]; intros w.
  - cbn. now rewrite app_nil_r.
  - cbn [perform_all foldl]. fold (perform_all (perform w e) es). rewrite IH.
    destruct e; cbn; [now rewrite <- app_assoc | reflexivity | reflexivity].
Qed.

Lemma files_perform_all (w : World A) es :
  dom (w_files (perform_all w es))
  = dom (w_files w) ∪ list_to_set (put_paths es).
Proof.
  revert w. induction es as [|e es IH]; intros w.
  - cbn. now rewrite union_empty_r_L.
  - cbn [perform_all foldl]. fold (perform_all (perform w e) es). rewrite IH.
    destruct e; cbn; [reflexivity | reflexivity |].
    rewrite dom_insert_L. set_solver.
Qed.

Lemma dirs_perform_all (w : World A) es :
  w_dirs w ⊆ w_dirs (perform_all w es).
Proof.
  revert w. induction es as [|e es IH]; intros w; [reflexivity|].
  cbn [perform_all foldl]. fold (perform_all (perform w e) es).
  etransitivity; [|apply IH]. destruct e; cbn; set_solver.
Qed.

(** [ti < 0] as the sign of the numerator. *)
Lemma negative_Qnum ti : negative ti = (Qnum ti <? 0)%Z.
Proof.
  unfold negative, Qle_bool. cbn [Qnum Qden].
  destruct (Z.leb_spec (0 * Z.pos (Qden ti)) (Qnum ti * 1)),
           (Z.ltb_spec (Qnum ti) 0); cbn [negb]; try reflexivity; lia.
Qed.

(** A step of a field writer, as effects. *)
Lemma after_step_effects wrote (self : t A) fname gzip N bytes w ti tstamp :
  after_step wrote self fname gzip N bytes w (ti, tstamp)
  = perform_all w (timestep_effects wrote (dpath self) fname gzip N bytes ti tstamp).
Proof.
  unfold after_step, timestep_effects. rewrite negative_Qnum.
  destruct (Qnum ti <? 0)%Z; [reflexivity|].
  unfold after_write, perform_all, field_path, timestep_file, timestep_dir, tname.
  cbn [foldl perform w_files w_dirs w_stdout]. f_equal.
  case_bool_decide; [set_solver | reflexivity].
Qed.

Lemma for_each_effects {X} (items : list X) (body : X -> M St unit)
    (ev : X -> list (effect A)) (self : t A) :
  (forall x, x ∈ items -> forall w,
     body x (mkState self w) = (mkState self (perform_all w (ev x)), Ok tt)) ->
  forall w,
    for_each items body (mkState self w)
    = (mkState self (perform_all w (concat (map ev items))), Ok tt).
Proof.
  induction items as [|x items IH]; intros Hbody w; [reflexivity|].
  cbn [for_each map concat]. erewrite bind_ok by (apply Hbody; left).
  rewrite perform_all_app. apply IH.
  intros y Hy. apply Hbody. now right.
Qed.

(** The scalar writer, as effects. *)
Lemma _write_boundary_scalar_effects (self : t A) var :
  wf_dataset (ds self) -> length (plane_dims (ds self)) = 2 ->
  bndry_dims self = Some (plane_dims (ds self)) ->
  valid_var (ds self) var ->
  exists steps,
    var_steps (ds self) (plane_dims (ds self)) var steps
    /\ forall fname binary gzip w,
         _write_boundary_scalar fname var binary gzip (mkState self w)
         = (mkState self
              (perform_all w (scalar_effects (dpath self) fname binary gzip steps)),
            Ok tt).
Proof.
  intros Hwf Hlen Hbd (a & Ha & Hdt).
  destruct (scalar_steps_follow _ var a Hwf Hlen Ha Hdt) as (steps & Hs & Hf).
  destruct (steps_follow_timeline _ _ _ _ Hwf Hf) as (Htl & _).
  exists steps. split; [exists a; auto|].
  intros fname binary gzip w. unfold _write_boundary_scalar.
  erewrite bind_ok by reflexivity. cbn [st_self].
  erewrite bind_ok by (unfold lift; rewrite Hbd; reflexivity).
  erewrite bind_ok by (unfold lift; rewrite Hs; reflexivity).
  unfold scalar_effects.
  apply (for_each_effects steps
           (fun '(ti, tstamp, ui) => scalar_step fname binary gzip ti tstamp ui)).
  intros [[ti tstamp] ui] _ w0. rewrite scalar_step_run.
  unfold after_scalar_step. now rewrite after_step_effects.
Qed.

Lemma stack3_rows_eq (ui vi wi : list A) n :
  length ui = n -> length vi = n -> length wi = n ->
  stack3 ui vi wi = Ok (vector_rows ui vi wi).
Proof.
  intros H1 H2 H3. unfold stack3. now rewrite H1, H2, H3, Nat.eqb_refl.
Qed.

(** The vector writer, as effects. *)
Lemma _write_boundary_vector_effects (self : t A) (c1 c2 c3 : string) :
  wf_dataset (ds self) -> length (plane_dims (ds self)) = 2 ->
  bndry_dims self = Some (plane_dims (ds self)) ->
  Forall (valid_var (ds self)) [c1; c2; c3] ->
  exists s1 s2 s3,
    var_steps (ds self) (plane_dims (ds self)) c1 s1
    /\ var_steps (ds self) (plane_dims (ds self)) c2 s2
    /\ var_steps (ds self) (plane_dims (ds self)) c3 s3
    /\ forall fname binary gzip w,
         _write_boundary_vector fname [c1; c2; c3] binary gzip (mkState self w)
         = (mkState self
              (perform_all w
                 (vector_effects (dpath self) fname binary gzip s1 s2 s3)),
            Ok tt).
Proof.
  intros Hwf Hlen Hbd Hcomps.
  destruct (vector_steps_follow _ _ Hwf Hlen Hcomps) as (uvec & Hv & Hf).
  inversion Hf as [|? s1 ? ? (a1 & Ha1 & Hf1) Hg]; subst.
  inversion Hg as [|? s2 ? ? (a2 & Ha2 & Hf2) Hh]; subst.
  inversion Hh as [|? s3 ? ? (a3 & Ha3 & Hf3) Hi]; subst.
  inversion Hi; subst. clear Hf Hg Hh Hi.
  destruct (steps_follow_timeline _ _ _ _ Hwf Hf1) as (Htl1 & Hl1).
  destruct (steps_follow_timeline _ _ _ _ Hwf Hf2) as (Htl2 & Hl2).
  destruct (steps_follow_timeline _ _ _ _ Hwf Hf3) as (Htl3 & Hl3).
  set (n := dim_len (ds self) "datetime").
  set (N := size_of (map (dim_len (ds self)) (plane_dims (ds self)))) in *.
  destruct (zip_star_3 s1 s2 s3 n (proj1 Hf1) (proj1 Hf2) (proj1 Hf3))
    as (Hzl & Hz).
  exists s1, s2, s3.
  split; [exists a1; auto|]. split; [exists a2; auto|]. split; [exists a3; auto|].
  intros fname binary gzip w.
  set (ev := fun tuple : list (Q * Z * list A) =>
         match tuple with
         | [(ti, tstamp, ui); (_, _, vi); (_, _, wi)] =>
             timestep_effects MsgWroteVectors (dpath self) fname gzip
               (length (vector_rows ui vi wi))
               (vector_file binary (vector_rows ui vi wi)) ti tstamp
         | _ => []
         end).
  assert (Htuple : forall i tuple, zip_star [s1; s2; s3] !! i = Some tuple ->
            exists x1 x2 x3,
              tuple = [x1; x2; x3]
              /\ s1 !! i = Some x1 /\ s2 !! i = Some x2 /\ s3 !! i = Some x3
              /\ length (snd x1) = N /\ length (snd x2) = N /\ length (snd x3) = N).
  { intros i tuple Hi.
    assert (Hlt : i < n).
    { rewrite <- Hzl. eapply lookup_lt_Some; eauto. }
    destruct (lookup_lt_is_Some_2 s1 i ltac:(rewrite (proj1 Hf1); exact Hlt)) as [x1 E1].
    destruct (lookup_lt_is_Some_2 s2 i ltac:(rewrite (proj1 Hf2); exact Hlt)) as [x2 E2].
    destruct (lookup_lt_is_Some_2 s3 i ltac:(rewrite (proj1 Hf3); exact Hlt)) as [x3 E3].
    rewrite (Hz i x1 x2 x3 E1 E2 E3) in Hi. injection Hi as <-.
    exists x1, x2, x3. rewrite Forall_forall in Hl1, Hl2, Hl3.
    repeat split; auto.
    - apply Hl1. eapply list_elem_of_lookup_2; eauto.
    - apply Hl2. eapply list_elem_of_lookup_2; eauto.
    - apply Hl3. eapply list_elem_of_lookup_2; eauto. }
  assert (Hev : map ev (zip_star [s1; s2; s3])
                = zip_with (fun (step : Q * Z * list A) (vw : list A * list A) =>
                              let rows := vector_rows step.2 vw.1 vw.2 in
                              timestep_effects MsgWroteVectors (dpath self) fname gzip
                                (length rows) (vector_file binary rows)
                                step.1.1 step.1.2)
                           s1 (zip (map snd s2) (map snd s3))).
  { apply list_eq. intros i. rewrite map_fmap, list_lookup_fmap.
    rewrite lookup_zip_with, lookup_zip_with, !map_fmap, !list_lookup_fmap.
    destruct (zip_star [s1; s2; s3] !! i) as [tuple|] eqn:Ei.
    - destruct (Htuple i tuple Ei)
        as ([[ti ts] ui] & [[q2 z2] vi] & [[q3 z3] wi] & -> & E1 & E2 & E3 & _).
      rewrite E1, E2, E3. reflexivity.
    - apply lookup_ge_None_1 in Ei. rewrite Hzl in Ei.
      rewrite (lookup_ge_None_2 s1) by (rewrite (proj1 Hf1); exact Ei).
      reflexivity. }
  unfold _write_boundary_vector.
  erewrite bind_ok by reflexivity. cbn [st_self].
  erewrite bind_ok by (unfold lift; rewrite Hbd; reflexivity).
  erewrite bind_ok by (unfold lift; rewrite Hv; reflexivity).
  assert (Hgoal : vector_effects (dpath self) fname binary gzip s1 s2 s3
                  = concat (map ev (zip_star [s1; s2; s3])))
    by (unfold vector_effects; now rewrite Hev).
  rewrite Hgoal. apply for_each_effects.
  intros tuple Hin w0. apply list_elem_of_lookup in Hin as [i Hi].
  destruct (Htuple i tuple Hi)
    as ([[ti tstamp] ui] & [[q2 z2] vi] & [[q3 z3] wi] & -> & _ & _ & _ & L1 & L2 & L3).
  cbn [snd] in L1, L2, L3.
  pose proof (stack3_rows_eq ui vi wi N L1 L2 L3) as Hd.
  rewrite (vector_step_run _ _ _ _ _ _ _ _ _ _ _ Hd (stack3_rows _ _ _ _ Hd)).
  unfold after_vector_step. now rewrite after_step_effects.
Qed.
End EffectFacts.

Section WriteEffects.
Context {A : Type} `{!DType A}.
Import BoundaryCoupling.
Implicit Types (d : Dataset A).
Local Abbreviation St := (State A (BoundaryCoupling.t A)).

Lemma valid_var_in_variables d var :
  valid_var d var -> in_variables var d = true.
Proof.
  intros (a & Ha & _). unfold in_variables.
  rewrite bool_decide_eq_true_2 by (rewrite Ha; eauto). reflexivity.
Qed.

(** [write] before its loop over the fields: the in-plane dimensions are
    stored, the note is printed if it applies, and the points are written. *)
Lemma write_nil_effects (self : t A) binary gzip :
  wf_dataset (ds self) -> length (plane_dims (ds self)) = 2 ->
  exists pts,
    length pts = size_of (grid_shape (ds self))
    /\ points_follow_grid (ds self) pts
    /\ forall w,
         write [] binary gzip (mkState self w)
         = (mkState (set_bndry_dims self (plane_dims (ds self)))
              (perform_all w (note_effects binary gzip
                              ++ points_effects (dpath self) binary gzip pts)),
            Ok tt).
Proof.
  intros Hwf Hlen.
  destruct (points_spec _ Hwf) as (pts & Hpts & Hlp & Hrows & Hgrid).
  exists pts. split; [exact Hlp|]. split.
  { intros k Hk. rewrite Hlp in Hk. apply (Hgrid 0 k Hk). }
  intros w.
  pose proof (wf_has_datetime _ Hwf) as Hdt.
  destruct (list_remove_elem _ _ Hdt) as (l' & Hrm & Hl').
  assert (Hfilter : List.filter (fun dim => bool_decide (dim ∈ l')) ["x"; "y"; "height"]
                    = plane_dims (ds self)).
  { unfold plane_dims. simpl.
    assert (Hx : "x" ∈ l' <-> "x" ∈ dims (ds self)) by (apply Hl'; discriminate).
    assert (Hy : "y" ∈ l' <-> "y" ∈ dims (ds self)) by (apply Hl'; discriminate).
    assert (Hz : "height" ∈ l' <-> "height" ∈ dims (ds self))
      by (apply Hl'; discriminate).
    rewrite (bool_decide_ext _ _ Hx), (bool_decide_ext _ _ Hy),
            (bool_decide_ext _ _ Hz).
    reflexivity. }
  unfold write.
  assert (H1 : (if binary && gzip then print MsgCompressedBinary else ret tt)
                 (mkState self w)
               = (mkState self (perform_all w (note_effects binary gzip)), Ok tt)).
  { unfold note_effects. destruct (binary && gzip); [reflexivity|].
    destruct w; reflexivity. }
  erewrite bind_ok by exact H1.
  erewrite bind_ok by reflexivity.
  erewrite bind_ok by (unfold lift; cbn [st_self]; rewrite Hrm; reflexivity).
  erewrite bind_ok by reflexivity.
  rewrite Hfilter. cbn [st_world].
  erewrite bind_ok by (unfold assert; rewrite Hlen; reflexivity).
  erewrite bind_ok.
  2:{ apply (_write_points_run _ _ _ pts); [exact Hpts | exact Hrows]. }
  cbn [for_each ret]. rewrite perform_all_app. reflexivity.
Qed.

(** The loop of [write] over valid fields, as effects. *)
Lemma write_fields_effects (self : t A) fields binary gzip :
  wf_dataset (ds self) -> length (plane_dims (ds self)) = 2 ->
  bndry_dims self = Some (plane_dims (ds self)) ->
  Forall (valid_field (ds self)) fields ->
  exists outs,
    Forall2 (field_effects (var_steps (ds self) (plane_dims (ds self)))
                           (dpath self) binary gzip) fields outs
    /\ forall w,
         for_each fields
           (fun '(fieldname, dvars) =>
              self <- get_self ;;
              match dvars with
              | VectorVars dvars =>
                  assert (forallb (fun dvar => in_variables dvar (ds self)) dvars)
                         (A_all_components dvars) ;;
                  assert (length dvars =? 3) A_three_components ;;
                  _write_boundary_vector fieldname dvars binary gzip
              | ScalarVar dvar =>
                  assert (in_variables dvar (ds self)) (A_scalar_var dvar) ;;
                  _write_boundary_scalar fieldname dvar binary gzip
              end) (mkState self w)
         = (mkState self (perform_all w (concat outs)), Ok tt).
Proof.
  intros Hwf Hlen Hbd Hfields.
  induction Hfields as [|[fname dvars] fields Hf _ (outs & Hrel & Hrun)].
  - exists []. split; [constructor | reflexivity].
  - unfold valid_field in Hf. cbn [snd] in Hf. destruct dvars as [var|l].
    + destruct (_write_boundary_scalar_effects self var Hwf Hlen Hbd Hf)
        as (steps & Hsteps & Hs).
      exists (scalar_effects (dpath self) fname binary gzip steps :: outs).
      split; [constructor; [now constructor | exact Hrel]|].
      intros w. cbn [for_each concat].
      erewrite bind_ok.
      2:{ erewrite bind_ok by reflexivity. cbn [st_self].
          erewrite bind_ok
            by (unfold assert; rewrite (valid_var_in_variables _ _ Hf); reflexivity).
          apply Hs. }
      rewrite perform_all_app. apply Hrun.
    + destruct Hf as [Hl3 Hall].
      destruct l as [|c1 [|c2 [|c3 [|]]]]; try discriminate.
      destruct (_write_boundary_vector_effects self c1 c2 c3 Hwf Hlen Hbd Hall)
        as (s1 & s2 & s3 & H1 & H2 & H3 & Hv).
      exists (vector_effects (dpath self) fname binary gzip s1 s2 s3 :: outs).
      split; [constructor; [now constructor | exact Hrel]|].
      intros w. cbn [for_each concat].
      erewrite bind_ok.
      2:{ erewrite bind_ok by reflexivity. cbn [st_self].
          inversion Hall as [|? ? V1 Hall1]; subst.
          inversion Hall1 as [|? ? V2 Hall2]; subst.
          inversion Hall2 as [|? ? V3 _]; subst.
          erewrite bind_ok.
          2:{ unfold assert. cbn [forallb].
              rewrite (valid_var_in_variables _ _ V1),
                      (valid_var_in_variables _ _ V2),
                      (valid_var_in_variables _ _ V3). reflexivity. }
          erewrite bind_ok by reflexivity.
          apply Hv. }
      rewrite perform_all_app. apply Hrun.
Qed.

(** A call of [write] with valid fields, as effects: the note if it
    applies, the points file, then every field in the order of [fields],
    timestep by timestep. *)
Lemma write_effects (self : t A) fields binary gzip :
  wf_dataset (ds self) -> length (plane_dims (ds self)) = 2 ->
  Forall (valid_field (ds self)) fields ->
  exists pts outs,
    length pts = size_of (grid_shape (ds self))
    /\ points_follow_grid (ds self) pts
    /\ Forall2 (field_effects (var_steps (ds self) (plane_dims (ds self)))
                              (dpath self) binary gzip) fields outs
    /\ forall w,
         write fields binary gzip (mkState self w)
         = (mkState (set_bndry_dims self (plane_dims (ds self)))
              (perform_all w (note_effects binary gzip
                              ++ points_effects (dpath self) binary gzip pts
                              ++ concat outs)),
            Ok tt).
Proof.
  intros Hwf Hlen Hfields.
  destruct (write_nil_effects self binary gzip Hwf Hlen)
    as (pts & Hlp & Hgrid & Hnil).
  destruct (write_fields_effects (set_bndry_dims self (plane_dims (ds self)))
              fields binary gzip Hwf Hlen eq_refl Hfields)
    as (outs & Hrel & Hloop).
  exists pts, outs. split; [exact Hlp|]. split; [exact Hgrid|].
  split; [exact Hrel|]. intros w.
  rewrite write_as_loop. erewrite bind_ok by apply Hnil.
  rewrite Hloop. now rewrite app_assoc, !perform_all_app.
Qed.
End WriteEffects.

(** ** BoundaryCoupling: what a call of write prints and which files it makes *)

Section OutputFacts.
Context {A : Type} `{!DType A}.
Import BoundaryCoupling.
Implicit Types (d : Dataset A).

Lemma printed_app (es1 es2 : list (effect A)) :
  printed (es1 ++ es2) = (printed es1 ++ printed es2)%list.
Proof. apply omap_app. Qed.

Lemma put_paths_app (es1 es2 : list (effect A)) :
  put_paths (es1 ++ es2) = (put_paths es1 ++ put_paths es2)%list.
Proof. apply omap_app. Qed.

Lemma retained_files_cons dpath fname gzip (step : Q * Z) steps :
  retained_files dpath fname gzip (step :: steps)
  = (retained_files dpath fname gzip [step]
     ++ retained_files dpath fname gzip steps)%list.
Proof.
  unfold retained_files. cbn [List.filter].
  destruct (negb (Qnum step.1 <? 0)%Z); reflexivity.
Qed.

(** The lines and the files of a loop over timesteps. *)
Lemma steps_output {X} (wrote : nat -> string -> Z -> message A)
    dpath fname gzip N (items : list X) (time_of : X -> Q * Z)
    (ev : X -> list (effect A)) :
  (forall x, x ∈ items ->
     exists bytes, ev x = timestep_effects wrote dpath fname gzip N bytes
                            (time_of x).1 (time_of x).2) ->
  printed (concat (map ev items))
  = map (timestep_line wrote dpath fname N) (map time_of items)
  /\ put_paths (concat (map ev items))
     = retained_files dpath fname gzip (map time_of items).
Proof.
  induction items as [|x items IH]; intros Hev; [split; reflexivity|].
  destruct IH as [IH1 IH2]; [intros y Hy; apply Hev; now right|].
  destruct (Hev x ltac:(left)) as (bytes & Hx).
  cbn [map concat]. rewrite printed_app, put_paths_app, IH1, IH2, Hx.
  rewrite (retained_files_cons _ _ _ (time_of x)).
  unfold timestep_effects, timestep_line, retained_files. cbn [List.filter].
  destruct (Qnum (time_of x).1 <? 0)%Z; split; reflexivity.
Qed.

Lemma length_vector_rows (ui vi wi : list A) n :
  length ui = n -> length vi = n -> length wi = n ->
  length (vector_rows ui vi wi) = n.
Proof.
  intros H1 H2 H3. unfold vector_rows. rewrite !length_zip_with. lia.
Qed.

(** The lines and the files of one entry of [fields]. *)
Lemma field_output d dpath binary gzip field out :
  wf_dataset d ->
  field_effects (var_steps d (plane_dims d)) dpath binary gzip field out ->
  printed out
  = map (timestep_line (wrote_of field.2) dpath field.1
           (size_of (map (dim_len d) (plane_dims d))))
        (timeline d)
  /\ put_paths out = retained_files dpath field.1 gzip (timeline d).
Proof.
  intros Hwf Hfield.
  destruct Hfield as [fname var steps (a & Ha & Htl & Hf)
                     |fname c1 c2 c3 s1 s2 s3 (a1 & Ha1 & Htl1 & Hf1)
                        (a2 & Ha2 & Htl2 & Hf2) (a3 & Ha3 & Htl3 & Hf3)].
  - destruct (steps_follow_timeline _ _ _ _ Hwf Hf) as (_ & Hl).
    rewrite Forall_forall in Hl. cbn [fst snd wrote_of]. rewrite <- Htl.
    apply (steps_output MsgWroteScalars dpath fname gzip _ steps fst).
    intros x Hx. rewrite <- (Hl x Hx). eexists. reflexivity.
  - destruct (steps_follow_timeline _ _ _ _ Hwf Hf1) as (_ & Hl1).
    destruct (steps_follow_timeline _ _ _ _ Hwf Hf2) as (_ & Hl2).
    destruct (steps_follow_timeline _ _ _ _ Hwf Hf3) as (_ & Hl3).
    rewrite Forall_forall in Hl1, Hl2, Hl3. cbn [fst snd wrote_of].
    unfold vector_effects. rewrite zip_with_zip.
    assert (Htimes : map (fun x : (Q * Z * list A) * (list A * list A) => x.1.1)
                       (zip s1 (zip (map snd s2) (map snd s3)))
                     = timeline d).
    { rewrite <- Htl1, !map_fmap.
      rewrite <- (fst_zip s1 (zip (snd <$> s2) (snd <$> s3))) at 2.
      - now rewrite <- list_fmap_compose.
      - rewrite length_zip_with, !length_fmap.
        rewrite (proj1 Hf1), (proj1 Hf2), (proj1 Hf3). lia. }
    rewrite <- Htimes, <- map_fmap.
    apply (steps_output MsgWroteVectors dpath fname gzip _ _
             (fun x : (Q * Z * list A) * (list A * list A) => x.1.1)).
    intros [step [vi wi]] Hx. cbn [uncurry fst snd].
    pose proof (elem_of_zip_l _ _ _ _ Hx) as H1.
    pose proof (elem_of_zip_r _ _ _ _ Hx) as H23.
    pose proof (elem_of_zip_l _ _ _ _ H23) as H2.
    pose proof (elem_of_zip_r _ _ _ _ H23) as H3.
    rewrite map_fmap in H2, H3.
    apply list_elem_of_fmap in H2 as (x2 & -> & H2).
    apply list_elem_of_fmap in H3 as (x3 & -> & H3).
    rewrite (length_vector_rows _ _ _ _ (Hl1 _ H1) (Hl2 _ H2) (Hl3 _ H3)).
    eexists. reflexivity.
Qed.

(** The lines and the files of all entries of [fields]. *)
Lemma fields_output d dpath binary gzip fields outs :
  wf_dataset d ->
  Forall2 (field_effects (var_steps d (plane_dims d)) dpath binary gzip)
          fields outs ->
  printed (concat outs)
  = concat (map (fun field : string * dvars_spec =>
                   map (timestep_line (wrote_of field.2) dpath field.1
                          (size_of (map (dim_len d) (plane_dims d))))
                       (timeline d))
                fields)
  /\ put_paths (concat outs)
     = concat (map (fun field : string * dvars_spec =>
                      retained_files dpath field.1 gzip (timeline d))
                   fields).
Proof.
  intros Hwf. induction 1 as [|field out fields outs Hfield _ [IH1 IH2]];
    [split; reflexivity|].
  destruct (field_output _ _ _ _ _ _ Hwf Hfield) as [H1 H2].
  cbn [map concat]. now rewrite printed_app, put_paths_app, IH1, IH2, H1, H2.
Qed.

Lemma field_effects_impl (P Q : string -> list (Q * Z * list A) -> Prop)
    dpath binary gzip field out :
  (forall var steps, P var steps -> Q var steps) ->
  field_effects P dpath binary gzip field out ->
  field_effects Q dpath binary gzip field out.
Proof. intros HPQ [|]; constructor; auto. Qed.

(** Values laid out over the in-plane dimensions are values at the
    points. *)
Lemma var_steps_at_points d pts var steps :
  wf_dataset d -> length (plane_dims d) = 2 ->
  length pts = size_of (grid_shape d) ->
  var_steps d (plane_dims d) var steps -> var_at_points d pts var steps.
Proof.
  intros Hwf Hlen Hlp (a & Ha & Htl & Hf).
  destruct (plane_dims_cases d Hwf Hlen)
    as (p0 & p1 & m & Hbd & Hp0 & Hp1 & Hne & Hm & Hcases).
  exists a. split; [exact Ha|]. split; [exact Htl|].
  rewrite Hbd in Hf. eapply steps_follow_points; eauto.
  intros dm Hdm. destruct (wf_data_vars _ Hwf var a Ha) as [_ Hin].
  rewrite Forall_forall in Hin. eapply dims_of_plane; eauto.
Qed.

Lemma grid_size_plane d :
  wf_dataset d -> length (plane_dims d) = 2 ->
  size_of (map (dim_len d) (plane_dims d)) = size_of (grid_shape d).
Proof.
  intros Hwf Hlen.
  destruct (plane_dims_cases d Hwf Hlen)
    as (p0 & p1 & m & Hbd & Hp0 & Hp1 & Hne & Hm & Hcases).
  rewrite Hbd.
  symmetry. apply (proj1 (plane_env_point_env d p0 p1 m 0 0 Hbd Hp0 Hp1 Hm Hcases)).
Qed.
End OutputFacts.

Section OrderClaims.
Context {A : Type} `{!DType A}.
Import BoundaryCoupling.

(** C1. [write] stores the in-plane dimensions as [x, y, height] filtered
    to the dimensions present, and on fields of data variables along
    datetime it returns after exactly these effects, in this order: the
    note on compressed binary output if it applies; the points file,
    holding the rows [pts] of the grid of the three coordinates in C order
    (x outermost, height innermost, one value along the normal); then,
    field by field and timestep by timestep, a skip line, or the directory
    and the file of the timestep and its report.  The file of a scalar
    field holds the payload of its timestep, the file of a vector field the
    rows of the payloads of its three components, and every payload has one
    value per point, its [k]-th value being the item of the variable at the
    [k]-th point of [pts]. *)
Theorem write_points_and_fields_share_order (self : t A) fields binary gzip :
  wf_dataset (ds self) -> length (plane_dims (ds self)) = 2 ->
  Forall (valid_field (ds self)) fields ->
  exists pts outs,
    length pts = size_of (grid_shape (ds self))
    /\ points_follow_grid (ds self) pts
    /\ Forall2 (field_effects (var_at_points (ds self) pts)
                              (dpath self) binary gzip) fields outs
    /\ forall w,
         write fields binary gzip (mkState self w)
         = (mkState (set_bndry_dims self (plane_dims (ds self)))
              (perform_all w (note_effects binary gzip
                              ++ points_effects (dpath self) binary gzip pts
                              ++ concat outs)),
            Ok tt).
Proof.
  intros Hwf Hlen Hfields.
  destruct (write_effects self fields binary gzip Hwf Hlen Hfields)
    as (pts & outs & Hlp & Hgrid & Houts & Hrun).
  exists pts, outs. split; [exact Hlp|]. split; [exact Hgrid|].
  split; [|exact Hrun].
  eapply Forall2_impl; [exact Houts|]. intros field out.
  apply field_effects_impl. intros var steps.
  now apply var_steps_at_points.
Qed.
End OrderClaims.

Section BroadcastWritten.
Context {A : Type} `{!DType A}.
Import BoundaryCoupling.

(** C2. For a data variable [var] along datetime that lacks the in-plane
    dimension [m]: [add_missing_dim] replaces it by its expansion, whose
    leading axis [m] has the length of [m] in the dataset and whose slices
    along that axis all hold the values of the variable unchanged, so that
    an item of the expansion is the item of the variable at the same index
    without [m].  Written as a scalar field, or as any component of a
    vector field, the variable has one timestep per datetime, and the
    payload of every timestep in the field file has one value per in-plane
    point, the same at any two points that differ only along [m]. *)
Theorem broadcast_repeats_field_values (self : t A) var a (m : string)
    fname binary gzip :
  wf_dataset (ds self) -> length (plane_dims (ds self)) = 2 ->
  ds_data_vars (ds self) !! var = Some a -> "datetime" ∈ nd_dims a ->
  m ∈ plane_dims (ds self) -> m ∉ nd_dims a ->
  add_missing_dim (ds self) m var (ds_data_vars (ds self))
  = Ok (<[var := expand_dims m (dim_len (ds self) m) a]> (ds_data_vars (ds self)))
  /\ iter_first_axis (expand_dims m (dim_len (ds self) m) a)
     = Ok (replicate (dim_len (ds self) m) (nd_values a))
  /\ (forall env,
        Forall (fun dm => env dm < dim_len (ds self) dm) (m :: nd_dims a) ->
        sel_item (expand_dims m (dim_len (ds self) m) a) env = sel_item a env)
  /\ (exists pts steps,
        length steps = dim_len (ds self) "datetime"
        /\ map fst steps = timeline (ds self)
        /\ repeats_along (ds self) (plane_dims (ds self)) m a steps
        /\ forall w,
             write [(fname, ScalarVar var)] binary gzip (mkState self w)
             = (mkState (set_bndry_dims self (plane_dims (ds self)))
                  (perform_all w
                     (note_effects binary gzip
                      ++ points_effects (dpath self) binary gzip pts
                      ++ scalar_effects (dpath self) fname binary gzip steps)),
                Ok tt))
  /\ (forall c1 c2 c3 i,
        Forall (valid_var (ds self)) [c1; c2; c3] ->
        [c1; c2; c3] !! i = Some var ->
        exists pts s1 s2 s3 steps,
          [s1; s2; s3] !! i = Some steps
          /\ length steps = dim_len (ds self) "datetime"
          /\ map fst steps = timeline (ds self)
          /\ repeats_along (ds self) (plane_dims (ds self)) m a steps
          /\ forall w,
               write [(fname, VectorVars [c1; c2; c3])] binary gzip
                     (mkState self w)
               = (mkState (set_bndry_dims self (plane_dims (ds self)))
                    (perform_all w
                       (note_effects binary gzip
                        ++ points_effects (dpath self) binary gzip pts
                        ++ vector_effects (dpath self) fname binary gzip
                             s1 s2 s3)),
                  Ok tt)).
Proof.
  intros Hwf Hlen Ha Hdt Hm Hnot.
  destruct (wf_data_vars _ Hwf var a Ha) as [Hwfa _].
  assert (Hpd : plane_dim (ds self) m).
  { unfold plane_dims in Hm. apply list_elem_of_In, filter_In in Hm as [H1 H2].
    split; [now apply list_elem_of_In | now apply bool_decide_eq_true in H2]. }
  destruct (plane_dim_len (ds self) m Hwf Hpd) as (c & Hc & Hl).
  split.
  { unfold add_missing_dim, ds_getitem. rewrite Ha. simpl.
    rewrite bool_decide_eq_false_2 by exact Hnot. rewrite Hc. simpl.
    now rewrite Hl. }
  split. { apply expand_dims_slices. apply Hwfa. }
  split.
  { intros env Henv. inversion Henv; subst.
    now apply (expand_dims_sel (dim_len (ds self))). }
  split.
  { destruct (write_effects self [(fname, ScalarVar var)] binary gzip Hwf Hlen)
      as (pts & outs & _ & _ & Houts & Hrun).
    { repeat constructor. exists a. split; assumption. }
    inversion Houts as [|? out ? outs' Hout Hnil]; subst.
    inversion Hnil; subst. clear Houts Hnil.
    inversion Hout as [? ? steps (a' & Ha' & Htl & Hf)|]; subst.
    assert (a' = a) by congruence. subst a'.
    exists pts, steps. split; [exact (proj1 Hf)|]. split; [exact Htl|].
    split; [now apply steps_follow_repeats|].
    intros w. rewrite Hrun. cbn [concat]. now rewrite app_nil_r. }
  intros c1 c2 c3 i Hcomps Hi.
  destruct (write_effects self [(fname, VectorVars [c1; c2; c3])] binary gzip
              Hwf Hlen)
    as (pts & outs & _ & _ & Houts & Hrun).
  { constructor; [split; [reflexivity | exact Hcomps] | constructor]. }
  inversion Houts as [|? out ? outs' Hout Hnil]; subst.
  inversion Hnil; subst. clear Houts Hnil.
  inversion Hout as [|? ? ? ? s1 s2 s3 H1 H2 H3]; subst.
  assert (Hsteps : exists steps,
            [s1; s2; s3] !! i = Some steps
            /\ var_steps (ds self) (plane_dims (ds self)) var steps).
  { destruct i as [|[|[|i]]]; cbn in Hi; try discriminate;
      injection Hi as <-; eexists; (split; [reflexivity|assumption]). }
  destruct Hsteps as (steps & Hst & a' & Ha' & Htl & Hf).
  assert (a' = a) by congruence. subst a'.
  exists pts, s1, s2, s3, steps. split; [exact Hst|].
  split; [exact (proj1 Hf)|]. split; [exact Htl|].
  split; [now apply steps_follow_repeats|].
  intros w. rewrite Hrun. cbn [concat]. now rewrite app_nil_r.
Qed.
End BroadcastWritten.

Section SkipWritten.
Context {A : Type} `{!DType A}.
Import BoundaryCoupling.

(** C3 as amended. A timestep is skipped when its t_index, the time of its
    timestamp after the reference date, is negative, that is when the
    timestamp is earlier than the reference date.  A call of [write] on
    fields of data variables along datetime returns, and then: it has
    printed, after the note on compressed binary output if any and the
    report of the points, one line per field and timestep, in order, a
    skip line for a timestep with a negative t_index and a report naming
    the file [dpath/'{:g}'.format(t_index)/fieldname] for any other; the
    files it has created or replaced are exactly the points file and the
    files so named of the retained timesteps, which all exist afterwards.
    Retained timesteps whose t_index format alike are written to the same
    file. *)
Theorem negative_timesteps_skipped (self : t A) fields binary gzip w :
  wf_dataset (ds self) -> length (plane_dims (ds self)) = 2 ->
  Forall (valid_field (ds self)) fields ->
  (forall ts ref : Z,
     (Qnum ((ts - ref) # one_second) <? 0)%Z = bool_decide (ts < ref)%Z)
  /\ exists s',
       write fields binary gzip (mkState self w) = (s', Ok tt)
       /\ w_stdout (st_world s')
          = (w_stdout w ++ printed (note_effects binary gzip)
             ++ [MsgWrotePoints (size_of (grid_shape (ds self)))
                                (path_join (dpath self) "points")]
             ++ concat (map (fun field : string * dvars_spec =>
                               map (timestep_line (wrote_of field.2) (dpath self)
                                      field.1 (size_of (grid_shape (ds self))))
                                   (timeline (ds self)))
                            fields))%list
       /\ dom (w_files (st_world s'))
          = dom (w_files w)
            ∪ {[opened_path (path_join (dpath self) "points") gzip]}
            ∪ list_to_set
                (concat (map (fun field : string * dvars_spec =>
                                retained_files (dpath self) field.1 gzip
                                               (timeline (ds self)))
                             fields))
       /\ forall (field : string * dvars_spec) (step : Q * Z),
            field ∈ fields -> step ∈ timeline (ds self) ->
            (0 <= Qnum step.1)%Z ->
            is_Some (w_files (st_world s')
                       !! opened_path (timestep_file (dpath self) field.1 step.1)
                                      gzip).
Proof.
  intros Hwf Hlen Hfields. split.
  { intros ts ref. cbn [Qnum].
    destruct (Z.ltb_spec (ts - ref) 0); case_bool_decide; try reflexivity; lia. }
  destruct (write_effects self fields binary gzip Hwf Hlen Hfields)
    as (pts & outs & Hlp & _ & Houts & Hrun).
  destruct (fields_output _ _ _ _ _ _ Hwf Houts) as [Hlines Hpaths].
  rewrite (grid_size_plane _ Hwf Hlen) in Hlines.
  eexists. split; [apply Hrun|]. cbn [st_world].
  assert (Hdom : dom (w_files
                   (perform_all w
                      (note_effects binary gzip
                       ++ points_effects (dpath self) binary gzip pts
                       ++ concat outs)))
                 = dom (w_files w)
                   ∪ {[opened_path (path_join (dpath self) "points") gzip]}
                   ∪ list_to_set
                       (concat (map (fun field : string * dvars_spec =>
                                       retained_files (dpath self) field.1 gzip
                                                      (timeline (ds self)))
                                    fields))).
  { rewrite files_perform_all, !put_paths_app, Hpaths.
    assert (Hnote : put_paths (note_effects (A:=A) binary gzip) = [])
      by (unfold note_effects; destruct (binary && gzip); reflexivity).
    rewrite Hnote. cbn [app points_effects put_paths omap list_to_set].
    set_solver. }
  split; [|split; [exact Hdom|]].
  - rewrite stdout_perform_all, !printed_app, Hlines.
    cbn [points_effects printed omap app]. now rewrite Hlp.
  - intros field step Hfield Hstep Hpos. apply elem_of_dom. rewrite Hdom.
    apply elem_of_union_r, elem_of_list_to_set, list_elem_of_In, in_concat.
    exists (retained_files (dpath self) field.1 gzip (timeline (ds self))).
    split.
    { apply in_map_iff. exists field. split; [reflexivity|].
      now apply list_elem_of_In. }
    unfold retained_files. apply in_map_iff. exists step.
    split; [reflexivity|]. apply filter_In. split; [now apply list_elem_of_In|].
    destruct (Z.ltb_spec (Qnum step.1) 0); [lia | reflexivity].
Qed.
End SkipWritten.

(** The fields written in the scenarios are fields of data variables along
    datetime. *)
Lemma west_fields_valid dateref :
  Forall (valid_field (Scenario.west_at dateref))
         [("T", ScalarVar "theta"); ("U", VectorVars ["u"; "v"; "w"])].
Proof.
  repeat constructor; cbn [valid_field snd];
    try (eexists; split; [reflexivity | compute_done]).
Qed.

(** The hypotheses of [write_points_and_fields_share_order] hold for the
    writer of the west boundary and the fields T and U. *)
Lemma write_points_and_fields_share_order_witness :
  exists pts outs,
    length pts = 6
    /\ points_follow_grid Scenario.west pts
    /\ Forall2 (field_effects (var_at_points Scenario.west pts)
                              "out/west" false false)
               [("T", ScalarVar "theta"); ("U", VectorVars ["u"; "v"; "w"])]
               outs
    /\ forall w,
         BoundaryCoupling.write
           [("T", ScalarVar "theta"); ("U", VectorVars ["u"; "v"; "w"])]
           false false (mkState (Scenario.west_writer Scenario.T0) w)
         = (mkState (Scenario.west_writer Scenario.T0)
              (perform_all w (points_effects "out/west" false false pts
                              ++ concat outs)),
            Ok tt).
Proof.
  exact (write_points_and_fields_share_order
           (Scenario.west_writer Scenario.T0)
           [("T", ScalarVar "theta"); ("U", VectorVars ["u"; "v"; "w"])]
           false false (west_wf Scenario.T0) west_plane
           (west_fields_valid Scenario.T0)).
Defined.

(** The hypotheses of [broadcast_repeats_field_values] hold for the field u
    of the west boundary, which is constant along x: written as a scalar
    field, each of its two timesteps repeats its values along x. *)
Lemma broadcast_repeats_field_values_witness :
  exists pts steps,
    length steps = 2
    /\ map fst steps = BoundaryCoupling.timeline Scenario.west
    /\ repeats_along Scenario.west ["x"; "height"] "x"
         (mkND ["datetime"; "height"] [2; 3]
               (map F64.Fin [21; 22; 23; 24; 25; 26]%Z))
         steps
    /\ forall w,
         BoundaryCoupling.write [("U", ScalarVar "u")] false false
           (mkState (Scenario.west_writer Scenario.T0) w)
         = (mkState (Scenario.west_writer Scenario.T0)
              (perform_all w
                 (points_effects "out/west" false false pts
                  ++ scalar_effects "out/west" "U" false false steps)),
            Ok tt).
Proof.
  refine (proj1 (proj2 (proj2 (proj2
    (broadcast_repeats_field_values (Scenario.west_writer Scenario.T0) "u"
       (mkND ["datetime"; "height"] [2; 3]
             (map F64.Fin [21; 22; 23; 24; 25; 26]%Z)) "x" "U" false false
       (west_wf Scenario.T0) west_plane _ _ _ _))))).
  - reflexivity.
  - compute_done.
  - compute_done.
  - compute_done.
Defined.

(** The file of u at the first timestep of the west boundary: the values
    21, 22, 23 over the heights, once for each of the two values of x. *)
Lemma west_u_repeated :
  w_files (st_world (fst
    (BoundaryCoupling.write [("U", ScalarVar "u")] false false
       (mkState (Scenario.west_writer Scenario.T0) empty_world))))
  !! "out/west/0/U"
  = Some (Plain (BoundaryCoupling.scalar_file false
                   (map F64.Fin [21; 22; 23; 21; 22; 23]%Z))).
Proof. vm_compute. reflexivity. Qed.

(** C3 (as worded): on the west boundary with timestamps 1000000 s and
    1000001 s after the reference date, both timesteps of theta are
    retained and reported, yet the call leaves one field file: both are
    written to out/west/1e+06/T, a directory that is not named by the
    t_index of the second, and the file holds the values of the second. *)
Lemma retained_timesteps_share_file_counterexample :
  exists s,
    Scenario.late_run [("T", ScalarVar "theta")] false false = inl (s, Ok tt)
    /\ ds_t_index (BoundaryCoupling.ds (st_self s))
       = Some [1000000000000000 # 1000000000; 1000001000000000 # 1000000000]
    /\ w_stdout (st_world s)
       = [MsgBoundary "y" (inl (F64.Fin 1234567));
          MsgWrotePoints 6 "out/west/points";
          MsgWroteScalars 6 "out/west/1e+06/T" 1578836800000000000;
          MsgWroteScalars 6 "out/west/1e+06/T" 1578836801000000000]
    /\ dom (w_files (st_world s)) = {["out/west/points"; "out/west/1e+06/T"]}
    /\ w_files (st_world s) !! "out/west/1e+06/T"
       = Some (Plain (BoundaryCoupling.scalar_file false
                        (map F64.Fin [7; 9; 11; 8; 10; 12]%Z))).
Proof.
  eexists. split; [vm_compute; reflexivity|].
  repeat split; vm_compute; reflexivity.
Qed.

(** The hypotheses of [negative_timesteps_skipped] hold for the writer of the
    west boundary whose reference date is one hour after the first
    timestamp: writing theta prints a skip for the first timestep and a
    report for the second, and creates the points file and the file of the
    second timestep only. *)
Lemma negative_timesteps_skipped_witness :
  exists s',
    BoundaryCoupling.write [("T", ScalarVar "theta")] false false
      (mkState (Scenario.west_writer (Scenario.T0 + Scenario.hour)) empty_world)
    = (s', Ok tt)
    /\ w_stdout (st_world s')
       = [MsgWrotePoints 6 "out/west/points";
          MsgSkipping (-3600000000000 # 1000000000);
          MsgWroteScalars 6 "out/west/0/T" (Scenario.T0 + Scenario.hour)]
    /\ dom (w_files (st_world s')) = {["out/west/points"; "out/west/0/T"]}.
Proof.
  destruct (negative_timesteps_skipped
              (Scenario.west_writer (Scenario.T0 + Scenario.hour))
              [("T", ScalarVar "theta")] false false empty_world
              (west_wf _) eq_refl)
    as (_ & s' & Hrun & Hout & Hdom & _).
  { repeat constructor. eexists. split; [reflexivity | compute_done]. }
  exists s'. split; [exact Hrun|]. split.
  - rewrite Hout. vm_compute. reflexivity.
  - rewrite Hdom. vm_compute. reflexivity.
Defined.

(** Writing theta and then a vector of two components at the west boundary:
    the call fails on the vector, after the points file and both files of
    theta were written. *)
Lemma write_shape_error_keeps_output_witness :
  exists s1,
    BoundaryCoupling.write
      [("T", ScalarVar "theta"); ("U", VectorVars ["u"; "v"])] false false
      (mkState (Scenario.west_writer Scenario.T0) empty_world)
    = (s1, Raise (AssertionError A_three_components))
    /\ is_Some (w_files (st_world s1) !! "out/west/points").
Proof.
  eexists.
  refine (write_shape_error_keeps_output
            (Scenario.west_writer Scenario.T0) empty_world
            [("T", ScalarVar "theta")] "U" (VectorVars ["u"; "v"]) []
            false false _ A_three_components _ _).
  - vm_compute. reflexivity.
  - vm_compute. reflexivity.
Defined.

(** C5 (as worded): a call of [write] that fails on a vector field of two
    components, and one that fails on a field name absent from the dataset,
    start without any file and leave the points file, and the first also the
    files of the field written before. *)
Lemma failing_write_retains_output_counterexample :
  (exists s,
     Scenario.west_run Scenario.T0
       [("T", ScalarVar "theta"); ("U", VectorVars ["u"; "v"])] false false
     = inl (s, Raise (AssertionError A_three_components))
     /\ w_files (st_world Scenario.start) = ∅
     /\ is_Some (w_files (st_world s) !! "out/west/points")
     /\ is_Some (w_files (st_world s) !! "out/west/0/T")
     /\ is_Some (w_files (st_world s) !! "out/west/3600/T"))
  /\ (exists s,
        Scenario.west_run Scenario.T0 [("T", ScalarVar "temperature")]
                          false false
        = inl (s, Raise (AssertionError (A_scalar_var "temperature")))
        /\ is_Some (w_files (st_world s) !! "out/west/points")).
Proof.
  split.
  - eexists. split; [vm_compute; reflexivity|].
    split; [reflexivity|]. repeat split; vm_compute; eauto.
  - eexists. split; [vm_compute; reflexivity|]. vm_compute; eauto.
Qed.

(** ** InternalCoupling: the constructor *)

Section InternalConstruction.
Context {A : Type} `{!DType A}.
Import InternalCoupling.

Lemma mask_rows_filter {T} (f : T -> bool) (l : list T) :
  mask_rows (map f l) l = List.filter f l.
Proof.
  induction l as [|x l IH]; [reflexivity|].
  simpl. destruct (f x); now rewrite IH.
Qed.

Lemma mask_rows_none {T U} (f : T -> bool) (l : list T) (c : list U) :
  Forall (fun x => f x = false) l -> mask_rows (map f l) c = [].
Proof.
  intros H. revert c. induction H as [|x l Hx _ IH]; intros c; [reflexivity|].
  destruct c as [|y c]; [reflexivity|]. simpl. rewrite Hx. apply IH.
Qed.

Lemma unique_length_pos {T} `{EqDecision T} (l : list T) :
  l <> [] -> (0 <? length (unique l)) = true.
Proof.
  destruct l as [|x l]; [congruence|]. intros _.
  unfold unique. simpl. destruct (decide (x ∈ [])) as [Hin|_]; [inversion Hin|].
  reflexivity.
Qed.

(** X1. Whatever its arguments and whether it returns or raises, the
    constructor of [InternalCoupling] writes no file and prints nothing;
    every folder there was is still there, and the only folder it can have
    created is [dpath]. *)
Theorem internal_init_only_creates_directory
    dpath (input : frame A) dateref datefrom dateto (s : State A unit) :
  let s' := fst (__init__ dpath input dateref datefrom dateto s) in
  w_files (st_world s') = w_files (st_world s)
  /\ w_stdout (st_world s') = w_stdout (st_world s)
  /\ w_dirs (st_world s) ⊆ w_dirs (st_world s')
  /\ w_dirs (st_world s') ⊆ {[dpath]} ∪ w_dirs (st_world s).
Proof.
  intros s'.
  enough (w_files (st_world s') = w_files (st_world s)
          /\ w_stdout (st_world s') = w_stdout (st_world s)
          /\ w_dirs (st_world s') = {[dpath]} ∪ w_dirs (st_world s))
    as (Hf & Ho & Hd).
  { rewrite Hd. split; [exact Hf|]. split; [exact Ho|]. split; set_solver. }
  subst s'. destruct s as [[] w]. unfold __init__.
  unfold bind, isdir, makedirs, modify_world, modify, lift, assert, ret, raise.
  cbn [st_world st_self fst snd].
  assert (Hin : dpath ∈ w_dirs w -> w_dirs w = {[dpath]} ∪ w_dirs w)
    by set_solver.
  repeat case_match; simplify_eq; cbn [fst st_world w_files w_dirs w_stdout];
    repeat split; auto;
    match goal with
    | H : bool_decide _ = true |- _ => apply bool_decide_eq_true in H; auto
    end.
Qed.

(** X2. A source with a two-level index whose levels are not named
    datetime and height, in this order, is rejected by an assertion. *)
Theorem internal_init_multiindex_names
    dpath name0 name1 kind0 level0 (level1 : list A) cols
    dateref datefrom dateto (s : State A unit) :
  (name0, name1) <> (Some "datetime", Some "height") ->
  exists a,
    snd (__init__ dpath (MultiFrame name0 name1 kind0 level0 level1 cols)
                  dateref datefrom dateto s)
    = Raise (AssertionError a)
    /\ (a = A_multiindex_datetime \/ a = A_multiindex_height).
Proof.
  intros Hne. unfold __init__.
  unfold bind at 1. cbn [isdir]. unfold bind at 1.
  destruct ((if bool_decide _ then ret tt else makedirs dpath) s)
    as [s1 [[]|e]] eqn:Hmk.
  2:{ destruct (bool_decide _); discriminate. }
  unfold bind at 1, lift at 1.
  destruct (decide (name0 = Some "datetime")) as [->|H0].
  - destruct (decide (name1 = Some "height")) as [->|H1]; [congruence|].
    rewrite bool_decide_eq_true_2 by reflexivity.
    rewrite (bool_decide_eq_false_2 _ H1). cbn. eauto.
  - rewrite (bool_decide_eq_false_2 _ H0). cbn. eauto.
Qed.

(** X3. A source indexed by (datetime, height) is handled as the source
    indexed by datetime alone that carries the heights as its first column,
    provided it has no column named height already. *)
Theorem internal_init_multiindex_flattens
    dpath kind0 level0 (level1 : list A) cols
    dateref datefrom dateto (s : State A unit) :
  "height" ∉ map fst cols ->
  __init__ dpath
    (MultiFrame (Some "datetime") (Some "height") kind0 level0 level1 cols)
    dateref datefrom dateto s
  = __init__ dpath
      (Frame (mkDF (Some "datetime") kind0 level0 (("height", level1) :: cols)))
      dateref datefrom dateto s.
Proof.
  intros Hh. unfold __init__, reset_level1.
  rewrite !bool_decide_eq_true_2 by reflexivity.
  rewrite (bool_decide_eq_false_2 _ Hh). reflexivity.
Qed.

(** X4. When no row of the source lies between the start and the end of
    the requested period, both included, the constructor fails with the
    assertion that there is no data for the period. This covers a period
    whose end precedes its start. *)
Theorem internal_init_empty_period
    dpath (d : DataFrame A) dateref datefrom dateto (s : State A unit) :
  Forall (fun ts => ~ (datefrom <= ts <= dateto)%Z) (df_index d) ->
  snd (__init__ dpath (Frame d) dateref (Some datefrom) (Some dateto) s)
  = Raise (AssertionError A_no_data).
Proof.
  intros Hout. unfold __init__.
  unfold bind at 1. cbn [isdir]. unfold bind at 1.
  destruct ((if bool_decide _ then ret tt else makedirs dpath) s)
    as [s1 [[]|e]] eqn:Hmk.
  2:{ destruct (bool_decide _); discriminate. }
  unfold bind, lift. cbn [loc_mask df_index].
  rewrite mask_rows_none; [reflexivity|].
  eapply Forall_impl; [exact Hout|]. intros ts Hts. cbv beta in *.
  destruct (datefrom <=? ts)%Z eqn:H1, (ts <=? dateto)%Z eqn:H2; try reflexivity.
  exfalso. apply Hts. lia.
Qed.

(** X5. With a reference date, on a source indexed by a datetime index
    named datetime, the constructor keeps the rows of the period in order,
    stores the start of the period, and adds the column t_index holding, for
    every kept row, the seconds from the reference date to its timestamp. *)
Theorem internal_init_t_index
    dpath (d : DataFrame A) dateref datefrom dateto (s : State A unit) :
  df_index_name d = Some "datetime" ->
  df_index_kind d = DatetimeIndex ->
  has_column "datetime" d = false ->
  Exists (fun ts => (datefrom <= ts <= dateto)%Z) (df_index d) ->
  let kept := List.filter (fun ts => (datefrom <=? ts)%Z && (ts <=? dateto)%Z)
                          (df_index d) in
  exists s' self,
    __init__ dpath (Frame d) (Some dateref) (Some datefrom) (Some dateto) s
    = (s', Ok self)
    /\ InternalCoupling.dpath self = dpath
    /\ InternalCoupling.datefrom self = datefrom
    /\ df_index (df self) = kept
    /\ getitem (df self) "t_index"
       = Ok (map (fun ts => dt_of_seconds ((ts - dateref) # tdelta)) kept).
Proof.
  intros Hname Hkind Hcol Hex kept. unfold __init__.
  unfold bind at 1. cbn [isdir]. unfold bind at 1.
  destruct ((if bool_decide _ then ret tt else makedirs dpath) s)
    as [s1 [[]|e]] eqn:Hmk.
  2:{ destruct (bool_decide _); discriminate. }
  unfold bind, lift.
  set (sdf := loc_mask d _).
  assert (Hidx : df_index sdf = kept) by apply mask_rows_filter.
  assert (Hc : has_column "datetime" sdf = false).
  { unfold has_column, columns in *. subst sdf. cbn [loc_mask df_columns].
    rewrite map_map. exact Hcol. }
  rewrite Hidx, unique_length_pos.
  2:{ apply Exists_exists in Hex as (ts & Hin & Hts).
      intros Hnil.
      assert (Hk : ts ∈ kept).
      { apply list_elem_of_In, filter_In. split; [now apply list_elem_of_In|].
        apply andb_true_intro. split; apply Z.leb_le; lia. }
      rewrite Hnil in Hk. inversion Hk. }
  cbn [assert ret]. unfold add_t_index. rewrite Hc.
  change (df_index_name sdf) with (df_index_name d).
  change (df_index_kind sdf) with (df_index_kind d).
  rewrite Hname, Hkind, Hidx. rewrite bool_decide_eq_true_2 by reflexivity.
  cbn [negb]. eexists. eexists. split; [reflexivity|].
  cbn [InternalCoupling.dpath InternalCoupling.datefrom df].
  repeat split; [exact Hidx|]. apply getitem_setitem_eq.
Qed.
End InternalConstruction.

(** ** InternalCoupling: the writers *)

Section InternalWriters.
Context {A : Type} `{!DType A}.
Import InternalCoupling.
Local Abbreviation St := (State A (InternalCoupling.t A)).

Lemma has_column_getitem name (d : DataFrame A) :
  has_column name d = true -> exists v, getitem d name = Ok v.
Proof.
  intros H. destruct (getattr_has_column _ _ H) as [v Hv].
  exists v. now apply getattr_getitem.
Qed.

(** Without a start date the constructor stores the first label of the
    index of the source. *)
Lemma internal_init_datefrom dpath (input : frame A) dateref dateto
    (s0 s1 : State A unit) (self : t A) :
  __init__ dpath input dateref None dateto s0 = (s1, Ok self) ->
  head (match input with
        | Frame d => df_index d
        | MultiFrame _ _ _ level0 _ _ => level0
        end) = Some (datefrom self).
Proof.
  intros H. unfold __init__ in H.
  apply bind_inv_ok in H as (s2 & ex & _ & H).
  apply bind_inv_ok in H as (s3 & [] & _ & H).
  apply bind_inv_ok in H as (s4 & df0 & Hdf0 & H).
  apply lift_inv_ok in Hdf0 as [Hdf0 ->].
  apply bind_inv_ok in H as (s5 & from & Hfrom & H).
  apply lift_inv_ok in Hfrom as [Hfrom ->].
  apply bind_inv_ok in H as (s6 & to & _ & H).
  apply bind_inv_ok in H as (s7 & [] & _ & H).
  apply bind_inv_ok in H as (s8 & sdf' & _ & H).
  injection H as _ <-. cbn [datefrom].
  assert (Hidx : match input with
                 | Frame d => df_index d
                 | MultiFrame _ _ _ level0 _ _ => level0
                 end = df_index df0).
  { clear -Hdf0. destruct input as [d|name0 name1 kind0 level0 level1 cols].
    - now injection Hdf0 as <-.
    - unfold reset_level1 in Hdf0.
      repeat case_match; simplify_eq. reflexivity. }
  rewrite Hidx. destruct (df_index df0); [discriminate|].
  now injection Hfrom as ->.
Qed.
(** X6. [write_BCs] checks the stored frame before it opens the file: when
    the frame has no t_index column, when the field is not a column, or
    when the field holds a missing value, the call raises, in this order of
    precedence, an AttributeError, the assertion that the field is in the
    frame, or the assertion that the field is complete, and nothing has
    happened: the writer and the world are as before the call. *)
Theorem write_BCs_fails_without_output
    fname fieldname fact (self : t A) w :
  has_column "t_index" (df self) = false
  \/ has_column fieldname (df self) = false
  \/ (exists col, getitem (df self) fieldname = Ok col /\ any_isna col = true) ->
  write_BCs fname fieldname fact (mkState self w)
  = (mkState self w,
     Raise (if negb (has_column "t_index" (df self))
            then AttributeError "t_index"
            else if negb (has_column fieldname (df self))
                 then AssertionError (A_field_in_df fieldname)
                 else AssertionError (A_field_complete fieldname))).
Proof.
  intros Hcases. unfold write_BCs, bind, get_self, lift, assert.
  cbn [st_self].
  destruct (has_column "t_index" (df self)) eqn:Ht; cbn [negb].
  - destruct (getattr_has_column _ _ Ht) as [ts Hts]. rewrite Hts.
    destruct (has_column fieldname (df self)) eqn:Hf; cbn [negb];
      [|reflexivity].
    destruct Hcases as [Hc | [Hc | (col & Hcol & Hna)]]; try discriminate.
    rewrite Hcol, Hna. reflexivity.
  - apply has_column_false in Ht. unfold getattr. rewrite Ht. reflexivity.
Qed.

(** X7. [write_BCs] replaces the file: after two calls for the same file
    name, the world is as after the second call alone, and the stored frame
    is unchanged. *)
Theorem write_BCs_replaces_file
    fname fieldname fact fact' (self : t A) w ts col :
  getattr (df self) "t_index" = Ok ts ->
  getitem (df self) fieldname = Ok col ->
  any_isna col = false ->
  fst (write_BCs fname fieldname fact'
         (fst (write_BCs fname fieldname fact (mkState self w))))
  = fst (write_BCs fname fieldname fact' (mkState self w))
  /\ st_self (fst (write_BCs fname fieldname fact (mkState self w))) = self.
Proof.
  intros Hts Hcol Hna.
  rewrite !(write_BCs_run _ _ _ _ _ ts col Hts Hcol Hna).
  cbn [fst st_self]. split; [|reflexivity].
  rewrite (write_BCs_run _ _ _ _ _ ts col Hts Hcol Hna).
  cbn [fst w_files w_dirs w_stdout]. now rewrite insert_insert_eq.
Qed.

(** X8. On a writer constructed without a start date, whose start date is
    then the first label of the index of the source, [write_ICs] fails
    without writing anything unless at least two rows of the stored frame
    carry the start date: with none the selection is a KeyError, with one
    it is a Series, which has no columns. *)
Theorem write_ICs_needs_two_rows
    dpath input dateref dateto (s0 s1 : State A unit)
    fname xmom ymom temp (self : t A) w :
  __init__ dpath input dateref None dateto s0 = (s1, Ok self) ->
  length (List.filter (fun ts => bool_decide (ts = datefrom self))
                      (df_index (df self))) < 2 ->
  head (match input with
        | Frame d => df_index d
        | MultiFrame _ _ _ level0 _ _ => level0
        end) = Some (datefrom self)
  /\ exists e,
       write_ICs fname xmom ymom temp (mkState self w)
       = (mkState self w, Raise e)
       /\ (e = KeyError "label" \/ e = AttributeError "columns").
Proof.
  intros Hinit Hlen.
  split; [exact (internal_init_datefrom _ _ _ _ _ _ _ Hinit)|].
  unfold write_ICs, bind, get_self, lift. cbn [st_self].
  unfold loc_label. cbn [loc_mask df_index].
  rewrite mask_rows_filter.
  destruct (List.filter _ _) as [|a [|b l]]; simpl in Hlen; [eauto | eauto | lia].
Qed.

(** X9. On a writer constructed with a reference date and without a start
    date, whose start date is then the first label of the index of the
    source: when at least two rows carry the start date, they have a height
    column and the fields that are columns hold no missing value,
    [write_ICs] writes one line per selected row, four spaces and
    (z u v theta): the height by %g and the fields by %.12g, a field that
    is not a column as zeros. The stored frame is left as it was. *)
Theorem write_ICs_profile
    dpath0 input dateref dateto (s0 s1 : State A unit)
    fname xmom ymom temp (self : t A) w sel zs :
  __init__ dpath0 input (Some dateref) None dateto s0 = (s1, Ok self) ->
  loc_label (df self) (datefrom self) = Ok (LocFrame sel) ->
  getattr sel "height" = Ok zs ->
  (forall f col, f ∈ [xmom; ymom; temp] -> getitem sel f = Ok col ->
                 any_isna col = false) ->
  let field f := match getitem sel f with
                 | Ok col => col
                 | Raise _ => replicate (length (df_index sel)) dt_zero
                 end in
  head (match input with
        | Frame d => df_index d
        | MultiFrame _ _ _ level0 _ _ => level0
        end) = Some (datefrom self)
  /\ write_ICs fname xmom ymom temp (mkState self w)
     = (mkState self
          (mkWorld
             (<[path_join (dpath self) fname :=
                  Plain (str_bytes
                    (render_lines (render_tuple "    " 6 12)
                       (zip_with (fun z r => z :: r) zs
                          (zip_with (fun u r => u :: r) (field xmom)
                             (zip_with (fun v th => [v; th])
                                       (field ymom) (field temp))))))]>
                (w_files w))
             (w_dirs w) (w_stdout w)), Ok tt).
Proof.
  intros Hinit Hsel Hzs Hna field.
  split; [exact (internal_init_datefrom _ _ _ _ _ _ _ Hinit)|].
  set (fields := [Some xmom; Some ymom; Some temp]).
  destruct (add_zero_fields_spec fields sel) as (_ & Hold & Hnew).
  assert (Hfield : forall f, f ∈ [xmom; ymom; temp] ->
            getitem (add_zero_fields sel fields) f = Ok (field f)
            /\ any_isna (field f) = false).
  { intros f Hf. unfold field.
    destruct (has_column f sel) eqn:Hc.
    - rewrite (Hold f Hc). destruct (has_column_getitem _ _ Hc) as [col Hcol].
      rewrite Hcol. split; [reflexivity|]. exact (Hna f col Hf Hcol).
    - rewrite Hnew; [| |exact Hc].
      + destruct (getitem sel f) as [col|e] eqn:Hg.
        * apply getitem_has_column in Hg. congruence.
        * split; [reflexivity | apply any_isna_zeros].
      + subst fields. set_solver. }
  destruct (Hfield xmom ltac:(set_solver)) as [Hx Hxn].
  destruct (Hfield ymom ltac:(set_solver)) as [Hy Hyn].
  destruct (Hfield temp ltac:(set_solver)) as [Ht Htn].
  assert (Hh : getattr (add_zero_fields sel fields) "height" = Ok zs).
  { apply getattr_getitem. rewrite Hold.
    - now apply getattr_getitem.
    - apply getattr_getitem in Hzs. exact (getitem_has_column _ _ _ Hzs). }
  unfold write_ICs.
  erewrite bind_ok by reflexivity. cbn [st_self].
  erewrite bind_ok by (unfold lift; rewrite Hsel; reflexivity).
  erewrite bind_ok by reflexivity.
  change (foldl _ sel [xmom; ymom; temp]) with (add_zero_fields sel fields).
  erewrite bind_ok by (unfold lift; rewrite Hh; reflexivity).
  erewrite bind_ok.
  2:{ cbn [for_each]. unfold bind, lift, assert.
      rewrite Hx, Hxn, Hy, Hyn, Ht, Htn. reflexivity. }
  erewrite bind_ok by (unfold lift; rewrite Hx; reflexivity).
  erewrite bind_ok by (unfold lift; rewrite Hy; reflexivity).
  erewrite bind_ok by (unfold lift; rewrite Ht; reflexivity).
  rewrite savetxt_ICs.
  unfold fsavetxt, fwrite_str, fwrite, fopen, bind, lift, modify_world, modify.
  simpl. rewrite alter_insert_eq. reflexivity.
Qed.

(** X10. Whatever its arguments and whether it returns or raises,
    [write_timeheight] keeps the folder and the start date of the writer,
    the index of the stored frame, and every column the frame had: it only
    ever adds columns. *)
Theorem write_timeheight_keeps_frame fname xmom ymom zmom temp (s : St) :
  let self := st_self s in
  let self' := st_self (fst (write_timeheight fname xmom ymom zmom temp s)) in
  dpath self' = dpath self
  /\ datefrom self' = datefrom self
  /\ df_index (df self') = df_index (df self)
  /\ forall c, has_column c (df self) = true ->
               getitem (df self') c = getitem (df self) c.
Proof.
  intros self self'.
  assert (Hcases : self' = self
            \/ self' = set_df self (add_zero_fields (df self)
                                      [xmom; ymom; zmom; temp])).
  { subst self self'. unfold write_timeheight.
    assert (Hbody : forall wm,
      st_self (fst (timeheight_body wm fname xmom ymom zmom temp s)) = st_self s
      \/ st_self (fst (timeheight_body wm fname xmom ymom zmom temp s))
         = set_df (st_self s) (add_zero_fields (df (st_self s))
                                 [xmom; ymom; zmom; temp])).
    { intros wm.
      destruct (getattr (df (st_self s)) "height") as [hs|e] eqn:Hh.
      - destruct (getattr (df (st_self s)) "t_index") as [tx|e] eqn:Ht.
        + right. apply timeheight_body_self.
          * apply getattr_getitem in Hh. exact (getitem_has_column _ _ _ Hh).
          * apply getattr_getitem in Ht. exact (getitem_has_column _ _ _ Ht).
        + left. unfold timeheight_body, bind, get_self, lift.
          rewrite Hh, Ht. reflexivity.
      - left. unfold timeheight_body, bind, get_self, lift.
        rewrite Hh. reflexivity. }
    destruct xmom, ymom, zmom; try (left; reflexivity); apply Hbody. }
  destruct Hcases as [Hc | Hc]; rewrite Hc; [auto|].
  destruct (add_zero_fields_spec [xmom; ymom; zmom; temp] (df self))
    as (Hi & Hold & _).
  cbn [set_df dpath datefrom df]. auto.
Qed.
End InternalWriters.

(** ** BoundaryCoupling: further properties of the writers *)

Section BoundaryWriters.
Context {A : Type} `{!DType A}.
Import BoundaryCoupling.
Local Abbreviation St := (State A (BoundaryCoupling.t A)).

Lemma bind_never {S X Y} (m : M S X) (k : X -> M S Y) s :
  (forall x s1, exists e, snd (k x s1) = Raise e) ->
  exists e, snd (bind m k s) = Raise e.
Proof.
  intros Hk. unfold bind. destruct (m s) as [s1 [x|e]]; [apply Hk | eauto].
Qed.

Lemma bind_never_l {S X Y} (m : M S X) (k : X -> M S Y) s :
  (exists e, snd (m s) = Raise e) -> exists e, snd (bind m k s) = Raise e.
Proof.
  intros [e He]. unfold bind. destruct (m s) as [s1 [x|e']]; [discriminate|].
  eauto.
Qed.

(** X11. Without a reference date the constructor of [BoundaryCoupling]
    never returns a writer: every such call raises. *)
Theorem boundary_init_needs_dateref
    dpath0 (d : Dataset A) name datefrom dateto (s : State A unit) :
  exists e,
    snd (__init__ dpath0 d name None datefrom dateto s) = Raise e.
Proof.
  unfold __init__.
  do 6 (apply bind_never; intros ? ?).
  apply bind_never_l.
  do 2 (apply bind_never; intros ? ?).
  eexists. reflexivity.
Qed.

(** What a returned writer is made of. *)
Lemma __init___inv dpath0 (d : Dataset A) name dateref datefrom dateto
    (s s' : State A unit) bc :
  __init__ dpath0 d name dateref datefrom dateto s = (s', Ok bc) ->
  exists ref from to d' times,
    dateref = Some ref
    /\ (forall v, datefrom = Some v -> from = v)
    /\ (forall v, dateto = Some v -> to = v)
    /\ sel_datetime d from to = Ok d'
    /\ coords_datetime d' = Ok times
    /\ bc = mk name (path_join dpath0 name)
              (mkDS (ds_dims d') (ds_datetime d')
                    (Some (map (fun ts => (ts - ref) # one_second)
                               (nd_values times)))
                    (ds_coords d') (ds_data_vars d'))
              from None.
Proof.
  unfold __init__. intros H.
  apply bind_inv_ok in H as (s1 & ex & _ & H).
  apply bind_inv_ok in H as (s2 & [] & _ & H).
  apply bind_inv_ok in H as (s3 & [] & _ & H).
  apply bind_inv_ok in H as (s4 & from & Hfrom & H).
  apply bind_inv_ok in H as (s5 & to & Hto & H).
  apply bind_inv_ok in H as (s6 & d' & Hsel & H).
  apply lift_inv_ok in Hsel as [Hsel _].
  apply bind_inv_ok in H as (s7 & ref & Href & H).
  apply bind_inv_ok in H as (s8 & times & Htimes & H).
  apply lift_inv_ok in Htimes as [Htimes _].
  injection H as _ <-.
  exists ref, from, to, d', times.
  split.
  { destruct dateref as [v|]; [now injection Href as _ -> |].
    apply bind_inv_ok in Href as (? & ? & _ & Href).
    apply bind_inv_ok in Href as (? & ? & _ & Href). discriminate. }
  split.
  { intros v ->. now injection Hfrom as _ ->. }
  split.
  { intros v ->. now injection Hto as _ ->. }
  auto.
Qed.

(** X12. The field writers need the in-plane dimensions that [write]
    stores: on a writer fresh from the constructor, calling
    [_write_boundary_scalar] or [_write_boundary_vector] directly raises
    AttributeError and writes nothing. *)
Theorem field_writers_need_write
    dpath0 (d : Dataset A) name dateref datefrom dateto (s s' : State A unit) bc
    fname var comps binary gzip (w : World A) :
  __init__ dpath0 d name dateref datefrom dateto s = (s', Ok bc) ->
  _write_boundary_scalar fname var binary gzip (mkState bc w)
  = (mkState bc w, Raise (AttributeError "bndry_dims"))
  /\ _write_boundary_vector fname comps binary gzip (mkState bc w)
     = (mkState bc w, Raise (AttributeError "bndry_dims")).
Proof.
  intros H.
  destruct (__init___inv _ _ _ _ _ _ _ _ _ H)
    as (ref & from & to & d' & times & _ & _ & _ & _ & _ & ->).
  split; reflexivity.
Qed.

(** X13. [write] never changes the dataset, the name, the folder or the
    start date of the writer, whether it returns or raises: the fields are
    broadcast on a copy. *)
Theorem write_keeps_dataset fields binary gzip (s : St) :
  let self := st_self s in
  let self' := st_self (fst (write fields binary gzip s)) in
  ds self' = ds self /\ name self' = name self
  /\ dpath self' = dpath self /\ datefrom self' = datefrom self.
Proof.
  destruct s as [self w]. cbn [st_self].
  assert (Hcases : st_self (fst (write fields binary gzip (mkState self w))) = self
            \/ exists bd, st_self (fst (write fields binary gzip (mkState self w)))
                          = set_bndry_dims self bd).
  { unfold write.
    assert (H1 : exists w1,
              (if binary && gzip then print MsgCompressedBinary else ret tt)
                (mkState self w) = (mkState self w1, Ok tt)).
    { destruct (binary && gzip); eexists; reflexivity. }
    destruct H1 as [w1 H1].
    erewrite bind_ok by exact H1.
    erewrite bind_ok by reflexivity. cbn [st_self].
    destruct (list_remove "datetime" (dims (ds self))) as [l|e] eqn:Hrm.
    - right. eexists.
      erewrite bind_ok by (unfold lift; reflexivity).
      erewrite bind_ok by reflexivity.
      match goal with
      | |- st_self (fst (?m ?s)) = _ =>
          assert (Hk : keeps_self m); [|rewrite Hk; reflexivity]
      end.
      apply keeps_bind; [apply keeps_assert|intros _].
      apply keeps_bind; [apply keeps__write_points|intros _].
      apply keeps_for_each. intros fd. apply (keeps_write_field binary gzip fd).
    - left. erewrite bind_raise by (unfold lift; reflexivity). reflexivity. }
  destruct Hcases as [Hc | [bd Hc]]; rewrite Hc; auto.
Qed.

(** X14. [write] on a dataset that has a datetime dimension but not exactly
    two of the dimensions x, y and height fails its assertion before any
    file is written. *)
Theorem write_needs_two_plane_dims fields binary gzip (self : t A) w :
  "datetime" ∈ dims (ds self) ->
  length (plane_dims (ds self)) <> 2 ->
  exists w',
    write fields binary gzip (mkState self w)
    = (mkState (set_bndry_dims self (plane_dims (ds self))) w',
       Raise (AssertionError A_two_bndry_dims))
    /\ w_files w' = w_files w /\ w_dirs w' = w_dirs w.
Proof.
  intros Hdt Hlen. destruct (list_remove_elem _ _ Hdt) as (l' & Hrm & Hl').
  assert (Hfilter : List.filter (fun dim => bool_decide (dim ∈ l')) ["x"; "y"; "height"]
                    = plane_dims (ds self)).
  { unfold plane_dims. simpl.
    assert (Hx : "x" ∈ l' <-> "x" ∈ dims (ds self)) by (apply Hl'; discriminate).
    assert (Hy : "y" ∈ l' <-> "y" ∈ dims (ds self)) by (apply Hl'; discriminate).
    assert (Hz : "height" ∈ l' <-> "height" ∈ dims (ds self))
      by (apply Hl'; discriminate).
    rewrite (bool_decide_ext _ _ Hx), (bool_decide_ext _ _ Hy),
            (bool_decide_ext _ _ Hz).
    reflexivity. }
  unfold write.
  assert (H1 : exists w1,
            (if binary && gzip then print MsgCompressedBinary else ret tt)
              (mkState self w) = (mkState self w1, Ok tt)
            /\ w_files w1 = w_files w /\ w_dirs w1 = w_dirs w).
  { destruct (binary && gzip); eexists; (split; [reflexivity|]);
      destruct w; auto. }
  destruct H1 as (w1 & H1 & Hf & Hd). exists w1.
  erewrite bind_ok by exact H1.
  erewrite bind_ok by reflexivity.
  erewrite bind_ok by (unfold lift; cbn [st_self]; rewrite Hrm; reflexivity).
  erewrite bind_ok by reflexivity.
  rewrite Hfilter. cbn [st_world].
  erewrite bind_raise.
  2:{ unfold assert. apply Nat.eqb_neq in Hlen. rewrite Hlen. reflexivity. }
  auto.
Qed.



End BoundaryWriters.

Section BoundaryOutput.
Context {A : Type} `{!DType A}.
Import BoundaryCoupling.
Local Abbreviation St := (State A (BoundaryCoupling.t A)).

Lemma length_str_bytes s : length (str_bytes s) = String.length s.
Proof.
  unfold str_bytes. induction s as [|c s IH]; [reflexivity|].
  exact (f_equal S IH).
Qed.

Lemma length_concat_const {T U} (f : T -> list U) (l : list T) n :
  (forall x, length (f x) = n) -> length (concat (map f l)) = length l * n.
Proof.
  intros Hf. induction l as [|x l IH]; [reflexivity|].
  cbn. rewrite length_app, Hf, IH. lia.
Qed.

Lemma length_concat_rows {T} (rows : list (list T)) n :
  (forall r, r ∈ rows -> length r = n) ->
  length (concat rows) = length rows * n.
Proof.
  induction rows as [|r rows IH]; intros Hr; [reflexivity|].
  cbn. rewrite length_app, (Hr r) by left. rewrite IH; [lia|].
  intros r' Hr'. apply Hr. now right.
Qed.

(** X16. The binary points file of a dataset with nx, ny and nz coordinate
    values along x, y and height (one for the axis the plane lacks) holds
    the header for N = nx * ny * nz points, 3 * N items and the closing
    parenthesis: when every item takes [sz] bytes, the file is
    3 * N * sz + 1 bytes longer than its header, and the call reports N
    points. *)
Theorem write_points_binary_size fname gzip (self : t A) w sz :
  wf_dataset (ds self) ->
  (forall v : A, length (dt_tobytes v) = sz) ->
  let N := size_of (grid_shape (ds self)) in
  let s' := fst (_write_points fname true gzip (mkState self w)) in
  exists bytes,
    w_files (st_world s') !! opened_path (path_join (dpath self) fname) gzip
    = Some (stored gzip bytes)
    /\ length bytes = String.length (boundaryDataHeader N) + 3 * N * sz + 1
    /\ w_stdout (st_world s')
       = (w_stdout w ++ [MsgWrotePoints N (path_join (dpath self) fname)])%list.
Proof.
  intros Hwf Hsz N s'.
  destruct (points_spec _ Hwf) as (pts & Hpts & Hlen & Hrows & _).
  subst s'. rewrite (_write_points_run _ _ _ pts _ _ Hpts Hrows).
  cbn [fst st_world w_files w_stdout]. rewrite lookup_insert_eq.
  eexists. split; [reflexivity|]. unfold points_file. rewrite Hlen. fold N.
  split; [|reflexivity].
  rewrite !length_app, !length_str_bytes. unfold tobytes.
  rewrite (length_concat_const _ _ sz Hsz), (length_concat_rows _ 3 Hrows), Hlen.
  fold N. cbn. lia.
Qed.

(** X17. The file of a timestep is named by its t_index formatted with six
    significant digits: two timesteps whose t_index format alike share one
    file, and after both are written the files are as after the second
    alone. The values of the first are lost. *)
Theorem timesteps_named_alike_share_file
    fname binary gzip ti1 ts1 ui1 ti2 ts2 ui2 (self : t A) w :
  negative ti1 = false ->
  negative ti2 = false ->
  tname ti1 = tname ti2 ->
  w_files (st_world
    (fst (scalar_step fname binary gzip ti2 ts2 ui2
            (fst (scalar_step fname binary gzip ti1 ts1 ui1 (mkState self w))))))
  = w_files (st_world
      (fst (scalar_step fname binary gzip ti2 ts2 ui2 (mkState self w)))).
Proof.
  intros H1 H2 Hname. rewrite !scalar_step_run. cbn [fst].
  rewrite scalar_step_run. cbn [fst st_world].
  unfold after_scalar_step, after_step. rewrite H1, H2.
  unfold after_write, field_path. cbn [w_files]. rewrite Hname.
  apply insert_insert_eq.
Qed.

(** X18. [write] never removes a file: whatever it does, and whether it
    returns or raises, every file that existed before the call exists
    after it. *)
Theorem write_never_removes_files fields binary gzip (s : St) p :
  is_Some (w_files (st_world s) !! p) ->
  is_Some (w_files (st_world (fst (write fields binary gzip s))) !! p).
Proof.
  revert s p. change (keeps_files (write fields binary gzip : M St unit)).
  unfold write.
  apply files_bind; [destruct (binary && gzip); [apply files_print|apply files_ret]|].
  intros _. apply files_bind; [apply files_get_self|intros self].
  apply files_bind; [apply files_lift|intros l].
  apply files_bind; [apply files_set_self|intros _].
  apply files_bind; [apply files_assert|intros _].
  apply files_bind; [apply files__write_points|intros _].
  apply files_for_each. intros fd. apply (files_write_field binary gzip fd).
Qed.

End BoundaryOutput.

(** ** BoundaryCoupling: the constructor *)

Section BoundaryConstruction.
Context {A : Type} `{!DType A}.
Import BoundaryCoupling.

Lemma omap_lookup_seq {T} (l : list T) a m :
  omap (fun k => l !! k) (seq a m) = take m (drop a l).
Proof.
  revert a. induction m as [|m IH]; intros a; [now rewrite take_0|].
  cbn [seq omap list_omap]. rewrite IH.
  destruct (l !! a) as [x|] eqn:Hx.
  - rewrite (drop_S _ _ _ Hx). reflexivity.
  - apply lookup_ge_None in Hx.
    rewrite !drop_ge by lia. now rewrite !take_nil.
Qed.

Lemma omap_ext_fun {T U} (f g : T -> option U) (l : list T) :
  (forall x, f x = g x) -> omap f l = omap g l.
Proof.
  intros H. induction l as [|x l IH]; [reflexivity|].
  cbn. now rewrite H, IH.
Qed.

(** The values of a slice of a coordinate along its only axis. *)
Lemma take_axis_values {T} (c : NDArray T) dim lo n :
  nd_dims c = [dim] -> nd_shape c = [length (nd_values c)] ->
  nd_values (take_axis dim lo n c) = take n (drop lo (nd_values c)).
Proof.
  intros Hd Hs. unfold take_axis. rewrite Hd. cbn [index_of].
  rewrite String.eqb_refl. cbn [nd_values]. rewrite Hs.
  unfold gather. cbn [insert list_insert size_of foldr].
  rewrite Nat.mul_1_r.
  rewrite (omap_ext_fun _ (fun k => nd_values c !! (lo + k))).
  - pose proof (omap_lookup_seq (drop lo (nd_values c)) 0 n) as E.
    rewrite drop_0 in E. rewrite <- E.
    apply omap_ext_fun. intros k. now rewrite lookup_drop.
  - intros k. cbn [unravel_index size_of foldr].
    rewrite Nat.div_1_r. cbn. f_equal. lia.
Qed.

Lemma sorted_ascending_cons a l :
  sorted_ascending (a :: l) = true ->
  Forall (fun x => (a <= x)%Z) l /\ sorted_ascending l = true.
Proof.
  revert a. induction l as [|b l IH]; intros a H; [auto|].
  cbn [sorted_ascending] in H. apply andb_prop in H as [Hab Hs].
  apply Z.leb_le in Hab. destruct (IH b Hs) as [Hall Hs'].
  split; [|exact Hs]. constructor; [exact Hab|].
  eapply Forall_impl; [exact Hall|]. intros x Hx. cbv beta in *. lia.
Qed.

Lemma filter_none (P : Z -> Prop) `{!forall x, Decision (P x)} l :
  Forall (fun x => ~ P x) l -> filter P l = [].
Proof.
  induction 1 as [|x l Hx _ IH]; [reflexivity|].
  now rewrite filter_cons_False.
Qed.

Lemma filter_all (P : Z -> Prop) `{!forall x, Decision (P x)} l :
  Forall P l -> filter P l = l.
Proof.
  induction 1 as [|x l Hx _ IH]; [reflexivity|].
  rewrite filter_cons_True by exact Hx. now rewrite IH.
Qed.

Lemma filter_ext_Forall (P Q : Z -> Prop)
    `{!forall x, Decision (P x)} `{!forall x, Decision (Q x)} l :
  Forall (fun x => P x <-> Q x) l -> filter P l = filter Q l.
Proof.
  induction 1 as [|x l Hx _ IH]; [reflexivity|].
  rewrite !filter_cons, IH.
  destruct (decide (P x)), (decide (Q x)); tauto.
Qed.

(** On an increasing list, the labels up to a bound are a prefix. *)
Lemma take_upto_sorted hi l :
  sorted_ascending l = true ->
  take (length (filter (fun ts => (ts <= hi)%Z) l)) l
  = filter (fun ts => (ts <= hi)%Z) l.
Proof.
  induction l as [|a l IH]; intros Hs; [reflexivity|].
  destruct (sorted_ascending_cons _ _ Hs) as [Hall Hs'].
  destruct (decide (a <= hi)%Z) as [Ha|Ha].
  - rewrite filter_cons_True by exact Ha. cbn. now rewrite IH.
  - rewrite filter_cons_False by exact Ha.
    rewrite filter_none; [reflexivity|].
    eapply Forall_impl; [exact Hall|]. intros x Hx. cbv beta in *. lia.
Qed.

(** On an increasing list, a slice by label is the labels within the
    bounds. *)
Lemma slice_sorted lo hi l :
  sorted_ascending l = true ->
  take (length (filter (fun ts => (ts <= hi)%Z) l)
        - length (filter (fun ts => (ts < lo)%Z) l))
       (drop (length (filter (fun ts => (ts < lo)%Z) l)) l)
  = filter (fun ts => (lo <= ts <= hi)%Z) l.
Proof.
  induction l as [|a l IH]; intros Hs; [reflexivity|].
  destruct (sorted_ascending_cons _ _ Hs) as [Hall Hs'].
  destruct (decide (a < lo)%Z) as [Ha|Ha].
  - rewrite (filter_cons_True (fun ts => (ts < lo)%Z)) by exact Ha.
    rewrite (filter_cons_False (fun ts => (lo <= ts <= hi)%Z)) by lia.
    destruct (decide (a <= hi)%Z) as [Hb|Hb].
    + rewrite (filter_cons_True (fun ts => (ts <= hi)%Z)) by exact Hb.
      cbn [length drop]. rewrite Nat.sub_succ. now apply IH.
    + rewrite (filter_cons_False (fun ts => (ts <= hi)%Z)) by exact Hb.
      rewrite (filter_none (fun ts => (ts <= hi)%Z) l).
      2:{ eapply Forall_impl; [exact Hall|]. intros x Hx. cbv beta in *. lia. }
      rewrite (filter_none (fun ts => (lo <= ts <= hi)%Z) l).
      2:{ eapply Forall_impl; [exact Hall|]. intros x Hx. cbv beta in *. lia. }
      reflexivity.
  - rewrite (filter_none (fun ts => (ts < lo)%Z) (a :: l)).
    2:{ constructor; [exact Ha|].
        eapply Forall_impl; [exact Hall|]. intros x Hx. cbv beta in *. lia. }
    cbn [length drop]. rewrite Nat.sub_0_r, (take_upto_sorted hi _ Hs).
    apply filter_ext_Forall. constructor; [lia|].
    eapply Forall_impl; [exact Hall|]. intros x Hx. cbv beta in *. lia.
Qed.

(** X20. With a reference date and both ends of the period given, on a
    dataset whose datetime coordinate is an increasing index, a returned
    writer stores the start of the period, keeps exactly the timestamps
    within the period, both ends included, and holds as t_index the seconds
    from the reference date to each of them. *)
Theorem boundary_init_selects_period
    dpath0 (d : Dataset A) name ref from to (s s' : State A unit) bc c :
  ds_datetime d = Some c ->
  nd_shape c = [length (nd_values c)] ->
  sorted_ascending (nd_values c) = true ->
  __init__ dpath0 d name (Some ref) (Some from) (Some to) s = (s', Ok bc) ->
  let kept := filter (fun ts => (from <= ts <= to)%Z) (nd_values c) in
  datefrom bc = from
  /\ (exists times, ds_datetime (ds bc) = Some times /\ nd_values times = kept)
  /\ ds_t_index (ds bc)
     = Some (map (fun ts => (ts - ref) # one_second) kept).
Proof.
  intros Hc Hshape Hsorted H kept.
  destruct (__init___inv _ _ _ _ _ _ _ _ _ H)
    as (ref' & from' & to' & d' & times & Href & Hfrom & Hto & Hsel & Htimes & Hbc).
  injection Href as <-.
  pose proof (Hfrom _ eq_refl) as ->. pose proof (Hto _ eq_refl) as ->.
  unfold sel_datetime in Hsel.
  destruct (bool_decide ("datetime" ∈ dims d)); cbn [negb] in Hsel; [|discriminate].
  rewrite Hc in Hsel.
  destruct (bool_decide (nd_dims c = ["datetime"])) eqn:Hd;
    cbn [negb] in Hsel; [|discriminate].
  apply bool_decide_eq_true in Hd.
  destruct (sorted_ascending (nd_values c)) eqn:Hs;
    cbn [negb] in Hsel; [|discriminate].
  injection Hsel as <-.
  unfold coords_datetime in Htimes. cbn [ds_data_vars ds_datetime] in Htimes.
  destruct (bool_decide _) in Htimes; [discriminate|].
  injection Htimes as <-. subst bc.
  cbn [datefrom ds ds_datetime ds_t_index].
  rewrite (take_axis_values _ _ _ _ Hd Hshape), (slice_sorted _ _ _ Hs).
  split; [reflexivity|]. split; [|reflexivity].
  eexists. split; [reflexivity|].
  rewrite (take_axis_values _ _ _ _ Hd Hshape). apply (slice_sorted _ _ _ Hs).
Qed.

Lemma pure_bind {S X Y} (m : M S X) (k : X -> M S Y) :
  (forall s, fst (m s) = s) -> (forall x s, fst (k x s) = s) ->
  forall s, fst (bind m k s) = s.
Proof.
  intros Hm Hk s. unfold bind. specialize (Hm s).
  destruct (m s) as [s1 [x|e]]; cbn in *; [|exact Hm].
  rewrite Hk. exact Hm.
Qed.

Lemma pure_for_each {S X} (l : list X) (body : X -> M S unit) :
  (forall x s, fst (body x s) = s) -> forall s, fst (for_each l body s) = s.
Proof.
  intros Hb. induction l as [|x l IH]; intros s; [reflexivity|].
  cbn [for_each]. apply pure_bind; [apply Hb | intros _; exact IH].
Qed.

Lemma pure_foldM {S X Acc} (f : Acc -> X -> M S Acc) (l : list X) :
  (forall acc x s, fst (f acc x s) = s) ->
  forall acc s, fst (foldM f acc l s) = s.
Proof.
  intros Hf. induction l as [|x l IH]; intros acc s; [reflexivity|].
  cbn [foldM]. apply pure_bind; [apply Hf | intros acc'; apply IH].
Qed.

Lemma pure_assert {S} b a (s : S) : fst (assert b a s) = s.
Proof. now destruct b. Qed.

(** The check of the dataset either raises and touches nothing, or returns
    after printing the one line that names the boundary. *)
Lemma _check_xarray_dataset_world (d : Dataset A) (s : State A unit) :
  let out := _check_xarray_dataset d expected_dims s in
  (fst out = s /\ exists e, snd out = Raise e)
  \/ exists c v,
       out = (mkState (st_self s)
                (mkWorld (w_files (st_world s)) (w_dirs (st_world s))
                         (w_stdout (st_world s) ++ [MsgBoundary c v])), Ok tt).
Proof.
  unfold _check_xarray_dataset.
  match goal with
  | |- context [bind (for_each ?l ?b) ?k] =>
      assert (Hloop : forall s0 : State A unit, fst (for_each l b s0) = s0)
  end.
  { apply pure_for_each. intros dim s0.
    apply pure_bind; [apply pure_assert|]. intros _ s1.
    apply pure_bind; [reflexivity|]. intros cdims s2.
    destruct cdims; [reflexivity | apply pure_assert]. }
  match goal with
  | |- context [bind (foldM ?f ?a ?l) ?k] =>
      assert (Hfold : forall s0 : State A unit, fst (foldM f a l s0) = s0)
  end.
  { intros s0. apply pure_foldM. reflexivity. }
  specialize (Hloop s). specialize (Hfold s).
  unfold bind in *. cbv zeta.
  destruct (for_each _ _ s) as [s1 [[]|e]]; cbn [fst] in Hloop; subst s1;
    [|left; eauto].
  destruct (foldM _ _ _ s) as [s1 [rest|e]]; cbn [fst] in Hfold; subst s1;
    [|left; eauto].
  destruct (length rest =? 1); cbn [assert ret raise]; [|left; eauto].
  destruct rest as [|constdim rest']; [left; eauto|].
  unfold lift. destruct (constdim_value d constdim) as [v|e]; [|left; eauto].
  right. exists constdim, v. reflexivity.
Qed.

(** X21. Whatever its arguments and whether it returns or raises, the
    constructor of [BoundaryCoupling] writes no file and removes no folder,
    and it has printed nothing or the one line that names the boundary.
    When it returns it has printed that line. *)
Theorem boundary_init_world
    dpath0 (d : Dataset A) name dateref datefrom dateto (s : State A unit) :
  let out := __init__ dpath0 d name dateref datefrom dateto s in
  let w := st_world s in
  let w' := st_world (fst out) in
  w_files w' = w_files w
  /\ w_dirs w ⊆ w_dirs w'
  /\ ((w_stdout w' = w_stdout w /\ exists e, snd out = Raise e)
      \/ exists c v, w_stdout w' = (w_stdout w ++ [MsgBoundary c v])%list).
Proof.
  intros out w w'.
  enough (w_files w' = w_files w
          /\ w_dirs w' = {[path_join dpath0 name]} ∪ w_dirs w
          /\ ((w_stdout w' = w_stdout w /\ exists e, snd out = Raise e)
              \/ exists c v, w_stdout w' = (w_stdout w ++ [MsgBoundary c v])%list))
    as (Hf & Hd & Ho).
  { rewrite Hd. split; [exact Hf|]. split; [set_solver | exact Ho]. }
  assert (Hout : exists s' r,
            out = (s', r)
            /\ w_files (st_world s') = w_files w
            /\ w_dirs (st_world s') = {[path_join dpath0 name]} ∪ w_dirs w
            /\ ((w_stdout (st_world s') = w_stdout w /\ exists e, r = Raise e)
                \/ exists c v,
                     w_stdout (st_world s') = (w_stdout w ++ [MsgBoundary c v])%list)).
  { subst out w. unfold __init__.
    unfold bind at 1. cbn [isdir].
    set (dp := path_join dpath0 name).
    assert (Hmk : exists w1,
              (if bool_decide (dp ∈ w_dirs (st_world s)) then ret tt
               else makedirs dp) s = (mkState (st_self s) w1, Ok tt)
              /\ w_files w1 = w_files (st_world s)
              /\ w_stdout w1 = w_stdout (st_world s)
              /\ w_dirs w1 = {[dp]} ∪ w_dirs (st_world s)).
    { destruct s as [[] w0]. case_bool_decide as Hin.
      - exists w0. repeat split; auto. cbn. set_solver.
      - eexists. split; [reflexivity|]. auto. }
    destruct Hmk as (w1 & Hmk & Hf & Ho & Hd).
    erewrite bind_ok by exact Hmk.
    match goal with
    | |- context [bind (_check_xarray_dataset d expected_dims) ?k] =>
        assert (Hrest : forall u s0, fst (k u s0) = s0)
    end.
    { intros u s0.
      apply pure_bind.
      { intros s1. destruct datefrom; [reflexivity|].
        apply pure_bind; reflexivity. }
      intros from s1. apply pure_bind.
      { intros s2. destruct dateto; [reflexivity|].
        apply pure_bind; reflexivity. }
      intros to s2. apply pure_bind; [reflexivity|].
      intros d' s3. apply pure_bind.
      { intros s4. destruct dateref; [reflexivity|].
        apply pure_bind; [reflexivity|]. intros c s5.
        apply pure_bind; reflexivity. }
      intros ref s4. apply pure_bind; reflexivity. }
    destruct (_check_xarray_dataset_world d (mkState (st_self s) w1))
      as [[Hc [e He]] | (c & v & Hc)]; cbv zeta in *.
    - erewrite bind_raise.
      2:{ rewrite (surjective_pairing (_check_xarray_dataset _ _ _)), Hc, He.
          reflexivity. }
      eexists. eexists. split; [reflexivity|]. cbn [st_world].
      split; [exact Hf|]. split; [exact Hd|]. left. split; [exact Ho|eauto].
    - erewrite bind_ok by exact Hc.
      match goal with
      | |- exists s' r, ?m ?s0 = _ /\ _ =>
          specialize (Hrest tt s0); destruct (m s0) as [s3 r3]
      end.
      cbn [fst] in Hrest. subst s3.
      eexists. eexists. split; [reflexivity|].
      cbn [st_world w_files w_dirs w_stdout].
      split; [exact Hf|]. split; [exact Hd|].
      right. exists c, v. now rewrite Ho. }
  destruct Hout as (s' & r & E & Hf & Hd & Ho).
  subst w'. rewrite E. cbn [fst snd]. auto.
Qed.
End BoundaryConstruction.

(** ** InternalCoupling: assertions of the time-height writer *)

Section TimeHeightFailure.
Context {A : Type} `{!DType A}.
Import InternalCoupling.
Local Abbreviation St := (State A (InternalCoupling.t A)).

Lemma asserts_bind {X Y} (m : M St X) (k : X -> M St Y) :
  never_asserts m -> (forall x, never_asserts (k x)) -> never_asserts (bind m k).
Proof.
  intros Hm Hk s s' a. unfold bind.
  destruct (m s) as [s1 [x|e]] eqn:E; [apply Hk|].
  intros [= <- ->]. exact (Hm _ _ _ E).
Qed.

Lemma asserts_modify_world f : never_asserts (modify_world f : M St unit).
Proof. intros s s' a. discriminate. Qed.

Lemma asserts_ret {X} (x : X) : never_asserts (ret x : M St X).
Proof. intros s s' a. discriminate. Qed.

Lemma asserts_lift {X} (r : result X) :
  (forall a, r <> Raise (AssertionError a)) -> never_asserts (lift r : M St X).
Proof. intros Hr s s' a [= _ E]. exact (Hr _ E). Qed.

Lemma savetxt_rows_asserts format (rows : list (list A)) a :
  snd (savetxt_rows format rows) <> Raise (AssertionError a).
Proof.
  induction rows as [|r rows IH]; cbn [savetxt_rows]; [discriminate|].
  unfold pyformat. destruct (pyformat_go FLit format r); [|discriminate].
  destruct (savetxt_rows format rows) as [txt r']. exact IH.
Qed.

Lemma savetxt_asserts ncol (rows : list (list A)) fmt header footer comments a :
  snd (savetxt ncol rows fmt header footer comments) <> Raise (AssertionError a).
Proof.
  unfold savetxt.
  destruct (savetxt_format fmt ncol) as [format|e] eqn:Hf.
  - pose proof (savetxt_rows_asserts format rows a) as Hr.
    destruct (savetxt_rows format rows) as [body [[]|e]]; cbn in *;
      [discriminate | exact Hr].
  - cbn. unfold savetxt_format in Hf. destruct fmt; repeat case_match; congruence.
Qed.

Lemma asserts_fsavetxt p ncol (rows : list (list A)) fmt header footer comments :
  never_asserts
    (fsavetxt p (savetxt ncol rows fmt header footer comments) : M St unit).
Proof.
  unfold fsavetxt, fwrite_str, fwrite.
  apply asserts_bind; [apply asserts_modify_world|]. intros _.
  apply asserts_lift. intros a. apply savetxt_asserts.
Qed.

Lemma asserts_write_heights path label (zs : list A) :
  never_asserts (write_heights path label zs).
Proof.
  unfold write_heights, fwrite_str, fwrite, savetxt_1d.
  apply asserts_bind; [apply asserts_modify_world|]. intros _.
  apply asserts_fsavetxt.
Qed.

Lemma asserts_write_table path label ts nz p field :
  never_asserts (write_table path label ts nz p field).
Proof.
  unfold write_table, fwrite_str, fwrite.
  apply asserts_bind; [apply asserts_modify_world|]. intros _.
  apply asserts_bind.
  { apply asserts_lift. intros a. unfold pivot_getitem.
    destruct (assoc _ _); discriminate. }
  intros block. apply asserts_bind.
  { apply asserts_lift. intros a. unfold concat_time.
    destruct (_ =? _); discriminate. }
  intros rows. apply asserts_fsavetxt.
Qed.

Lemma pivot_asserts (d : DataFrame A) names a :
  pivot d names <> Raise (AssertionError a).
Proof.
  unfold pivot. destruct (assoc "height" _); [|discriminate].
  destruct (bool_decide (names = [])); [discriminate|].
  destruct (negb _); [discriminate|].
  assert (Hfor : for_result names
            (fun f => if has_column f d then Ok tt else Raise (KeyError f))
            <> Raise (AssertionError a)).
  { induction names as [|f names IH]; cbn; [discriminate|].
    destruct (has_column f d); [exact IH | discriminate]. }
  destruct (for_result _ _) as [[]|e]; [|intros [= ->]; now apply Hfor].
  destruct (negb _); discriminate.
Qed.

(** The completeness check of the pivoted fields changes nothing. *)
Lemma pivot_check_pure (p : PivotTable) names (s : St) :
  fst (for_each names (fun field =>
         block <- lift (pivot_getitem p field) ;;
         assert (negb (existsb any_isna block)) (A_pivot_complete field)) s)
  = s.
Proof.
  revert s. induction names as [|f names IH]; intros s; [reflexivity|].
  cbn [for_each]. unfold bind at 1. unfold bind at 1, lift at 1.
  destruct (pivot_getitem p f) as [block|e]; [|reflexivity].
  destruct (negb _); cbn [assert ret raise fst]; [apply IH | reflexivity].
Qed.

(** X22. When [write_timeheight] fails an assertion, no file has been
    created or changed: the momentum arguments and the completeness of the
    time-height tables are checked before the file is opened, and nothing
    after that raises an assertion. *)
Theorem write_timeheight_assertion_before_output
    fname xmom ymom zmom temp (s s' : St) a :
  write_timeheight fname xmom ymom zmom temp s
  = (s', Raise (AssertionError a)) ->
  st_world s' = st_world s.
Proof.
  unfold write_timeheight. intros H.
  assert (Hbody : forall wm,
            timeheight_body wm fname xmom ymom zmom temp s
            = (s', Raise (AssertionError a)) -> st_world s' = st_world s).
  { clear H. intros wm H. unfold timeheight_body in H.
    unfold bind at 1 in H. cbn [get_self] in H.
    unfold bind at 1, lift at 1 in H.
    destruct (getattr _ "height") as [hs|e]; [|now injection H as <- _].
    unfold bind at 1, lift at 1 in H.
    destruct (getattr _ "t_index") as [tx|e]; [|now injection H as <- _].
    unfold bind at 1 in H. rewrite set_missing_to_zero_run in H.
    unfold timeheight_output in H.
    unfold bind at 1 in H. cbn [get_self st_self] in H.
    unfold bind at 1, lift at 1 in H.
    destruct (pivot _ _) as [p|e] eqn:Hp.
    2:{ injection H as <- ->. now apply pivot_asserts in Hp. }
    unfold bind at 1 in H.
    match type of H with
    | context [for_each ?l ?b ?s0] =>
        pose proof (pivot_check_pure p l s0) as Hpure;
        destruct (for_each l b s0) as [s1 [[]|e]]
    end; cbn [fst] in Hpure; subst s1.
    2:{ now injection H as <- _. }
    exfalso. revert H.
    match goal with
    | |- ?m ?s0 = _ -> False =>
        assert (Hna : never_asserts m); [|exact (Hna _ _ _)]
    end.
    apply asserts_bind; [apply asserts_modify_world|]. intros _.
    apply asserts_bind.
    - destruct wm, xmom, ymom, zmom; try apply asserts_ret.
      repeat (apply asserts_bind;
              [first [apply asserts_write_heights | apply asserts_write_table]
              | intros _]).
      apply asserts_write_table.
    - intros _. destruct temp as [tm|]; [|apply asserts_ret].
      destruct (String.eqb tm EmptyString); [apply asserts_ret|].
      apply asserts_bind; [apply asserts_write_heights | intros _].
      apply asserts_write_table. }
  destruct xmom, ymom, zmom; cbn in H;
    first [now injection H as <- _ | exact (Hbody _ H)].
Qed.
End TimeHeightFailure.

(** ** The properties above at concrete inputs *)

(** A source whose first index level is named time is rejected. *)
Lemma internal_init_multiindex_names_witness :
  exists a,
    snd (InternalCoupling.__init__ "out"
           (MultiFrame (Some "time") (Some "height") DatetimeIndex
                       [Scenario.T0] [F64.Fin 10] [("theta", [F64.Fin 300])])
           None None None Scenario.start)
    = Raise (AssertionError a)
    /\ (a = A_multiindex_datetime \/ a = A_multiindex_height).
Proof. apply internal_init_multiindex_names. discriminate. Defined.

(** A one-row source indexed by (datetime, height) and its flat form. *)
Lemma internal_init_multiindex_flattens_witness :
  InternalCoupling.__init__ "out"
    (MultiFrame (Some "datetime") (Some "height") DatetimeIndex
                [Scenario.T0] [F64.Fin 10] [("theta", [F64.Fin 300])])
    (Some Scenario.T0) None None Scenario.start
  = InternalCoupling.__init__ "out"
      (Frame (mkDF (Some "datetime") DatetimeIndex [Scenario.T0]
                   [("height", [F64.Fin 10]); ("theta", [F64.Fin 300])]))
      (Some Scenario.T0) None None Scenario.start.
Proof. apply internal_init_multiindex_flattens. compute_done. Defined.

(** A period that starts two hours after the first timestamp of a source of one hour. *)
Lemma internal_init_empty_period_witness :
  snd (InternalCoupling.__init__ "out" (Frame Scenario.single_height) None
         (Some (Scenario.T0 + 2 * Scenario.hour)%Z)
         (Some (Scenario.T0 + 3 * Scenario.hour)%Z) Scenario.start)
  = Raise (AssertionError A_no_data).
Proof.
  apply internal_init_empty_period.
  repeat constructor; unfold Scenario.T0, Scenario.hour; lia.
Defined.

(** The hourly source with the reference date at its first timestamp: t_index is 0 and 3600. *)
Lemma internal_init_t_index_witness :
  exists s' self,
    InternalCoupling.__init__ "out" (Frame Scenario.single_height)
      (Some Scenario.T0) (Some Scenario.T0)
      (Some (Scenario.T0 + Scenario.hour)%Z) Scenario.start
    = (s', Ok self)
    /\ getitem (InternalCoupling.df self) "t_index"
       = Ok [F64.Fin 0; F64.Fin 3600].
Proof.
  destruct (internal_init_t_index "out" Scenario.single_height Scenario.T0
              Scenario.T0 (Scenario.T0 + Scenario.hour)%Z Scenario.start
              eq_refl eq_refl eq_refl)
    as (s' & self & Hrun & _ & _ & _ & Ht).
  { apply Exists_cons_hd. unfold Scenario.T0, Scenario.hour. lia. }
  exists s', self. split; [exact Hrun|]. rewrite Ht. vm_compute. reflexivity.
Defined.

(** A field that is not a column of the hourly source: the call raises and
    the world is empty as before. *)
Lemma write_BCs_fails_without_output_witness :
  InternalCoupling.write_BCs "BCs" "flux" (F64.Fin 1)
    (mkState Scenario.internal_writer empty_world)
  = (mkState Scenario.internal_writer empty_world,
     Raise (AssertionError (A_field_in_df "flux"))).
Proof.
  apply (write_BCs_fails_without_output "BCs" "flux" (F64.Fin 1)
           Scenario.internal_writer empty_world).
  right. left. vm_compute. reflexivity.
Defined.

(** Two calls for theta on the hourly source. *)
Lemma write_BCs_replaces_file_witness :
  st_self (fst (InternalCoupling.write_BCs "BCs" "theta" (F64.Fin 1)
                  (mkState Scenario.internal_writer empty_world)))
  = Scenario.internal_writer.
Proof.
  refine (proj2 (write_BCs_replaces_file "BCs" "theta" (F64.Fin 1) (F64.Fin 2)
                   Scenario.internal_writer empty_world
                   [F64.Fin 0; F64.Fin 3600] [F64.Fin 300; F64.Fin 301]
                   _ _ _)); vm_compute; reflexivity.
Defined.

(** The hourly source with a single height has one row at the start date. *)
Lemma write_ICs_needs_two_rows_witness :
  exists e,
    InternalCoupling.write_ICs "ICs" "u" "v" "theta"
      (mkState Scenario.internal_writer empty_world)
    = (mkState Scenario.internal_writer empty_world, Raise e)
    /\ (e = KeyError "label" \/ e = AttributeError "columns").
Proof.
  refine (proj2 (write_ICs_needs_two_rows "out" (Frame Scenario.single_height)
                   (Some Scenario.T0) None Scenario.start
                   (mkState tt (mkWorld ∅ {["out"]} []))
                   "ICs" "u" "v" "theta" Scenario.internal_writer empty_world
                   _ _)).
  - vm_compute. reflexivity.
  - vm_compute. lia.
Defined.

(** The source with two heights per timestamp: one line per height. *)
Lemma write_ICs_profile_witness :
  w_files (st_world (fst
    (InternalCoupling.write_ICs "ICs" "u" "v" "theta"
       (mkState (InternalCoupling.mk "out"
                   (setitem Scenario.two_heights "t_index"
                      [F64.Fin 0; F64.Fin 0; F64.Fin 3600; F64.Fin 3600])
                   Scenario.T0)
                empty_world))))
    !! "out/ICs"
  = Some (Plain (str_bytes ("    (10 0 0 300)" +:+ nl +:+
                            "    (20 0 0 305)" +:+ nl))).
Proof.
  pose proof (write_ICs_profile "out" (Frame Scenario.two_heights) Scenario.T0
                None Scenario.start (mkState tt (mkWorld ∅ {["out"]} []))
                "ICs" "u" "v" "theta"
                (InternalCoupling.mk "out"
                   (setitem Scenario.two_heights "t_index"
                      [F64.Fin 0; F64.Fin 0; F64.Fin 3600; F64.Fin 3600])
                   Scenario.T0)
                empty_world
                (mkDF (Some "datetime") DatetimeIndex [Scenario.T0; Scenario.T0]
                      [("height", [F64.Fin 10; F64.Fin 20]);
                       ("theta", [F64.Fin 300; F64.Fin 305]);
                       ("t_index", [F64.Fin 0; F64.Fin 0])])
                [F64.Fin 10; F64.Fin 20]) as H.
  cbv zeta in H. destruct H as [_ Hrun].
  - vm_compute. reflexivity.
  - vm_compute. reflexivity.
  - vm_compute. reflexivity.
  - intros f col Hf.
    repeat (apply elem_of_cons in Hf as [->|Hf]); try (inversion Hf; fail);
      vm_compute; intros [= <-]; reflexivity.
  - rewrite Hrun. vm_compute. reflexivity.
Defined.

(** The writer of the west boundary, fresh from the constructor. *)
Lemma field_writers_need_write_witness :
  exists s' bc,
    BoundaryCoupling.__init__ "out" Scenario.west_input "west"
      (Some Scenario.T0) None None Scenario.start = (s', Ok bc)
    /\ BoundaryCoupling._write_boundary_scalar "T" "theta" false false
         (mkState bc empty_world)
       = (mkState bc empty_world, Raise (AttributeError "bndry_dims")).
Proof.
  eexists. eexists. split.
  - vm_compute. reflexivity.
  - refine (proj1 (field_writers_need_write "out" Scenario.west_input "west"
                     (Some Scenario.T0) None None Scenario.start _ _
                     "T" "theta" ["u"; "v"; "w"] false false empty_world _)).
    vm_compute. reflexivity.
Defined.

(** A dataset over datetime and x alone. *)
Lemma write_needs_two_plane_dims_witness :
  exists w',
    BoundaryCoupling.write [("T", ScalarVar "theta")] false false
      (mkState (BoundaryCoupling.mk "line" "out/line"
                  (@mkDS F64.f64 [("datetime", 1); ("x", 2)] None None ∅ ∅)
                  Scenario.T0 None) empty_world)
    = (mkState (BoundaryCoupling.mk "line" "out/line"
                  (@mkDS F64.f64 [("datetime", 1); ("x", 2)] None None ∅ ∅)
                  Scenario.T0 (Some ["x"])) w',
       Raise (AssertionError A_two_bndry_dims))
    /\ w_files w' = ∅ /\ w_dirs w' = ∅.
Proof.
  apply (write_needs_two_plane_dims [("T", ScalarVar "theta")] false false
           (BoundaryCoupling.mk "line" "out/line"
              (@mkDS F64.f64 [("datetime", 1); ("x", 2)] None None ∅ ∅)
              Scenario.T0 None) empty_world).
  - compute_done.
  - vm_compute. lia.
Defined.

(** The six points of the west boundary as float64: 145 bytes after the header. *)
Lemma write_points_binary_size_witness :
  exists bytes,
    w_files (st_world (fst (BoundaryCoupling._write_points "points" true false
               (mkState (Scenario.west_writer Scenario.T0) empty_world))))
      !! "out/west/points" = Some (Plain bytes)
    /\ length bytes
       = String.length (BoundaryCoupling.boundaryDataHeader 6) + 145.
Proof.
  destruct (write_points_binary_size "points" false
              (Scenario.west_writer Scenario.T0) empty_world 8
              (west_wf Scenario.T0))
    as (bytes & Hfile & Hlen & _).
  { intros v. reflexivity. }
  exists bytes. split; [exact Hfile|]. rewrite Hlen. reflexivity.
Defined.

(** The timesteps at 1000000 s and 1000001 s are both named 1e+06. *)
Lemma timesteps_named_alike_share_file_witness :
  BoundaryCoupling.tname (1000000 # 1) = "1e+06"
  /\ BoundaryCoupling.tname (1000001 # 1) = "1e+06"
  /\ w_files (st_world
       (fst (BoundaryCoupling.scalar_step "T" false false (1000001 # 1)
               Scenario.T0 [F64.Fin 2]
               (fst (BoundaryCoupling.scalar_step "T" false false (1000000 # 1)
                       Scenario.T0 [F64.Fin 1]
                       (mkState (Scenario.west_writer Scenario.T0) empty_world))))))
     = w_files (st_world
         (fst (BoundaryCoupling.scalar_step "T" false false (1000001 # 1)
                 Scenario.T0 [F64.Fin 2]
                 (mkState (Scenario.west_writer Scenario.T0) empty_world)))).
Proof.
  split; [vm_compute; reflexivity|]. split; [vm_compute; reflexivity|].
  apply timesteps_named_alike_share_file; vm_compute; reflexivity.
Defined.

(** A file that is in the world before the call. *)
Lemma write_never_removes_files_witness :
  is_Some (w_files (st_world (fst
    (BoundaryCoupling.write [("T", ScalarVar "theta")] false false
       (mkState (Scenario.west_writer Scenario.T0)
                (mkWorld {["notes.txt" := Plain []]} ∅ [])))))
    !! "notes.txt").
Proof.
  apply write_never_removes_files. cbn [st_world w_files].
  rewrite lookup_singleton_eq. eauto.
Defined.

(** The west boundary restricted to its second timestamp. *)
Lemma boundary_init_selects_period_witness :
  exists s' bc,
    BoundaryCoupling.__init__ "out" Scenario.west_input "west"
      (Some Scenario.T0) (Some (Scenario.T0 + Scenario.hour)%Z)
      (Some (Scenario.T0 + Scenario.hour)%Z) Scenario.start = (s', Ok bc)
    /\ ds_t_index (BoundaryCoupling.ds bc)
       = Some [3600000000000 # 1000000000].
Proof.
  eexists. eexists. split.
  - vm_compute. reflexivity.
  - destruct (boundary_init_selects_period "out" Scenario.west_input "west"
                Scenario.T0 (Scenario.T0 + Scenario.hour)%Z
                (Scenario.T0 + Scenario.hour)%Z Scenario.start _ _
                (mkND ["datetime"] [2] [Scenario.T0; (Scenario.T0 + Scenario.hour)%Z])
                eq_refl eq_refl eq_refl ltac:(vm_compute; reflexivity))
      as (_ & _ & Ht).
    rewrite Ht. vm_compute. reflexivity.
Defined.

(** One momentum component given alone. *)
Lemma write_timeheight_assertion_before_output_witness :
  exists s' a,
    InternalCoupling.write_timeheight "forcing" (Some "u") None None None
      (mkState Scenario.internal_writer empty_world)
    = (s', Raise (AssertionError a))
    /\ st_world s' = empty_world.
Proof.
  assert (H : InternalCoupling.write_timeheight "forcing" (Some "u") None None None
                (mkState Scenario.internal_writer empty_world)
              = (mkState Scenario.internal_writer empty_world,
                 Raise (AssertionError A_all_momentum))).
  { vm_compute. reflexivity. }
  eexists. eexists. split; [exact H|].
  exact (write_timeheight_assertion_before_output _ _ _ _ _ _ _ _ H).
Defined.
